(** * go-oanda-streaming-api: the streaming client, embedded in Rocq

    A shallow embedding of [client/client.go] (the price feed) and of its
    later revision that adds the transaction feed and [NewTransaction].
    Go values are modelled as follows.

    - [string]: the byte string [String.string].
    - [error]: the text of the error ([Error()]); a nil error is [None].
    - a function returning [(T, error)]: a pair [T * option error], both
      components as the Go code returns them.
    - [float64]: the IEEE 754 binary64 values of [SpecFloat], compared with
      [SFeqb] and [SFltb].
    - a method with a pointer receiver that assigns to the receiver returns
      the updated record next to its results.
    - the package variable [baseUrl]: a field of an explicit [Globals] state
      that the constructors thread.
    - the handler passed to [Run]: a function on the caller's state and on
      the record it is handed a pointer to.
    - the network: a function from the request to what the connection
      yields, an error or a finite body followed by the reader's error.

    [json.Unmarshal] is modelled in full for the two record types, from the
    bytes of a line.  The other library functions the client calls
    ([strconv.ParseFloat], [time.Parse], [fmt.Sprintf] and the timestamp
    parser behind [time.Time.UnmarshalJSON]) are the members of the class
    [GoLibrary]: every theorem about the client holds for every instance,
    and [Reference.library] is an executable instance used to run the
    client on concrete inputs. *)

From Stdlib Require Import ZArith List String Ascii Bool Lia.
From Stdlib Require Import Floats.SpecFloat.
Import ListNotations.

Set Warnings "-register-all".

Local Open Scope string_scope.
Local Open Scope Z_scope.

(** ** Go values *)

Definition error := string.

(** [errors.New(fmt.Sprint(prefix, err))]: the first operand is a string, so
    [Sprint] puts no space between the two. *)
Definition errors_New_Sprint (prefix : string) (err : error) : error :=
  prefix ++ err.

(** Go's [==] and [<] on [float64] are the IEEE 754 comparisons: any
    comparison with a NaN is false, and the two zeros are equal. *)
Definition float64 := spec_float.

Definition f64_zero : float64 := S754_zero false.
Definition f64_eqb : float64 -> float64 -> bool := SFeqb.
Definition f64_ltb : float64 -> float64 -> bool := SFltb.

Definition f64_is_nan (x : float64) : bool :=
  match x with S754_nan => true | _ => false end.

Definition wrap64 (z : Z) : Z := (z + 2 ^ 63) mod 2 ^ 64 - 2 ^ 63.

(** [time.Time]: an instant, in seconds and nanoseconds since
    0001-01-01T00:00:00Z, and the UTC offset of its location. *)
Record time_Time := mkTime {
  abs_sec : Z;
  nsec : Z;
  zone_offset : Z
}.

Definition time_zero : time_Time := mkTime 0 0 0.

Definition time_IsZero (t : time_Time) : bool :=
  (abs_sec t =? 0) && (nsec t =? 0).

Definition internalToUnix : Z := - 62135596800.

Definition time_Unix (t : time_Time) : Z := wrap64 (abs_sec t + internalToUnix).

Definition time_Nanosecond (t : time_Time) : Z := nsec t.

(** ** Bytes and characters *)

Definition code (c : ascii) : Z := Z.of_N (N_of_ascii c).

Definition byte_of (z : Z) : ascii := ascii_of_N (Z.to_N z).

Definition dquote : ascii := "034"%char.
Definition newline : ascii := "010"%char.

Definition in_range (lo hi : Z) (c : ascii) : bool :=
  (lo <=? code c) && (code c <=? hi).

Definition is_digit (c : ascii) : bool := in_range 48 57 c.
Definition is_lower (c : ascii) : bool := in_range 97 122 c.
Definition is_upper (c : ascii) : bool := in_range 65 90 c.

Definition digit_value (c : ascii) : Z := code c - 48.

Definition to_lower (c : ascii) : ascii :=
  if is_upper c then byte_of (code c + 32) else c.

Definition to_upper (c : ascii) : ascii :=
  if is_lower c then byte_of (code c - 32) else c.

Fixpoint map_string (f : ascii -> ascii) (s : string) : string :=
  match s with
  | EmptyString => EmptyString
  | String c r => String (f c) (map_string f r)
  end.

Definition quoted (s : string) : string :=
  String dquote (s ++ String dquote EmptyString).

(** ** The library boundary *)

Class GoLibrary := {
  (** [strconv.ParseFloat(s, 64)] *)
  strconv_ParseFloat : string -> float64 * option error;
  (** [time.Parse(time.RFC3339Nano, s)] *)
  time_Parse_RFC3339Nano : string -> time_Time * option error;
  (** the parser [time.Time.UnmarshalJSON] applies to the bytes between
      the quotes of a string literal *)
  time_parse_json_string : string -> time_Time * option error;
  (** [fmt.Sprintf(format, args...)] with string operands *)
  fmt_Sprintf : string -> list string -> string
}.

(** ** Quote *)

Module Quote.

Record t := mk {
  Liquidity : float64;
  Price : string
}.

Definition zero : t := mk f64_zero EmptyString.

Definition set_Liquidity (v : float64) (q : t) : t := mk v (Price q).
Definition set_Price (v : string) (q : t) : t := mk (Liquidity q) v.

Section Methods.
Context {L : GoLibrary}.

Definition PriceAsFloat (q : t) : float64 * option error :=
  let '(val, err) := strconv_ParseFloat (Price q) in
  match err with
  | Some e => (f64_zero, Some e)
  | None => (val, None)
  end.

End Methods.
End Quote.

(** ** Tick *)

Module Tick.

(** The field [Type] is spelled [Type_]. *)
Record t := mk {
  Asks : list Quote.t;
  Bids : list Quote.t;
  CloseoutAsk : string;
  CloseoutBid : string;
  Instrument : string;
  Status : string;
  Time : string;
  Type_ : string;
  (* used to avoid parsing the Time multiple times *)
  parsedTime : time_Time
}.

(** [&Tick{}] *)
Definition zero : t := mk [] [] EmptyString EmptyString EmptyString EmptyString EmptyString EmptyString time_zero.

Definition set_Asks (v : list Quote.t) (k : t) : t :=
  mk v (Bids k) (CloseoutAsk k) (CloseoutBid k) (Instrument k) (Status k)
     (Time k) (Type_ k) (parsedTime k).
Definition set_Bids (v : list Quote.t) (k : t) : t :=
  mk (Asks k) v (CloseoutAsk k) (CloseoutBid k) (Instrument k) (Status k)
     (Time k) (Type_ k) (parsedTime k).
Definition set_CloseoutAsk (v : string) (k : t) : t :=
  mk (Asks k) (Bids k) v (CloseoutBid k) (Instrument k) (Status k)
     (Time k) (Type_ k) (parsedTime k).
Definition set_CloseoutBid (v : string) (k : t) : t :=
  mk (Asks k) (Bids k) (CloseoutAsk k) v (Instrument k) (Status k)
     (Time k) (Type_ k) (parsedTime k).
Definition set_Instrument (v : string) (k : t) : t :=
  mk (Asks k) (Bids k) (CloseoutAsk k) (CloseoutBid k) v (Status k)
     (Time k) (Type_ k) (parsedTime k).
Definition set_Status (v : string) (k : t) : t :=
  mk (Asks k) (Bids k) (CloseoutAsk k) (CloseoutBid k) (Instrument k) v
     (Time k) (Type_ k) (parsedTime k).
Definition set_Time (v : string) (k : t) : t :=
  mk (Asks k) (Bids k) (CloseoutAsk k) (CloseoutBid k) (Instrument k) (Status k)
     v (Type_ k) (parsedTime k).
Definition set_Type (v : string) (k : t) : t :=
  mk (Asks k) (Bids k) (CloseoutAsk k) (CloseoutBid k) (Instrument k) (Status k)
     (Time k) v (parsedTime k).
Definition set_parsedTime (v : time_Time) (k : t) : t :=
  mk (Asks k) (Bids k) (CloseoutAsk k) (CloseoutBid k) (Instrument k) (Status k)
     (Time k) (Type_ k) v.

(** [strings.Contains(s, substr)] *)
Fixpoint strings_Contains (s substr : string) : bool :=
  String.prefix substr s
  || match s with
     | EmptyString => false
     | String _ r => strings_Contains r substr
     end.

(** [strings.Replace(s, "_", EmptyString, 1)] *)
Fixpoint remove_first_underscore (s : string) : string :=
  match s with
  | EmptyString => EmptyString
  | String c r => if code c =? 95 then r else String c (remove_first_underscore r)
  end.

Definition IsJapanese (k : t) : bool := strings_Contains (Instrument k) "JPY".

Definition IsHeartbeat (k : t) : bool := String.eqb "HEARTBEAT" (Type_ k).

Definition IsTradeable (k : t) : bool := String.eqb "tradeable" (Status k).

Definition Symbol (k : t) : string := remove_first_underscore (Instrument k).

Section Methods.
Context {L : GoLibrary}.

(** [parseTime] assigns [t.parsedTime]: the updated Tick is returned with
    the results. *)
Definition parseTime (k : t) : t * (time_Time * option error) :=
  if negb (time_IsZero (parsedTime k)) then (k, (parsedTime k, None))
  else
    let '(parsed, err) := time_Parse_RFC3339Nano (Time k) in
    match err with
    | Some e => (k, (parsed, Some e))
    | None =>
        let k' := set_parsedTime parsed k in
        (k', (parsedTime k', None))
    end.

Definition UnixTimestamp (k : t) : t * (Z * option error) :=
  let '(k', (parsed, err)) := parseTime k in
  match err with
  | Some e => (k', (0, Some e))
  | None => (k', (time_Unix parsed, None))
  end.

Definition Nanoseconds (k : t) : t * (Z * option error) :=
  let '(k', (parsed, err)) := parseTime k in
  match err with
  | Some e => (k', (0, Some e))
  | None => (k', (time_Nanosecond parsed, None))
  end.

(** The [for _, ask := range t.Asks] loop of [BestAsk], entered with the
    current value of [best]. *)
Fixpoint BestAsk_range (asks : list Quote.t) (best : float64)
  : float64 * option error :=
  match asks with
  | [] => (best, None)
  | ask :: rest =>
      let '(val, err) := Quote.PriceAsFloat ask in
      match err with
      | Some e => (f64_zero, Some e)
      | None =>
          if f64_eqb f64_zero best then BestAsk_range rest val
          else if f64_ltb val best then BestAsk_range rest val
          else BestAsk_range rest best
      end
  end.

Definition BestAsk (k : t) : float64 * option error :=
  if Nat.eqb 0 (List.length (Asks k)) then (f64_zero, None)
  else BestAsk_range (Asks k) f64_zero.

(** The [for _, bid := range t.Bids] loop of [BestBid]. *)
Fixpoint BestBid_range (bids : list Quote.t) (best : float64)
  : float64 * option error :=
  match bids with
  | [] => (best, None)
  | bid :: rest =>
      let '(val, err) := Quote.PriceAsFloat bid in
      match err with
      | Some e => (f64_zero, Some e)
      | None =>
          if f64_ltb best val then BestBid_range rest val
          else BestBid_range rest best
      end
  end.

Definition BestBid (k : t) : float64 * option error :=
  if Nat.eqb 0 (List.length (Bids k)) then (f64_zero, None)
  else BestBid_range (Bids k) f64_zero.

End Methods.
End Tick.

(** ** Client and the package variable *)

Record Globals := mkGlobals {
  baseUrl : string
}.

(** [var baseUrl string] before any constructor has run *)
Definition initial_globals : Globals := mkGlobals EmptyString.

Module Client.

Record t := mk {
  account : string;
  token : string;
  currencies : string;
  client_type : string
}.

Definition New (account token currencies : string) (live : bool) (g : Globals)
  : Globals * t :=
  let g' :=
    if live then
      mkGlobals "https://stream-fxtrade.oanda.com/v3/accounts/%s/pricing/stream?instruments=%s"
    else
      mkGlobals "https://stream-fxpractice.oanda.com/v3/accounts/%s/pricing/stream?instruments=%s" in
  (g', mk account token currencies "PRICE").

Definition NewTransaction (account token : string) (live : bool) (g : Globals)
  : Globals * t :=
  let g' :=
    if live then
      mkGlobals "https://api-fxtrade.oanda.com/v3/accounts/%s/transactions/stream"
    else
      mkGlobals "https://api-fxpractice.oanda.com/v3/accounts/%s/transactions/stream" in
  (g', mk account token EmptyString "TRANSACTION").

Section Methods.
Context {L : GoLibrary}.

Definition url (g : Globals) (c : t) : string :=
  fmt_Sprintf (baseUrl g) [account c; currencies c].

End Methods.
End Client.

(** A program's constructor calls, in the order they run. *)
Inductive Construction :=
| CallNew (account token currencies : string) (live : bool)
| CallNewTransaction (account token : string) (live : bool).

Definition construct (call : Construction) (g : Globals) : Globals * Client.t :=
  match call with
  | CallNew a k c live => Client.New a k c live g
  | CallNewTransaction a k live => Client.NewTransaction a k live g
  end.

(** Runs the calls and collects the clients they return. *)
Fixpoint construct_all (calls : list Construction) (g : Globals)
  : Globals * list Client.t :=
  match calls with
  | [] => (g, [])
  | call :: rest =>
      let '(g1, c) := construct call g in
      let '(g2, cs) := construct_all rest g1 in
      (g2, c :: cs)
  end.

(** The endpoint template a constructor call selects: feed by constructor,
    host by the [live] flag. *)
Definition selected_template (call : Construction) : string :=
  match call with
  | CallNew _ _ _ true =>
      "https://stream-fxtrade.oanda.com/v3/accounts/%s/pricing/stream?instruments=%s"
  | CallNew _ _ _ false =>
      "https://stream-fxpractice.oanda.com/v3/accounts/%s/pricing/stream?instruments=%s"
  | CallNewTransaction _ _ true =>
      "https://api-fxtrade.oanda.com/v3/accounts/%s/transactions/stream"
  | CallNewTransaction _ _ false =>
      "https://api-fxpractice.oanda.com/v3/accounts/%s/transactions/stream"
  end.

(** ** encoding/json: the syntax of a line

    [json.Unmarshal] first checks that its input is one JSON value
    ([checkValid]) and only then stores it.  The syntax check is modelled by
    a lexer that walks the bytes once and a stack machine over its tokens,
    both total.  String literals keep their raw bytes (what an
    [UnmarshalJSON] method receives) next to their unquoted content. *)

Module Json.

Inductive value :=
| Null
| Boolean (b : bool)
| Number (literal : string)
| Str (raw : string) (content : string)
| Array (items : list value)
| Object (members : list (string * value)).

Inductive token :=
| TLBrace | TRBrace | TLBracket | TRBracket | TColon | TComma
| TString (raw : string)
| TNumber (literal : string)
| TWord (w : string).

Inductive lex_state :=
| LStart
| LString (rev_raw : list ascii) (escaped : bool)
| LNumber (rev_lit : list ascii)
| LWord (rev_w : list ascii).

Definition is_space (c : ascii) : bool :=
  (code c =? 32) || (code c =? 9) || (code c =? 13) || (code c =? 10).

Definition is_number_char (c : ascii) : bool :=
  is_digit c || (code c =? 43) || (code c =? 45) || (code c =? 46)
  || (code c =? 101) || (code c =? 69).

Definition unrev (acc : list ascii) : string :=
  string_of_list_ascii (rev acc).

(** A byte met between two tokens. *)
Definition lex_start (c : ascii) : option (lex_state * list token) :=
  if is_space c then Some (LStart, [])
  else if code c =? 123 then Some (LStart, [TLBrace])
  else if code c =? 125 then Some (LStart, [TRBrace])
  else if code c =? 91 then Some (LStart, [TLBracket])
  else if code c =? 93 then Some (LStart, [TRBracket])
  else if code c =? 58 then Some (LStart, [TColon])
  else if code c =? 44 then Some (LStart, [TComma])
  else if code c =? 34 then Some (LString [] false, [])
  else if is_digit c || (code c =? 45) then Some (LNumber [c], [])
  else if is_lower c then Some (LWord [c], [])
  else None.

Fixpoint lex (s : string) (st : lex_state) : option (list token) :=
  match s with
  | EmptyString =>
      match st with
      | LStart => Some []
      | LString _ _ => None
      | LNumber acc => Some [TNumber (unrev acc)]
      | LWord acc => Some [TWord (unrev acc)]
      end
  | String c r =>
      match st with
      | LStart =>
          match lex_start c with
          | None => None
          | Some (st', toks) => option_map (app toks) (lex r st')
          end
      | LString acc escaped =>
          if escaped then lex r (LString (c :: acc) false)
          else if code c =? 34 then
            option_map (cons (TString (unrev acc))) (lex r LStart)
          else if code c =? 92 then lex r (LString (c :: acc) true)
          else if code c <? 32 then None
          else lex r (LString (c :: acc) false)
      | LNumber acc =>
          if is_number_char c then lex r (LNumber (c :: acc))
          else
            match lex_start c with
            | None => None
            | Some (st', toks) =>
                option_map (fun l => TNumber (unrev acc) :: toks ++ l) (lex r st')
            end
      | LWord acc =>
          if is_lower c then lex r (LWord (c :: acc))
          else
            match lex_start c with
            | None => None
            | Some (st', toks) =>
                option_map (fun l => TWord (unrev acc) :: toks ++ l) (lex r st')
            end
      end
  end.

(** *** Number literals

    An optional minus sign; a single zero, or a non-zero digit and further
    digits; optionally a point and one or more digits; optionally [e] or
    [E], an optional sign and one or more digits. *)

Fixpoint skip_digits (s : string) : string :=
  match s with
  | String c r => if is_digit c then skip_digits r else s
  | EmptyString => s
  end.

Definition valid_exponent (s : string) : bool :=
  match s with
  | EmptyString => true
  | String e r =>
      if (code e =? 101) || (code e =? 69) then
        let r' :=
          match r with
          | String sg r1 => if (code sg =? 43) || (code sg =? 45) then r1 else r
          | EmptyString => r
          end in
        match r' with
        | String d r2 =>
            is_digit d && String.eqb (skip_digits r2) EmptyString
        | EmptyString => false
        end
      else false
  end.

Definition valid_fraction (s : string) : bool :=
  match s with
  | String p r =>
      if code p =? 46 then
        match r with
        | String d r1 => is_digit d && valid_exponent (skip_digits r1)
        | EmptyString => false
        end
      else valid_exponent s
  | EmptyString => true
  end.

Definition valid_number (s : string) : bool :=
  let s1 :=
    match s with
    | String m r => if code m =? 45 then r else s
    | EmptyString => s
    end in
  match s1 with
  | String d r =>
      if code d =? 48 then valid_fraction r
      else if is_digit d then valid_fraction (skip_digits r)
      else false
  | EmptyString => false
  end.

(** *** String literals: [unquote] *)

Definition hex_value (c : ascii) : option Z :=
  if is_digit c then Some (code c - 48)
  else if in_range 97 102 c then Some (code c - 87)
  else if in_range 65 70 c then Some (code c - 55)
  else None.

Definition hex4 (a b c d : ascii) : option Z :=
  match hex_value a, hex_value b, hex_value c, hex_value d with
  | Some x, Some y, Some z, Some w => Some (((x * 16 + y) * 16 + z) * 16 + w)
  | _, _, _, _ => None
  end.

(** [utf8.EncodeRune] *)
Definition utf8_encode (r : Z) : string :=
  if r <? 128 then String (byte_of r) EmptyString
  else if r <? 2048 then
    String (byte_of (192 + r / 64)) (String (byte_of (128 + r mod 64)) EmptyString)
  else if r <? 65536 then
    String (byte_of (224 + r / 4096))
      (String (byte_of (128 + (r / 64) mod 64))
         (String (byte_of (128 + r mod 64)) EmptyString))
  else
    String (byte_of (240 + r / 262144))
      (String (byte_of (128 + (r / 4096) mod 64))
         (String (byte_of (128 + (r / 64) mod 64))
            (String (byte_of (128 + r mod 64)) EmptyString))).

Definition replacement_char : string := utf8_encode 65533.

Definition is_cont (c : ascii) : bool := in_range 128 191 c.

(** The number of continuation bytes after the lead byte [c] when [c] and
    the bytes that follow are one well-formed UTF-8 sequence
    ([utf8.DecodeRune] does not return [RuneError]). *)
Definition utf8_tail (c : ascii) (r : string) : option nat :=
  let b := code c in
  match r with
  | String c1 r1 =>
      if (194 <=? b) && (b <=? 223) then
        if is_cont c1 then Some 1%nat else None
      else
        match r1 with
        | String c2 r2 =>
            let ok3 :=
              if b =? 224 then in_range 160 191 c1
              else if b =? 237 then in_range 128 159 c1
              else if (225 <=? b) && (b <=? 239) then is_cont c1
              else false in
            if ok3 && is_cont c2 then Some 2%nat
            else
              match r2 with
              | String c3 _ =>
                  let ok4 :=
                    if b =? 240 then in_range 144 191 c1
                    else if b =? 244 then in_range 128 143 c1
                    else if (241 <=? b) && (b <=? 243) then is_cont c1
                    else false in
                  if ok4 && is_cont c2 && is_cont c3 then Some 3%nat else None
              | EmptyString => None
              end
        | EmptyString => None
        end
  | EmptyString => None
  end.

Definition simple_escape (c : ascii) : option ascii :=
  let b := code c in
  if (b =? 34) || (b =? 92) || (b =? 47) then Some c
  else if b =? 98 then Some (byte_of 8)
  else if b =? 102 then Some (byte_of 12)
  else if b =? 110 then Some (byte_of 10)
  else if b =? 114 then Some (byte_of 13)
  else if b =? 116 then Some (byte_of 9)
  else None.

(** The low half of a surrogate pair, when the text goes on with one. *)
Definition low_surrogate (s : string) : option Z :=
  match s with
  | String bs (String u (String a (String b (String c (String d _))))) =>
      if (code bs =? 92) && (code u =? 117) then
        match hex4 a b c d with
        | Some lo => if (56320 <=? lo) && (lo <? 57344) then Some lo else None
        | None => None
        end
      else None
  | _ => None
  end.

(** [unquote]: the content of a string literal, given the bytes between its
    quotes.  [pending] continuation bytes of a well-formed UTF-8 sequence
    are copied; ill-formed bytes become U+FFFD; [None] is an escape that the
    syntax check refuses. *)
Fixpoint unquote (raw : string) (pending : nat) : option string :=
  match raw with
  | EmptyString => Some EmptyString
  | String c r =>
      match pending with
      | S p => option_map (String c) (unquote r p)
      | O =>
          if code c =? 92 then
            match r with
            | String e r1 =>
                if code e =? 117 then
                  match r1 with
                  | String a (String b (String c1 (String d r5))) =>
                      match hex4 a b c1 d with
                      | None => None
                      | Some hi =>
                          if (55296 <=? hi) && (hi <? 57344) then
                            match (if hi <? 56320 then low_surrogate r5 else None), r5 with
                            | Some lo,
                              String _ (String _ (String _ (String _ (String _ (String _ r11))))) =>
                                option_map
                                  (append (utf8_encode (65536 + (hi - 55296) * 1024 + (lo - 56320))))
                                  (unquote r11 O)
                            | _, _ =>
                                option_map (append replacement_char) (unquote r5 O)
                            end
                          else option_map (append (utf8_encode hi)) (unquote r5 O)
                      end
                  | _ => None
                  end
                else
                  match simple_escape e with
                  | Some x => option_map (String x) (unquote r1 O)
                  | None => None
                  end
            | EmptyString => None
            end
          else if code c <? 128 then option_map (String c) (unquote r O)
          else
            match utf8_tail c r with
            | Some k => option_map (String c) (unquote r k)
            | None => option_map (append replacement_char) (unquote r O)
            end
      end
  end.

(** *** The grammar, as a stack machine over the tokens *)

Definition scalar (t : token) : option value :=
  match t with
  | TString raw => option_map (Str raw) (unquote raw O)
  | TNumber lit => if valid_number lit then Some (Number lit) else None
  | TWord w =>
      if String.eqb w "true" then Some (Boolean true)
      else if String.eqb w "false" then Some (Boolean false)
      else if String.eqb w "null" then Some Null
      else None
  | _ => None
  end.

(** An array or object under construction. *)
Inductive frame :=
| FArray (rev_items : list value)
| FObject (rev_members : list (string * value)) (key : string).

Inductive expect :=
| EValue            (* a value *)
| EValueOrClose     (* after an opening bracket: a value or the closing one *)
| EKeyOrClose       (* after an opening brace: a key or the closing one *)
| EKey              (* after a comma in an object *)
| EColon            (* after a key *)
| ENext             (* after a value: a comma or the closing token *)
| EDone (v : value).

Definition maxNestingDepth : Z := 10000.

(** The state after value [v] is complete below [stack]. *)
Definition completed (v : value) (stack : list frame) : expect * list frame :=
  match stack with
  | [] => (EDone v, [])
  | FArray items :: rest => (ENext, FArray (v :: items) :: rest)
  | FObject members key :: rest =>
      (ENext, FObject ((key, v) :: members) key :: rest)
  end.

Definition open_frame (f : frame) (e : expect) (stack : list frame)
  : option (expect * list frame) :=
  if Z.of_nat (List.length stack) <? maxNestingDepth then Some (e, f :: stack)
  else None.

Definition begin_value (t : token) (stack : list frame)
  : option (expect * list frame) :=
  match t with
  | TLBracket => open_frame (FArray []) EValueOrClose stack
  | TLBrace => open_frame (FObject [] EmptyString) EKeyOrClose stack
  | _ => option_map (fun v => completed v stack) (scalar t)
  end.

Definition begin_key (t : token) (stack : list frame)
  : option (expect * list frame) :=
  match t, stack with
  | TString raw, FObject members _ :: rest =>
      option_map (fun k => (EColon, FObject members k :: rest))
                 (unquote raw O)
  | _, _ => None
  end.

Definition close (stack : list frame) : option (expect * list frame) :=
  match stack with
  | FArray items :: rest => Some (completed (Array (rev items)) rest)
  | FObject members _ :: rest => Some (completed (Object (rev members)) rest)
  | [] => None
  end.

Definition step (e : expect) (stack : list frame) (t : token)
  : option (expect * list frame) :=
  match e with
  | EValue => begin_value t stack
  | EValueOrClose =>
      match t, stack with
      | TRBracket, FArray _ :: _ => close stack
      | _, _ => begin_value t stack
      end
  | EKeyOrClose =>
      match t, stack with
      | TRBrace, FObject _ _ :: _ => close stack
      | _, _ => begin_key t stack
      end
  | EKey => begin_key t stack
  | EColon =>
      match t with
      | TColon => Some (EValue, stack)
      | _ => None
      end
  | ENext =>
      match t, stack with
      | TComma, FArray _ :: _ => Some (EValue, stack)
      | TComma, FObject _ _ :: _ => Some (EKey, stack)
      | TRBracket, FArray _ :: _ => close stack
      | TRBrace, FObject _ _ :: _ => close stack
      | _, _ => None
      end
  | EDone _ => None
  end.

Fixpoint run (toks : list token) (e : expect) (stack : list frame)
  : option value :=
  match toks with
  | [] => match e with EDone v => Some v | _ => None end
  | t :: rest =>
      match step e stack t with
      | Some (e', stack') => run rest e' stack'
      | None => None
      end
  end.

(** The value a line denotes, [None] when [checkValid] refuses the line. *)
Definition parse (line : string) : option value :=
  match lex line LStart with
  | Some toks => run toks EValue []
  | None => None
  end.

End Json.

(** ** Transaction *)

Module Transaction.

Record t := mk {
  Id : string;
  Time : time_Time;
  UserId : Z;
  AccountID : string;
  BatchId : string;
  RequestId : string;
  Type_ : string;
  OrderId : string;
  ClientOrderId : string;
  Instrument : string;
  Units : string;
  HomeConversionFactors : string;
  Price : string;
  FullVWAP : string;
  FullPrice : string;
  Reason : string;
  Pl : string;
  QuotePl : string;
  Financing : string;
  BaseFinancing : string;
  QuoteFinancing : string;
  Commission : string;
  GuaranteedExecutionFee : string;
  QuoteGuaranteedExecutionFee : string;
  AccountBalance : string;
  TradeOpened : string;
  TradeClosed : string;
  TradeReduced : string;
  HalfSpreadCost : string
}.

(** [&Transaction{}] *)
Definition zero : t :=
  mk EmptyString time_zero 0 EmptyString EmptyString EmptyString EmptyString EmptyString EmptyString EmptyString EmptyString EmptyString EmptyString EmptyString EmptyString EmptyString EmptyString EmptyString EmptyString EmptyString EmptyString EmptyString EmptyString EmptyString EmptyString EmptyString EmptyString EmptyString EmptyString.

Definition set_Id (v : string) (x : t) : t :=
  mk v (Time x) (UserId x) (AccountID x) (BatchId x) (RequestId x) (Type_ x)
    (OrderId x) (ClientOrderId x) (Instrument x) (Units x)
    (HomeConversionFactors x) (Price x) (FullVWAP x) (FullPrice x) (Reason x)
    (Pl x) (QuotePl x) (Financing x) (BaseFinancing x) (QuoteFinancing x)
    (Commission x) (GuaranteedExecutionFee x) (QuoteGuaranteedExecutionFee x)
    (AccountBalance x) (TradeOpened x) (TradeClosed x) (TradeReduced x)
    (HalfSpreadCost x).
Definition set_Time (v : time_Time) (x : t) : t :=
  mk (Id x) v (UserId x) (AccountID x) (BatchId x) (RequestId x) (Type_ x)
    (OrderId x) (ClientOrderId x) (Instrument x) (Units x)
    (HomeConversionFactors x) (Price x) (FullVWAP x) (FullPrice x) (Reason x)
    (Pl x) (QuotePl x) (Financing x) (BaseFinancing x) (QuoteFinancing x)
    (Commission x) (GuaranteedExecutionFee x) (QuoteGuaranteedExecutionFee x)
    (AccountBalance x) (TradeOpened x) (TradeClosed x) (TradeReduced x)
    (HalfSpreadCost x).
Definition set_UserId (v : Z) (x : t) : t :=
  mk (Id x) (Time x) v (AccountID x) (BatchId x) (RequestId x) (Type_ x)
    (OrderId x) (ClientOrderId x) (Instrument x) (Units x)
    (HomeConversionFactors x) (Price x) (FullVWAP x) (FullPrice x) (Reason x)
    (Pl x) (QuotePl x) (Financing x) (BaseFinancing x) (QuoteFinancing x)
    (Commission x) (GuaranteedExecutionFee x) (QuoteGuaranteedExecutionFee x)
    (AccountBalance x) (TradeOpened x) (TradeClosed x) (TradeReduced x)
    (HalfSpreadCost x).
Definition set_AccountID (v : string) (x : t) : t :=
  mk (Id x) (Time x) (UserId x) v (BatchId x) (RequestId x) (Type_ x)
    (OrderId x) (ClientOrderId x) (Instrument x) (Units x)
    (HomeConversionFactors x) (Price x) (FullVWAP x) (FullPrice x) (Reason x)
    (Pl x) (QuotePl x) (Financing x) (BaseFinancing x) (QuoteFinancing x)
    (Commission x) (GuaranteedExecutionFee x) (QuoteGuaranteedExecutionFee x)
    (AccountBalance x) (TradeOpened x) (TradeClosed x) (TradeReduced x)
    (HalfSpreadCost x).
Definition set_BatchId (v : string) (x : t) : t :=
  mk (Id x) (Time x) (UserId x) (AccountID x) v (RequestId x) (Type_ x)
    (OrderId x) (ClientOrderId x) (Instrument x) (Units x)
    (HomeConversionFactors x) (Price x) (FullVWAP x) (FullPrice x) (Reason x)
    (Pl x) (QuotePl x) (Financing x) (BaseFinancing x) (QuoteFinancing x)
    (Commission x) (GuaranteedExecutionFee x) (QuoteGuaranteedExecutionFee x)
    (AccountBalance x) (TradeOpened x) (TradeClosed x) (TradeReduced x)
    (HalfSpreadCost x).
Definition set_RequestId (v : string) (x : t) : t :=
  mk (Id x) (Time x) (UserId x) (AccountID x) (BatchId x) v (Type_ x)
    (OrderId x) (ClientOrderId x) (Instrument x) (Units x)
    (HomeConversionFactors x) (Price x) (FullVWAP x) (FullPrice x) (Reason x)
    (Pl x) (QuotePl x) (Financing x) (BaseFinancing x) (QuoteFinancing x)
    (Commission x) (GuaranteedExecutionFee x) (QuoteGuaranteedExecutionFee x)
    (AccountBalance x) (TradeOpened x) (TradeClosed x) (TradeReduced x)
    (HalfSpreadCost x).
Definition set_Type (v : string) (x : t) : t :=
  mk (Id x) (Time x) (UserId x) (AccountID x) (BatchId x) (RequestId x) v
    (OrderId x) (ClientOrderId x) (Instrument x) (Units x)
    (HomeConversionFactors x) (Price x) (FullVWAP x) (FullPrice x) (Reason x)
    (Pl x) (QuotePl x) (Financing x) (BaseFinancing x) (QuoteFinancing x)
    (Commission x) (GuaranteedExecutionFee x) (QuoteGuaranteedExecutionFee x)
    (AccountBalance x) (TradeOpened x) (TradeClosed x) (TradeReduced x)
    (HalfSpreadCost x).
Definition set_OrderId (v : string) (x : t) : t :=
  mk (Id x) (Time x) (UserId x) (AccountID x) (BatchId x) (RequestId x)
    (Type_ x) v (ClientOrderId x) (Instrument x) (Units x)
    (HomeConversionFactors x) (Price x) (FullVWAP x) (FullPrice x) (Reason x)
    (Pl x) (QuotePl x) (Financing x) (BaseFinancing x) (QuoteFinancing x)
    (Commission x) (GuaranteedExecutionFee x) (QuoteGuaranteedExecutionFee x)
    (AccountBalance x) (TradeOpened x) (TradeClosed x) (TradeReduced x)
    (HalfSpreadCost x).
Definition set_ClientOrderId (v : string) (x : t) : t :=
  mk (Id x) (Time x) (UserId x) (AccountID x) (BatchId x) (RequestId x)
    (Type_ x) (OrderId x) v (Instrument x) (Units x)
    (HomeConversionFactors x) (Price x) (FullVWAP x) (FullPrice x) (Reason x)
    (Pl x) (QuotePl x) (Financing x) (BaseFinancing x) (QuoteFinancing x)
    (Commission x) (GuaranteedExecutionFee x) (QuoteGuaranteedExecutionFee x)
    (AccountBalance x) (TradeOpened x) (TradeClosed x) (TradeReduced x)
    (HalfSpreadCost x).
Definition set_Instrument (v : string) (x : t) : t :=
  mk (Id x) (Time x) (UserId x) (AccountID x) (BatchId x) (RequestId x)
    (Type_ x) (OrderId x) (ClientOrderId x) v (Units x)
    (HomeConversionFactors x) (Price x) (FullVWAP x) (FullPrice x) (Reason x)
    (Pl x) (QuotePl x) (Financing x) (BaseFinancing x) (QuoteFinancing x)
    (Commission x) (GuaranteedExecutionFee x) (QuoteGuaranteedExecutionFee x)
    (AccountBalance x) (TradeOpened x) (TradeClosed x) (TradeReduced x)
    (HalfSpreadCost x).
Definition set_Units (v : string) (x : t) : t :=
  mk (Id x) (Time x) (UserId x) (AccountID x) (BatchId x) (RequestId x)
    (Type_ x) (OrderId x) (ClientOrderId x) (Instrument x) v
    (HomeConversionFactors x) (Price x) (FullVWAP x) (FullPrice x) (Reason x)
    (Pl x) (QuotePl x) (Financing x) (BaseFinancing x) (QuoteFinancing x)
    (Commission x) (GuaranteedExecutionFee x) (QuoteGuaranteedExecutionFee x)
    (AccountBalance x) (TradeOpened x) (TradeClosed x) (TradeReduced x)
    (HalfSpreadCost x).
Definition set_HomeConversionFactors (v : string) (x : t) : t :=
  mk (Id x) (Time x) (UserId x) (AccountID x) (BatchId x) (RequestId x)
    (Type_ x) (OrderId x) (ClientOrderId x) (Instrument x) (Units x) v
    (Price x) (FullVWAP x) (FullPrice x) (Reason x) (Pl x) (QuotePl x)
    (Financing x) (BaseFinancing x) (QuoteFinancing x) (Commission x)
    (GuaranteedExecutionFee x) (QuoteGuaranteedExecutionFee x)
    (AccountBalance x) (TradeOpened x) (TradeClosed x) (TradeReduced x)
    (HalfSpreadCost x).
Definition set_Price (v : string) (x : t) : t :=
  mk (Id x) (Time x) (UserId x) (AccountID x) (BatchId x) (RequestId x)
    (Type_ x) (OrderId x) (ClientOrderId x) (Instrument x) (Units x)
    (HomeConversionFactors x) v (FullVWAP x) (FullPrice x) (Reason x) (Pl x)
    (QuotePl x) (Financing x) (BaseFinancing x) (QuoteFinancing x)
    (Commission x) (GuaranteedExecutionFee x) (QuoteGuaranteedExecutionFee x)
    (AccountBalance x) (TradeOpened x) (TradeClosed x) (TradeReduced x)
    (HalfSpreadCost x).
Definition set_FullVWAP (v : string) (x : t) : t :=
  mk (Id x) (Time x) (UserId x) (AccountID x) (BatchId x) (RequestId x)
    (Type_ x) (OrderId x) (ClientOrderId x) (Instrument x) (Units x)
    (HomeConversionFactors x) (Price x) v (FullPrice x) (Reason x) (Pl x)
    (QuotePl x) (Financing x) (BaseFinancing x) (QuoteFinancing x)
    (Commission x) (GuaranteedExecutionFee x) (QuoteGuaranteedExecutionFee x)
    (AccountBalance x) (TradeOpened x) (TradeClosed x) (TradeReduced x)
    (HalfSpreadCost x).
Definition set_FullPrice (v : string) (x : t) : t :=
  mk (Id x) (Time x) (UserId x) (AccountID x) (BatchId x) (RequestId x)
    (Type_ x) (OrderId x) (ClientOrderId x) (Instrument x) (Units x)
    (HomeConversionFactors x) (Price x) (FullVWAP x) v (Reason x) (Pl x)
    (QuotePl x) (Financing x) (BaseFinancing x) (QuoteFinancing x)
    (Commission x) (GuaranteedExecutionFee x) (QuoteGuaranteedExecutionFee x)
    (AccountBalance x) (TradeOpened x) (TradeClosed x) (TradeReduced x)
    (HalfSpreadCost x).
Definition set_Reason (v : string) (x : t) : t :=
  mk (Id x) (Time x) (UserId x) (AccountID x) (BatchId x) (RequestId x)
    (Type_ x) (OrderId x) (ClientOrderId x) (Instrument x) (Units x)
    (HomeConversionFactors x) (Price x) (FullVWAP x) (FullPrice x) v (Pl x)
    (QuotePl x) (Financing x) (BaseFinancing x) (QuoteFinancing x)
    (Commission x) (GuaranteedExecutionFee x) (QuoteGuaranteedExecutionFee x)
    (AccountBalance x) (TradeOpened x) (TradeClosed x) (TradeReduced x)
    (HalfSpreadCost x).
Definition set_Pl (v : string) (x : t) : t :=
  mk (Id x) (Time x) (UserId x) (AccountID x) (BatchId x) (RequestId x)
    (Type_ x) (OrderId x) (ClientOrderId x) (Instrument x) (Units x)
    (HomeConversionFactors x) (Price x) (FullVWAP x) (FullPrice x) (Reason x)
    v (QuotePl x) (Financing x) (BaseFinancing x) (QuoteFinancing x)
    (Commission x) (GuaranteedExecutionFee x) (QuoteGuaranteedExecutionFee x)
    (AccountBalance x) (TradeOpened x) (TradeClosed x) (TradeReduced x)
    (HalfSpreadCost x).
Definition set_QuotePl (v : string) (x : t) : t :=
  mk (Id x) (Time x) (UserId x) (AccountID x) (BatchId x) (RequestId x)
    (Type_ x) (OrderId x) (ClientOrderId x) (Instrument x) (Units x)
    (HomeConversionFactors x) (Price x) (FullVWAP x) (FullPrice x) (Reason x)
    (Pl x) v (Financing x) (BaseFinancing x) (QuoteFinancing x)
    (Commission x) (GuaranteedExecutionFee x) (QuoteGuaranteedExecutionFee x)
    (AccountBalance x) (TradeOpened x) (TradeClosed x) (TradeReduced x)
    (HalfSpreadCost x).
Definition set_Financing (v : string) (x : t) : t :=
  mk (Id x) (Time x) (UserId x) (AccountID x) (BatchId x) (RequestId x)
    (Type_ x) (OrderId x) (ClientOrderId x) (Instrument x) (Units x)
    (HomeConversionFactors x) (Price x) (FullVWAP x) (FullPrice x) (Reason x)
    (Pl x) (QuotePl x) v (BaseFinancing x) (QuoteFinancing x) (Commission x)
    (GuaranteedExecutionFee x) (QuoteGuaranteedExecutionFee x)
    (AccountBalance x) (TradeOpened x) (TradeClosed x) (TradeReduced x)
    (HalfSpreadCost x).
Definition set_BaseFinancing (v : string) (x : t) : t :=
  mk (Id x) (Time x) (UserId x) (AccountID x) (BatchId x) (RequestId x)
    (Type_ x) (OrderId x) (ClientOrderId x) (Instrument x) (Units x)
    (HomeConversionFactors x) (Price x) (FullVWAP x) (FullPrice x) (Reason x)
    (Pl x) (QuotePl x) (Financing x) v (QuoteFinancing x) (Commission x)
    (GuaranteedExecutionFee x) (QuoteGuaranteedExecutionFee x)
    (AccountBalance x) (TradeOpened x) (TradeClosed x) (TradeReduced x)
    (HalfSpreadCost x).
Definition set_QuoteFinancing (v : string) (x : t) : t :=
  mk (Id x) (Time x) (UserId x) (AccountID x) (BatchId x) (RequestId x)
    (Type_ x) (OrderId x) (ClientOrderId x) (Instrument x) (Units x)
    (HomeConversionFactors x) (Price x) (FullVWAP x) (FullPrice x) (Reason x)
    (Pl x) (QuotePl x) (Financing x) (BaseFinancing x) v (Commission x)
    (GuaranteedExecutionFee x) (QuoteGuaranteedExecutionFee x)
    (AccountBalance x) (TradeOpened x) (TradeClosed x) (TradeReduced x)
    (HalfSpreadCost x).
Definition set_Commission (v : string) (x : t) : t :=
  mk (Id x) (Time x) (UserId x) (AccountID x) (BatchId x) (RequestId x)
    (Type_ x) (OrderId x) (ClientOrderId x) (Instrument x) (Units x)
    (HomeConversionFactors x) (Price x) (FullVWAP x) (FullPrice x) (Reason x)
    (Pl x) (QuotePl x) (Financing x) (BaseFinancing x) (QuoteFinancing x) v
    (GuaranteedExecutionFee x) (QuoteGuaranteedExecutionFee x)
    (AccountBalance x) (TradeOpened x) (TradeClosed x) (TradeReduced x)
    (HalfSpreadCost x).
Definition set_GuaranteedExecutionFee (v : string) (x : t) : t :=
  mk (Id x) (Time x) (UserId x) (AccountID x) (BatchId x) (RequestId x)
    (Type_ x) (OrderId x) (ClientOrderId x) (Instrument x) (Units x)
    (HomeConversionFactors x) (Price x) (FullVWAP x) (FullPrice x) (Reason x)
    (Pl x) (QuotePl x) (Financing x) (BaseFinancing x) (QuoteFinancing x)
    (Commission x) v (QuoteGuaranteedExecutionFee x) (AccountBalance x)
    (TradeOpened x) (TradeClosed x) (TradeReduced x) (HalfSpreadCost x).
Definition set_QuoteGuaranteedExecutionFee (v : string) (x : t) : t :=
  mk (Id x) (Time x) (UserId x) (AccountID x) (BatchId x) (RequestId x)
    (Type_ x) (OrderId x) (ClientOrderId x) (Instrument x) (Units x)
    (HomeConversionFactors x) (Price x) (FullVWAP x) (FullPrice x) (Reason x)
    (Pl x) (QuotePl x) (Financing x) (BaseFinancing x) (QuoteFinancing x)
    (Commission x) (GuaranteedExecutionFee x) v (AccountBalance x)
    (TradeOpened x) (TradeClosed x) (TradeReduced x) (HalfSpreadCost x).
Definition set_AccountBalance (v : string) (x : t) : t :=
  mk (Id x) (Time x) (UserId x) (AccountID x) (BatchId x) (RequestId x)
    (Type_ x) (OrderId x) (ClientOrderId x) (Instrument x) (Units x)
    (HomeConversionFactors x) (Price x) (FullVWAP x) (FullPrice x) (Reason x)
    (Pl x) (QuotePl x) (Financing x) (BaseFinancing x) (QuoteFinancing x)
    (Commission x) (GuaranteedExecutionFee x) (QuoteGuaranteedExecutionFee x)
    v (TradeOpened x) (TradeClosed x) (TradeReduced x) (HalfSpreadCost x).
Definition set_TradeOpened (v : string) (x : t) : t :=
  mk (Id x) (Time x) (UserId x) (AccountID x) (BatchId x) (RequestId x)
    (Type_ x) (OrderId x) (ClientOrderId x) (Instrument x) (Units x)
    (HomeConversionFactors x) (Price x) (FullVWAP x) (FullPrice x) (Reason x)
    (Pl x) (QuotePl x) (Financing x) (BaseFinancing x) (QuoteFinancing x)
    (Commission x) (GuaranteedExecutionFee x) (QuoteGuaranteedExecutionFee x)
    (AccountBalance x) v (TradeClosed x) (TradeReduced x) (HalfSpreadCost x).
Definition set_TradeClosed (v : string) (x : t) : t :=
  mk (Id x) (Time x) (UserId x) (AccountID x) (BatchId x) (RequestId x)
    (Type_ x) (OrderId x) (ClientOrderId x) (Instrument x) (Units x)
    (HomeConversionFactors x) (Price x) (FullVWAP x) (FullPrice x) (Reason x)
    (Pl x) (QuotePl x) (Financing x) (BaseFinancing x) (QuoteFinancing x)
    (Commission x) (GuaranteedExecutionFee x) (QuoteGuaranteedExecutionFee x)
    (AccountBalance x) (TradeOpened x) v (TradeReduced x) (HalfSpreadCost x).
Definition set_TradeReduced (v : string) (x : t) : t :=
  mk (Id x) (Time x) (UserId x) (AccountID x) (BatchId x) (RequestId x)
    (Type_ x) (OrderId x) (ClientOrderId x) (Instrument x) (Units x)
    (HomeConversionFactors x) (Price x) (FullVWAP x) (FullPrice x) (Reason x)
    (Pl x) (QuotePl x) (Financing x) (BaseFinancing x) (QuoteFinancing x)
    (Commission x) (GuaranteedExecutionFee x) (QuoteGuaranteedExecutionFee x)
    (AccountBalance x) (TradeOpened x) (TradeClosed x) v (HalfSpreadCost x).
Definition set_HalfSpreadCost (v : string) (x : t) : t :=
  mk (Id x) (Time x) (UserId x) (AccountID x) (BatchId x) (RequestId x)
    (Type_ x) (OrderId x) (ClientOrderId x) (Instrument x) (Units x)
    (HomeConversionFactors x) (Price x) (FullVWAP x) (FullPrice x) (Reason x)
    (Pl x) (QuotePl x) (Financing x) (BaseFinancing x) (QuoteFinancing x)
    (Commission x) (GuaranteedExecutionFee x) (QuoteGuaranteedExecutionFee x)
    (AccountBalance x) (TradeOpened x) (TradeClosed x) (TradeReduced x) v.

Definition IsOrderFill (x : t) : bool := String.eqb "ORDER_FILL" (Type_ x).

Definition IsMarketOrderTradeClose (x : t) : bool :=
  String.eqb "MARKET_ORDER_TRADE_CLOSE" (Reason x).

Definition IsTakeProfitOrder (x : t) : bool :=
  String.eqb "TAKE_PROFIT_ORDER" (Reason x).

End Transaction.

(** ** encoding/json: storing a value into a struct

    [Unmarshal] stores the members of a JSON object into the fields they
    name and leaves every other field of the target as it was.  A value of
    the wrong JSON kind is recorded as an [UnmarshalTypeError] and decoding
    goes on; the first recorded error is returned at the end.  An error
    returned by a field's own [UnmarshalJSON] method stops the decoding. *)

Module Unmarshal.

Inductive outcome (T : Type) :=
| Continue (x : T) (saved : option error)
| Abort (x : T) (e : error).

Arguments Continue {T} x saved.
Arguments Abort {T} x e.

(** [d.saveError]: the first error is kept. *)
Definition saveError (saved new : option error) : option error :=
  match saved with
  | Some _ => saved
  | None => new
  end.

Definition kind_of (v : Json.value) : string :=
  match v with
  | Json.Null => "null"
  | Json.Boolean _ => "bool"
  | Json.Number _ => "number"
  | Json.Str _ _ => "string"
  | Json.Array _ => "array"
  | Json.Object _ => "object"
  end.

Definition type_error (what where_ gotype : string) : error :=
  "json: cannot unmarshal " ++ what ++ " into Go struct field " ++ where_
  ++ " of type " ++ gotype.

Definition syntax_error : error := "json: invalid JSON input".

(** [foldName]: keys match field names without regard to letter case; of
    the characters outside ASCII, U+017F and U+212A are the two that fold to
    an ASCII letter. *)
Fixpoint foldName (s : string) : string :=
  match s with
  | EmptyString => EmptyString
  | String c r =>
      match r with
      | String c1 r1 =>
          if (code c =? 197) && (code c1 =? 191) then String "S" (foldName r1)
          else
            match r1 with
            | String c2 r2 =>
                if (code c =? 226) && (code c1 =? 132) && (code c2 =? 170)
                then String "K" (foldName r2)
                else String (to_upper c) (foldName r)
            | EmptyString => String (to_upper c) (foldName r)
            end
      | EmptyString => String (to_upper c) EmptyString
      end
  end.

Definition field_table (T : Type) : Type :=
  list (string * (Json.value -> T -> outcome T)).

(** The field a key names.  Go looks for an equal name first and for a name
    equal after folding second; no two names of one struct here fold to the
    same text, so the two lookups agree. *)
Fixpoint find_field {T} (key : string) (fields : field_table T)
  : option (Json.value -> T -> outcome T) :=
  match fields with
  | [] => None
  | (name, store) :: rest =>
      if String.eqb (foldName name) (foldName key) then Some store
      else find_field key rest
  end.

Fixpoint object_members {T} (fields : field_table T)
  (members : list (string * Json.value)) (x : T) (saved : option error)
  : outcome T :=
  match members with
  | [] => Continue x saved
  | (key, v) :: rest =>
      match find_field key fields with
      | None => object_members fields rest x saved
      | Some store =>
          match store v x with
          | Continue x' e => object_members fields rest x' (saveError saved e)
          | Abort x' e => Abort x' e
          end
      end
  end.

(** A value stored into a struct. *)
Definition into_struct {T} (fields : field_table T) (gotype : string)
  (where_ : string) (v : Json.value) (x : T) : outcome T :=
  match v with
  | Json.Object members => object_members fields members x None
  | Json.Null => Continue x None
  | _ => Continue x (Some (type_error (kind_of v) where_ gotype))
  end.

(** A value stored into a [string] field, through its setter. *)
Definition into_string {T} (set : string -> T -> T) (where_ : string)
  (v : Json.value) (x : T) : outcome T :=
  match v with
  | Json.Str _ s => Continue (set s x) None
  | Json.Null => Continue x None
  | _ => Continue x (Some (type_error (kind_of v) where_ "string"))
  end.

Fixpoint all_digits (s : string) : bool :=
  match s with
  | EmptyString => true
  | String c r => is_digit c && all_digits r
  end.

Fixpoint decimal (s : string) (acc : Z) : Z :=
  match s with
  | EmptyString => acc
  | String c r => decimal r (10 * acc + digit_value c)
  end.

(** [strconv.ParseInt(lit, 10, 64)] on a JSON number literal. *)
Definition parse_int64 (lit : string) : option Z :=
  let '(neg, digits) :=
    match lit with
    | String m r => if code m =? 45 then (true, r) else (false, lit)
    | EmptyString => (false, lit)
    end in
  if all_digits digits && negb (String.eqb digits EmptyString) then
    let n := if neg then - decimal digits 0 else decimal digits 0 in
    if (- 2 ^ 63 <=? n) && (n <? 2 ^ 63) then Some n else None
  else None.

(** A value stored into an [int] field (64 bits wide). *)
Definition into_int {T} (set : Z -> T -> T) (where_ : string)
  (v : Json.value) (x : T) : outcome T :=
  match v with
  | Json.Number lit =>
      match parse_int64 lit with
      | Some n => Continue (set n x) None
      | None => Continue x (Some (type_error ("number " ++ lit) where_ "int"))
      end
  | Json.Null => Continue x None
  | _ => Continue x (Some (type_error (kind_of v) where_ "int"))
  end.

Section WithLibrary.
Context {L : GoLibrary}.

(** A value stored into a [float64] field. *)
Definition into_float64 {T} (set : float64 -> T -> T) (where_ : string)
  (v : Json.value) (x : T) : outcome T :=
  match v with
  | Json.Number lit =>
      match strconv_ParseFloat lit with
      | (f, None) => Continue (set f x) None
      | (_, Some _) =>
          Continue x (Some (type_error ("number " ++ lit) where_ "float64"))
      end
  | Json.Null => Continue x None
  | _ => Continue x (Some (type_error (kind_of v) where_ "float64"))
  end.

(** A value stored into a [time.Time] field: [Time.UnmarshalJSON] receives
    the raw text of the value.  It ignores [null], refuses what is not a
    string literal, and assigns the result of its parser, error or not. *)
Definition into_time {T} (set : time_Time -> T -> T)
  (v : Json.value) (x : T) : outcome T :=
  match v with
  | Json.Null => Continue x None
  | Json.Str raw _ =>
      match time_parse_json_string raw with
      | (t, None) => Continue (set t x) None
      | (t, Some e) => Abort (set t x) e
      end
  | _ => Abort x "Time.UnmarshalJSON: input is not a JSON string"
  end.

Definition quote_fields : field_table Quote.t :=
  [ ("liquidity", into_float64 Quote.set_Liquidity "Quote.liquidity");
    ("price", into_string Quote.set_Price "Quote.price") ].

Definition into_quote (v : Json.value) (q : Quote.t) : outcome Quote.t :=
  into_struct quote_fields "client.Quote" "Quote" v q.

(** The elements of a JSON array stored into a slice: element [i] is stored
    into the slice's element [i] when it has one and into a zero [Quote]
    otherwise; the slice ends up as long as the array.  (What Go keeps in
    the backing array beyond the length of the slice is not modelled.) *)
Fixpoint into_quotes (items : list Json.value) (old : list Quote.t)
  : list Quote.t * option error :=
  match items with
  | [] => ([], None)
  | v :: rest =>
      let '(q0, old') :=
        match old with
        | q :: old' => (q, old')
        | [] => (Quote.zero, [])
        end in
      match into_quote v q0 with
      | Continue q e =>
          let '(qs, e') := into_quotes rest old' in
          (q :: qs, saveError e e')
      | Abort q e => (q :: old', Some e)
      end
  end.

(** A value stored into a [[]Quote] field. *)
Definition into_quote_slice {T} (get : T -> list Quote.t)
  (set : list Quote.t -> T -> T) (where_ : string)
  (v : Json.value) (x : T) : outcome T :=
  match v with
  | Json.Array items =>
      let '(qs, e) := into_quotes items (get x) in
      Continue (set qs x) e
  | Json.Null => Continue (set [] x) None
  | _ => Continue x (Some (type_error (kind_of v) where_ "[]client.Quote"))
  end.

(** The exported fields of [Tick] under their JSON names; [parsedTime] is
    not exported and is never written by the decoder. *)
Definition tick_fields : field_table Tick.t :=
  [ ("asks", into_quote_slice Tick.Asks Tick.set_Asks "Tick.asks");
    ("bids", into_quote_slice Tick.Bids Tick.set_Bids "Tick.bids");
    ("closeoutAsk", into_string Tick.set_CloseoutAsk "Tick.closeoutAsk");
    ("closeoutBid", into_string Tick.set_CloseoutBid "Tick.closeoutBid");
    ("instrument", into_string Tick.set_Instrument "Tick.instrument");
    ("status", into_string Tick.set_Status "Tick.status");
    ("time", into_string Tick.set_Time "Tick.time");
    ("type", into_string Tick.set_Type "Tick.type") ].

Definition transaction_fields : field_table Transaction.t :=
  [ ("id", into_string Transaction.set_Id "Transaction.id");
    ("time", into_time Transaction.set_Time);
    ("userID", into_int Transaction.set_UserId "Transaction.userID");
    ("accountID", into_string Transaction.set_AccountID "Transaction.accountID");
    ("batchID", into_string Transaction.set_BatchId "Transaction.batchID");
    ("requestID", into_string Transaction.set_RequestId "Transaction.requestID");
    ("type", into_string Transaction.set_Type "Transaction.type");
    ("orderID", into_string Transaction.set_OrderId "Transaction.orderID");
    ("clientOrderID",
     into_string Transaction.set_ClientOrderId "Transaction.clientOrderID");
    ("instrument", into_string Transaction.set_Instrument "Transaction.instrument");
    ("units", into_string Transaction.set_Units "Transaction.units");
    ("homeConversionFactors",
     into_string Transaction.set_HomeConversionFactors
       "Transaction.homeConversionFactors");
    ("price", into_string Transaction.set_Price "Transaction.price");
    ("fullVWAP", into_string Transaction.set_FullVWAP "Transaction.fullVWAP");
    ("fullPrice", into_string Transaction.set_FullPrice "Transaction.fullPrice");
    ("reason", into_string Transaction.set_Reason "Transaction.reason");
    ("pl", into_string Transaction.set_Pl "Transaction.pl");
    ("quotePL", into_string Transaction.set_QuotePl "Transaction.quotePL");
    ("financing", into_string Transaction.set_Financing "Transaction.financing");
    ("baseFinancing",
     into_string Transaction.set_BaseFinancing "Transaction.baseFinancing");
    ("quoteFinancing",
     into_string Transaction.set_QuoteFinancing "Transaction.quoteFinancing");
    ("commission", into_string Transaction.set_Commission "Transaction.commission");
    ("guaranteedExecutionFee",
     into_string Transaction.set_GuaranteedExecutionFee
       "Transaction.guaranteedExecutionFee");
    ("quoteGuaranteedExecutionFee",
     into_string Transaction.set_QuoteGuaranteedExecutionFee
       "Transaction.quoteGuaranteedExecutionFee");
    ("accountBalance",
     into_string Transaction.set_AccountBalance "Transaction.accountBalance");
    ("tradeOpened", into_string Transaction.set_TradeOpened "Transaction.tradeOpened");
    ("tradeClosed", into_string Transaction.set_TradeClosed "Transaction.tradeClosed");
    ("tradeReduced",
     into_string Transaction.set_TradeReduced "Transaction.tradeReduced");
    ("halfSpreadCost",
     into_string Transaction.set_HalfSpreadCost "Transaction.halfSpreadCost") ].

(** [json.Unmarshal(line, target)]: the target after the call and the error
    returned.  A line that is not one JSON value leaves the target alone. *)
Definition unmarshal {T} (fields : field_table T) (gotype : string)
  (line : string) (x : T) : T * option error :=
  match Json.parse line with
  | None => (x, Some syntax_error)
  | Some v =>
      match into_struct fields gotype gotype v x with
      | Continue x' saved => (x', saved)
      | Abort x' e => (x', Some e)
      end
  end.

Definition tick (line : string) (k : Tick.t) : Tick.t * option error :=
  unmarshal tick_fields "Tick" line k.

Definition transaction (line : string) (x : Transaction.t)
  : Transaction.t * option error :=
  unmarshal transaction_fields "Transaction" line x.

End WithLibrary.
End Unmarshal.

(** ** The streaming loops *)

(** The response body of a connection: the bytes it delivers, and the error
    the reader meets after them ([io.EOF], text [EOF], when the far end
    closes the stream in good order).  Bodies are finite: a connection that
    stays open for ever keeps the loop reading for ever. *)
Record Body := mkBody {
  content : string;
  failure : error
}.

(** What the network answers to one GET. *)
Inductive Transport :=
| NewRequestError (e : error)
| DoError (e : error)
| Response (body : Body).

(** The lines successive calls of [reader.ReadBytes('\n')] return without
    error: each runs up to and including its newline.  Bytes after the last
    newline come back together with the reader's error. *)
Fixpoint ReadBytes_lines (s : string) (rev_line : list ascii) : list string :=
  match s with
  | EmptyString => []
  | String c r =>
      if code c =? 10 then Json.unrev (c :: rev_line) :: ReadBytes_lines r []
      else ReadBytes_lines r (c :: rev_line)
  end.

Section Streaming.
Context {L : GoLibrary}.

(** The caller's handler: it receives the pointer to the loop's record, so
    it may assign to the record, and it acts on the caller's state [A]. *)
Definition handler (A T : Type) : Type := A -> T -> A * T.

(** The [for] loop of [Run]: [lines] are the reads still to come,
    [failure] the error that follows them, [tick] the record decoded into. *)
Fixpoint Run_loop {A} (f : handler A Tick.t) (lines : list string)
  (failure : error) (tick : Tick.t) (a : A) : A * option error :=
  match lines with
  | [] => (a, Some (errors_New_Sprint "reader.ReadBytes:" failure))
  | line :: rest =>
      let '(tick1, err) := Unmarshal.tick line tick in
      match err with
      | Some e => (a, Some (errors_New_Sprint "json.Unmarshal:" e))
      | None =>
          (* skip a few kinds of ticks here *)
          if Tick.IsTradeable tick1 then
            let '(a', tick2) := f a tick1 in
            Run_loop f rest failure tick2 a'
          else Run_loop f rest failure tick1 a
      end
  end.

Definition Run {A} (g : Globals) (c : Client.t)
  (http : string -> string -> Transport) (f : handler A Tick.t) (a : A)
  : A * option error :=
  match http (Client.url g c) ("Bearer " ++ Client.token c) with
  | NewRequestError e => (a, Some (errors_New_Sprint "http.NewRequest:" e))
  | DoError e => (a, Some (errors_New_Sprint "http.Get:" e))
  | Response body =>
      Run_loop f (ReadBytes_lines (content body) []) (failure body) Tick.zero a
  end.

(** The [for] loop of [RunTransactions]. *)
Fixpoint RunTransactions_loop {A} (f : handler A Transaction.t)
  (lines : list string) (failure : error) (transaction : Transaction.t) (a : A)
  : A * option error :=
  match lines with
  | [] => (a, Some (errors_New_Sprint "reader.ReadBytes:" failure))
  | line :: rest =>
      let '(transaction1, err) := Unmarshal.transaction line transaction in
      match err with
      | Some e => (a, Some (errors_New_Sprint "json.Unmarshal:" e))
      | None =>
          if Transaction.IsOrderFill transaction1
             && (Transaction.IsMarketOrderTradeClose transaction1
                 || Transaction.IsTakeProfitOrder transaction1)
          then
            let '(a', transaction2) := f a transaction1 in
            RunTransactions_loop f rest failure transaction2 a'
          else RunTransactions_loop f rest failure transaction1 a
      end
  end.

Definition RunTransactions {A} (g : Globals) (c : Client.t)
  (http : string -> string -> Transport) (f : handler A Transaction.t) (a : A)
  : A * option error :=
  let url := fmt_Sprintf (baseUrl g) [Client.account c] in
  match http url ("Bearer " ++ Client.token c) with
  | NewRequestError e =>
      (a, Some ("http.NewRequest: url: " ++ url ++ ", error: " ++ e))
  | DoError e => (a, Some (errors_New_Sprint "http.Get:" e))
  | Response body =>
      RunTransactions_loop f (ReadBytes_lines (content body) []) (failure body)
        Transaction.zero a
  end.

End Streaming.

(** A handler that records the record it is given and leaves it as it is. *)
Definition record_call {T} : handler (list T) T :=
  fun log x => ((log ++ [x])%list, x).

(** ** A reference instance of the library

    Executable models of the library functions, for running the client on
    concrete inputs.  They follow Go's documented behaviour on the inputs
    they accept; the text of their errors is abbreviated.  No theorem about
    the client depends on them: those are proved for every [GoLibrary]. *)

Module Reference.

Fixpoint read_digits (s : string) (acc count : Z) : Z * Z * string :=
  match s with
  | String c r =>
      if is_digit c then read_digits r (10 * acc + digit_value c) (count + 1)
      else (acc, count, s)
  | EmptyString => (acc, count, s)
  end.

Definition read_sign (s : string) : bool * string :=
  match s with
  | String c r =>
      if code c =? 43 then (false, r)
      else if code c =? 45 then (true, r)
      else (false, s)
  | EmptyString => (false, s)
  end.

(** The nearest binary64 value to [m * 10 ^ e], ties to even. *)
Definition round_decimal (neg : bool) (m e : Z) : float64 :=
  match m with
  | Z0 => S754_zero neg
  | Zpos _ =>
      if 0 <=? e then
        binary_normalize 53 1024 (if neg then - (m * 10 ^ e) else m * 10 ^ e) 0 neg
      else
        let '(q, e', l) := SFdiv_core_binary 53 1024 m 0 (10 ^ (- e)) 0 in
        binary_round_aux 53 1024 neg q e' l
  | Zneg _ => S754_nan
  end.

(** The digits of an exponent; like Go, stops adding digits once the value
    has reached 10000. *)
Fixpoint read_exponent (s : string) (acc : Z) : Z * string :=
  match s with
  | String c r =>
      if is_digit c then
        read_exponent r (if acc <? 10000 then 10 * acc + digit_value c else acc)
      else (acc, s)
  | EmptyString => (acc, s)
  end.

Definition exponent_part (s : string) : option (Z * string) :=
  match s with
  | String c r =>
      if (code c =? 101) || (code c =? 69) then
        let '(neg, r1) := read_sign r in
        match r1 with
        | String d _ =>
            if is_digit d then
              let '(e, rest) := read_exponent r1 0 in
              Some (if neg then - e else e, rest)
            else None
        | EmptyString => None
        end
      else Some (0, s)
  | EmptyString => Some (0, s)
  end.

Definition num_error (fn s what : string) : error :=
  "strconv." ++ fn ++ ": parsing " ++ quoted s ++ ": " ++ what.

(** [strconv.ParseFloat(s, 64)] on decimal literals and on the special
    values [inf], [infinity] and [nan] in any letter case.  (Go also reads
    hexadecimal literals and underscores between digits; this instance
    reports them as syntax errors.) *)
Definition ParseFloat (s : string) : float64 * option error :=
  let syntax := (f64_zero, Some (num_error "ParseFloat" s "invalid syntax")) in
  if String.eqb (map_string to_lower s) "nan" then (S754_nan, None)
  else
    let '(neg, body) := read_sign s in
    let lbody := map_string to_lower body in
    if String.eqb lbody "inf" || String.eqb lbody "infinity" then
      (S754_infinity neg, None)
    else
      let '(m1, n1, s1) := read_digits body 0 0 in
      let '(m2, n2, s2) :=
        match s1 with
        | String p r => if code p =? 46 then read_digits r m1 0 else (m1, 0, s1)
        | EmptyString => (m1, 0, s1)
        end in
      if n1 + n2 =? 0 then syntax
      else
        match exponent_part s2 with
        | Some (e, EmptyString) =>
            match round_decimal neg m2 (e - n2) with
            | S754_infinity sg =>
                (S754_infinity sg,
                 Some (num_error "ParseFloat" s "value out of range"))
            | f => (f, None)
            end
        | _ => syntax
        end.

(** *** Timestamps *)

Definition getnum (s : string) (fixed : bool) : option (Z * string) :=
  match s with
  | String a r =>
      if is_digit a then
        match r with
        | String b r' =>
            if is_digit b then Some (digit_value a * 10 + digit_value b, r')
            else if fixed then None else Some (digit_value a, r)
        | EmptyString => if fixed then None else Some (digit_value a, r)
        end
      else None
  | EmptyString => None
  end.

Definition literal (c : Z) (s : string) : option string :=
  match s with
  | String a r => if code a =? c then Some r else None
  | EmptyString => None
  end.

Definition year4 (s : string) : option (Z * string) :=
  match s with
  | String a (String b (String c (String d r))) =>
      if is_digit a && is_digit b && is_digit c && is_digit d then
        Some (((digit_value a * 10 + digit_value b) * 10 + digit_value c) * 10
              + digit_value d, r)
      else None
  | _ => None
  end.

Definition isLeap (y : Z) : bool :=
  (y mod 4 =? 0) && (negb (y mod 100 =? 0) || (y mod 400 =? 0)).

Definition daysIn (m y : Z) : Z :=
  if m =? 2 then (if isLeap y then 29 else 28)
  else if (m =? 4) || (m =? 6) || (m =? 9) || (m =? 11) then 30
  else 31.

Definition daysBefore (m y : Z) : Z :=
  nth (Z.to_nat (m - 1)) [0; 31; 59; 90; 120; 151; 181; 212; 243; 273; 304; 334] 0
  + (if isLeap y && (2 <? m) then 1 else 0).

(** Days from 0001-01-01 to the given date. *)
Definition days_since_year1 (y m d : Z) : Z :=
  let p := y - 1 in
  365 * p + p / 4 - p / 100 + p / 400 + daysBefore m y + d - 1.

(** The first nine digits of a fraction of a second, as nanoseconds. *)
Fixpoint nanoseconds (s : string) (places : nat) (acc : Z) : Z * string :=
  match s with
  | String c r =>
      if is_digit c then
        match places with
        | S p => nanoseconds r p (10 * acc + digit_value c)
        | O => nanoseconds r O acc
        end
      else (acc * 10 ^ Z.of_nat places, s)
  | EmptyString => (acc * 10 ^ Z.of_nat places, s)
  end.

Definition fraction (strict : bool) (s : string) : Z * string :=
  match s with
  | String p (String d r) =>
      if ((code p =? 46) || (negb strict && (code p =? 44))) && is_digit d
      then nanoseconds (String d r) 9 0
      else (0, s)
  | _ => (0, s)
  end.

(** The zone: [Z], or a sign, two digits, a colon and two digits. *)
Definition zone (strict : bool) (s : string) : option (Z * string) :=
  match s with
  | String z r =>
      if code z =? 90 then Some (0, r)
      else
        match getnum r true with
        | Some (hh, r1) =>
            match literal 58 r1 with
            | Some r2 =>
                match getnum r2 true with
                | Some (mm, r3) =>
                    let in_range :=
                      if strict then (hh <? 24) && (mm <? 60)
                      else (hh <=? 24) && (mm <=? 60) in
                    let off := hh * 3600 + mm * 60 in
                    if negb in_range then None
                    else if code z =? 43 then Some (off, r3)
                    else if code z =? 45 then Some (- off, r3)
                    else None
                | None => None
                end
            | None => None
            end
        | None => None
        end
  | EmptyString => None
  end.

Definition bind {A B} (x : option A) (k : A -> option B) : option B :=
  match x with
  | Some a => k a
  | None => None
  end.

(** A timestamp in the layout [2006-01-02T15:04:05.999999999Z07:00].
    [time.Parse] takes a one-digit hour and a comma before the fraction;
    [strict], the reading of [Time.UnmarshalJSON], takes neither. *)
Definition timestamp (strict : bool) (s : string) : option time_Time :=
  bind (year4 s) (fun '(y, s) =>
  bind (literal 45 s) (fun s =>
  bind (getnum s true) (fun '(mo, s) =>
  bind (literal 45 s) (fun s =>
  bind (getnum s true) (fun '(d, s) =>
  bind (literal 84 s) (fun s =>
  bind (getnum s strict) (fun '(h, s) =>
  bind (literal 58 s) (fun s =>
  bind (getnum s true) (fun '(mi, s) =>
  bind (literal 58 s) (fun s =>
  bind (getnum s true) (fun '(sec, s) =>
  let '(ns, s) := fraction strict s in
  bind (zone strict s) (fun '(off, s) =>
  if String.eqb s EmptyString
     && (1 <=? mo) && (mo <=? 12) && (1 <=? d) && (d <=? daysIn mo y)
     && (h <? 24) && (mi <? 60) && (sec <? 60)
  then
    Some (mkTime (days_since_year1 y mo d * 86400 + h * 3600 + mi * 60 + sec - off)
                 ns off)
  else None)))))))))))).

Definition time_error (s : string) : error :=
  "parsing time " ++ quoted s ++ " as "
  ++ quoted "2006-01-02T15:04:05.999999999Z07:00" ++ ": cannot parse".

(** [time.Parse(time.RFC3339Nano, s)] *)
Definition Parse_RFC3339Nano (s : string) : time_Time * option error :=
  match timestamp false s with
  | Some t => (t, None)
  | None => (time_zero, Some (time_error s))
  end.

Definition parse_json_string (s : string) : time_Time * option error :=
  match timestamp true s with
  | Some t => (t, None)
  | None => (time_zero, Some (time_error s))
  end.

(** *** Formatting *)

Fixpoint extra_operands (args : list string) : string :=
  match args with
  | [] => EmptyString
  | [a] => "string=" ++ a
  | a :: rest => "string=" ++ a ++ ", " ++ extra_operands rest
  end.

Definition extra (args : list string) : string :=
  match args with
  | [] => EmptyString
  | _ => "%!(EXTRA " ++ extra_operands args ++ ")"
  end.

(** [fmt.Sprintf] with string operands, for formats whose verbs are [%s],
    [%v] and [%%]: a verb without operand prints [%!s(MISSING)], operands
    without verb are listed after [%!(EXTRA]. *)
Fixpoint Sprintf (format : string) (args : list string) : string :=
  match format with
  | EmptyString => extra args
  | String c r =>
      if code c =? 37 then
        match r with
        | EmptyString => "%!(NOVERB)" ++ extra args
        | String v r' =>
            if code v =? 37 then String v (Sprintf r' args)
            else
              match args with
              | [] => "%!" ++ String v "(MISSING)" ++ Sprintf r' []
              | a :: args' =>
                  (if (code v =? 115) || (code v =? 118) then a
                   else "%!" ++ String v ("(string=" ++ a ++ ")"))
                  ++ Sprintf r' args'
              end
        end
      else String c (Sprintf r args)
  end.

Definition library : GoLibrary := {|
  strconv_ParseFloat := ParseFloat;
  time_Parse_RFC3339Nano := Parse_RFC3339Nano;
  time_parse_json_string := parse_json_string;
  fmt_Sprintf := Sprintf
|}.

End Reference.

(** JSON text is written here with apostrophes where the wire has quotation
    marks; [wire] puts the quotation marks back and ends the line. *)
Definition wire (s : string) : string :=
  map_string (fun c => if code c =? 39 then dquote else c) s
  ++ String newline EmptyString.

(** ** Notions the statements use *)

Definition f64_leb : float64 -> float64 -> bool := SFleb.

(** Every price [quotes] carries parses without error, in order, as the
    values [vals], and none of these is a NaN. *)
Definition parsed_prices {L : GoLibrary} (quotes : list Quote.t)
  (vals : list float64) : Prop :=
  Forall2 (fun q v => strconv_ParseFloat (Quote.Price q) = (v, None)
                      /\ f64_is_nan v = false) quotes vals.

Definition is_minimum (m : float64) (vals : list float64) : Prop :=
  In m vals /\ Forall (fun v => f64_leb m v = true) vals.

Definition is_maximum (m : float64) (vals : list float64) : Prop :=
  Exists (fun v => f64_eqb m v = true) vals
  /\ Forall (fun v => f64_leb v m = true) vals.

Definition nonzero (v : float64) : Prop := f64_eqb f64_zero v = false.

Definition nonnegative (v : float64) : Prop := f64_leb f64_zero v = true.

(** One turn of the loop of [BestAsk] on a parsed price, and one of
    [BestBid]. *)
Definition ask_step (best val : float64) : float64 :=
  if f64_eqb f64_zero best then val
  else if f64_ltb val best then val
  else best.

Definition bid_step (best val : float64) : float64 :=
  if f64_ltb best val then val else best.

(** The memoization of [parseTime] as the specification words it: whatever
    the first call did, a later call returns the value of the first without
    error, even after the text of [Time] has been replaced. *)
Definition parseTime_memoizes {L : GoLibrary} (k : Tick.t) : Prop :=
  forall text : string,
    let '(k1, (v1, _)) := Tick.parseTime k in
    Tick.parseTime (Tick.set_Time text k1) = (Tick.set_Time text k1, (v1, None)).

(** No text occurs twice in the list. *)
Fixpoint all_distinct (names : list string) : bool :=
  match names with
  | [] => true
  | n :: rest => negb (existsb (String.eqb n) rest) && all_distinct rest
  end.

(** The key names the field [Status] of a Tick. *)
Definition names_status (key : string) : bool :=
  String.eqb (Unmarshal.foldName key) "STATUS".

(** The record an attempt to store leaves behind. *)
Definition outcome_value {T} (o : Unmarshal.outcome T) : T :=
  match o with
  | Unmarshal.Continue x _ => x
  | Unmarshal.Abort x _ => x
  end.




(** The filter of [RunTransactions]. *)
Definition closing_fill (x : Transaction.t) : bool :=
  Transaction.IsOrderFill x
  && (Transaction.IsMarketOrderTradeClose x || Transaction.IsTakeProfitOrder x).

(** ** Concrete inputs *)

(** A book whose only ask and only bid are both priced -1.5. *)
Definition negative_book : Tick.t :=
  Tick.set_Asks [Quote.mk f64_zero "-1.5"]
    (Tick.set_Bids [Quote.mk f64_zero "-1.5"] Tick.zero).

(** A book whose asks are 0, 117.682 and 117.680, in this order. *)
Definition zero_first_book : Tick.t :=
  Tick.set_Asks [Quote.mk f64_zero "0"; Quote.mk f64_zero "117.682";
                 Quote.mk f64_zero "117.680"] Tick.zero.

(** The two sample lines of the price feed quoted in [client.go]. *)
Definition price_line : string :=
  wire "{'asks':[{'liquidity':10000000,'price':'117.680'},{'liquidity':10000000,'price':'117.682'}],'bids':[{'liquidity':10000000,'price':'117.665'},{'liquidity':10000000,'price':'117.663'}],'closeoutAsk':'117.684','closeoutBid':'117.661','instrument':'USD_JPY','status':'tradeable','time':'2016-12-20T05:55:35.676011610Z','type':'PRICE'}".

Definition heartbeat_line : string :=
  wire "{'type':'HEARTBEAT','time':'2016-12-20T05:55:46.064294036Z'}".

(** A network that answers every request with the given bytes and then
    closes the stream. *)
Definition serve (bytes : string) : string -> string -> Transport :=
  fun _ _ => Response (mkBody bytes "EOF").

(** A take-profit fill whose time is [null]. *)
Definition null_time_line : string :=
  wire "{'id':'6','type':'ORDER_FILL','reason':'TAKE_PROFIT_ORDER','time':null}".


(** How a loop can end: with the reader's error, or with the decode error
    of one of the lines. *)
Definition ends_with {T} (unmarshal : string -> T -> T * option error)
  (lines : list string) (failure : error) (result : option error) : Prop :=
  result = Some (errors_New_Sprint "reader.ReadBytes:" failure)
  \/ exists line x x' cause,
       In line lines /\ unmarshal line x = (x', Some cause)
       /\ result = Some (errors_New_Sprint "json.Unmarshal:" cause).

(** ** The order of binary64 numbers *)

(** The position of a number on the line: its class first (negative
    infinity, negative, zero, positive, positive infinity), then exponent
    and mantissa, mirrored for negative numbers. *)
Definition rank (x : float64) : Z * Z * Z :=
  match x with
  | S754_nan => (0, 0, 0)
  | S754_zero _ => (0, 0, 0)
  | S754_infinity true => (-2, 0, 0)
  | S754_infinity false => (2, 0, 0)
  | S754_finite true m e => (-1, - e, - Zpos m)
  | S754_finite false m e => (1, e, Zpos m)
  end.

Definition lex_lt (p q : Z * Z * Z) : Prop :=
  let '(a1, b1, c1) := p in
  let '(a2, b2, c2) := q in
  a1 < a2 \/ (a1 = a2 /\ (b1 < b2 \/ (b1 = b2 /\ c1 < c2))).

Definition lex_le (p q : Z * Z * Z) : Prop := lex_lt p q \/ p = q.

(** Closes the cases of a comparison of two ranks. *)
Ltac rank_case :=
  repeat split; intros;
  first [ reflexivity | discriminate | lia | exfalso; lia
        | match goal with H : (_, _, _) = (_, _, _) |- _ =>
            injection H; intros; first [lia | exfalso; lia] end
        | congruence ].

(** ** Further notions *)

(** Every price [quotes] carries parses without error, in order, as the
    values [vals]; a NaN counts. *)
Definition parses_without_error {L : GoLibrary} (quotes : list Quote.t)
  (vals : list float64) : Prop :=
  Forall2 (fun q v => strconv_ParseFloat (Quote.Price q) = (v, None)) quotes vals.

(** A book whose bids are 117.663 and 117.665 and whose asks are a NaN and
    117.680. *)
Definition nan_book : Tick.t :=
  Tick.set_Asks [Quote.mk f64_zero "NaN"; Quote.mk f64_zero "117.680"]
    (Tick.set_Bids [Quote.mk f64_zero "117.663"; Quote.mk f64_zero "117.665"]
       Tick.zero).

(** A book whose second ask and second bid do not parse. *)
Definition broken_book : Tick.t :=
  Tick.set_Asks [Quote.mk f64_zero "117.680"; Quote.mk f64_zero "n/a";
                 Quote.mk f64_zero "117.682"]
    (Tick.set_Bids [Quote.mk f64_zero "117.665"; Quote.mk f64_zero "n/a"]
       Tick.zero).

(** The byte [b] occurs in [s]. *)
Fixpoint has_byte (b : Z) (s : string) : bool :=
  match s with
  | EmptyString => false
  | String c r => (code c =? b) || has_byte b r
  end.

(** A handler that asks the Tick it is given for its Unix timestamp, as a
    caller does through the pointer it receives, and records the answer. *)
Definition record_timestamp {L : GoLibrary}
  : handler (list (Z * option error)) Tick.t :=
  fun log k =>
    let '(k', answer) := Tick.UnixTimestamp k in ((log ++ [answer])%list, k').

(** A second price line, eleven seconds after [price_line]. *)
Definition later_price_line : string :=
  wire "{'status':'tradeable','time':'2016-12-20T05:55:46.676011610Z','type':'PRICE'}".

(** The Go type of a field, as far as decoding goes. *)
Inductive field_kind := KString | KInt | KTime | KQuotes.

(** The types of the fields of [Tick] and of [Transaction], under their
    JSON names and in the order of the declarations. *)
Definition tick_kinds : list (string * field_kind) :=
  [ ("asks", KQuotes); ("bids", KQuotes); ("closeoutAsk", KString);
    ("closeoutBid", KString); ("instrument", KString); ("status", KString);
    ("time", KString); ("type", KString) ].

Definition transaction_kinds : list (string * field_kind) :=
  [ ("id", KString); ("time", KTime); ("userID", KInt);
    ("accountID", KString); ("batchID", KString); ("requestID", KString);
    ("type", KString); ("orderID", KString); ("clientOrderID", KString);
    ("instrument", KString); ("units", KString);
    ("homeConversionFactors", KString); ("price", KString);
    ("fullVWAP", KString); ("fullPrice", KString); ("reason", KString);
    ("pl", KString); ("quotePL", KString); ("financing", KString);
    ("baseFinancing", KString); ("quoteFinancing", KString);
    ("commission", KString); ("guaranteedExecutionFee", KString);
    ("quoteGuaranteedExecutionFee", KString); ("accountBalance", KString);
    ("tradeOpened", KString); ("tradeClosed", KString);
    ("tradeReduced", KString); ("halfSpreadCost", KString) ].

(** The type of the field a key names, if it names one. *)
Fixpoint kind_of_key (kinds : list (string * field_kind)) (key : string)
  : option field_kind :=
  match kinds with
  | [] => None
  | (name, k) :: rest =>
      if String.eqb (Unmarshal.foldName name) (Unmarshal.foldName key)
      then Some k
      else kind_of_key rest key
  end.

(** The value is of a JSON kind that a field of this type does not take:
    anything but a string for a [string], anything but an array for a
    slice, anything but an integer of 64 bits for an [int].  [null] is
    taken by every field, and [time.Time] has its own rule. *)
Definition mismatched (k : field_kind) (v : Json.value) : bool :=
  match k, v with
  | _, Json.Null => false
  | KTime, _ => false
  | KString, Json.Str _ _ => false
  | KQuotes, Json.Array _ => false
  | KInt, Json.Number lit =>
      match Unmarshal.parse_int64 lit with
      | Some _ => false
      | None => true
      end
  | _, _ => true
  end.

(** The error a decode ends with, if any. *)
Definition outcome_error {T} (o : Unmarshal.outcome T) : option error :=
  match o with
  | Unmarshal.Continue _ saved => saved
  | Unmarshal.Abort _ e => Some e
  end.

(** A price line whose status is a number, and a fill whose user is not an
    integer. *)
Definition numeric_status_line : string :=
  wire "{'status':1,'type':'PRICE'}".

Definition fractional_user_line : string :=
  wire "{'type':'ORDER_FILL','reason':'TAKE_PROFIT_ORDER','userID':1.5}".

(** The lines one after the other. *)
Fixpoint join (lines : list string) : string :=
  match lines with
  | [] => EmptyString
  | l :: rest => l ++ join rest
  end.

(** A network that answers every request with the given body. *)
Definition respond (body : Body) : string -> string -> Transport :=
  fun _ _ => Response body.

(** The line has no member that names the field [Status] of a Tick: it is
    not JSON, or not an object, or an object without such a member. *)
Definition silent_on_status (line : string) : bool :=
  match Json.parse line with
  | Some (Json.Object members) =>
      forallb (fun kv => negb (names_status (fst kv))) members
  | _ => true
  end.

(** The key names the field [Type] or the field [Reason] of a
    Transaction. *)
Definition names_type_or_reason (key : string) : bool :=
  String.eqb (Unmarshal.foldName key) "TYPE"
  || String.eqb (Unmarshal.foldName key) "REASON".

(** A transaction line that carries an id and nothing else. *)
Definition id_only_line : string := wire "{'id':'8'}".

(** The record a take-profit fill leaves behind. *)
Definition take_profit_fill : Transaction.t :=
  Transaction.set_Reason "TAKE_PROFIT_ORDER"
    (Transaction.set_Type "ORDER_FILL" Transaction.zero).

(** A price line with members that name no field of a Tick. *)
Definition foreign_members_line : string :=
  wire "{'tradeable':true,'quoteHomeConversionFactors':{'positiveUnits':'1.0'}}".

(** A line that names the status twice, in two spellings. *)
Definition two_status_line : string :=
  wire "{'status':'tradeable','STATUS':'halted','type':'PRICE'}".

(** The bids of [nan_book] in the other order. *)
Definition swapped_bids_book : Tick.t :=
  Tick.set_Bids [Quote.mk f64_zero "117.665"; Quote.mk f64_zero "117.663"]
    Tick.zero.

(** A handler that records the record it is given and then changes it. *)
Definition record_and {T} (change : T -> T) : handler (list T) T :=
  fun log x => ((log ++ [x])%list, change x).

(** * Theorems *)

(** ** Order facts about binary64 comparisons *)

Lemma compare_cont_Eq (m1 m2 : positive) :
  Pos.compare_cont Eq m1 m2 = (Zpos m1 ?= Zpos m2).
Proof. reflexivity. Qed.

Lemma SFcompare_rank (x y : float64) :
  f64_is_nan x = false -> f64_is_nan y = false ->
  exists c, SFcompare x y = Some c /\
    (c = Lt <-> lex_lt (rank x) (rank y)) /\
    (c = Gt <-> lex_lt (rank y) (rank x)) /\
    (c = Eq <-> rank x = rank y).
Proof.
  intros Hx Hy.
  destruct x as [sx|sx| |sx mx ex]; try discriminate;
  destruct y as [sy|sy| |sy my ey]; try discriminate;
  try destruct sx; try destruct sy; cbn [SFcompare rank lex_lt];
  rewrite ?compare_cont_Eq;
  (eexists; split; [reflexivity|]);
  try (destruct (Z.compare_spec ex ey);
       destruct (Z.compare_spec (Zpos mx) (Zpos my)); cbn [CompOpp]);
  rank_case.
Qed.

Lemma lex_lt_trans p q r : lex_lt p q -> lex_lt q r -> lex_lt p r.
Proof.
  destruct p as [[a1 b1] c1], q as [[a2 b2] c2], r as [[a3 b3] c3].
  unfold lex_lt. lia.
Qed.

Lemma lex_lt_irrefl p : ~ lex_lt p p.
Proof. destruct p as [[a b] c]. unfold lex_lt. lia. Qed.

Lemma lex_total p q : lex_lt p q \/ p = q \/ lex_lt q p.
Proof.
  destruct p as [[a1 b1] c1], q as [[a2 b2] c2]. unfold lex_lt.
  destruct (Z.lt_total a1 a2) as [?|[?|?]];
  destruct (Z.lt_total b1 b2) as [?|[?|?]];
  destruct (Z.lt_total c1 c2) as [?|[?|?]]; subst; auto; try lia.
Qed.

Lemma lex_le_trans p q r : lex_le p q -> lex_le q r -> lex_le p r.
Proof.
  unfold lex_le. intros [H1|H1] [H2|H2]; subst; auto.
  left. eapply lex_lt_trans; eauto.
Qed.

Section Comparisons.
Variables x y : float64.
Hypothesis Hx : f64_is_nan x = false.
Hypothesis Hy : f64_is_nan y = false.

Lemma ltb_rank : f64_ltb x y = true <-> lex_lt (rank x) (rank y).
Proof.
  unfold f64_ltb, SFltb.
  destruct (SFcompare_rank x y Hx Hy) as [c [-> [HLt _]]].
  destruct c; split; intros H; try discriminate; try reflexivity;
  try (apply HLt; reflexivity); apply HLt in H; discriminate.
Qed.

Lemma eqb_rank : f64_eqb x y = true <-> rank x = rank y.
Proof.
  unfold f64_eqb, SFeqb.
  destruct (SFcompare_rank x y Hx Hy) as [c [-> [_ [_ HEq]]]].
  destruct c; split; intros H; try discriminate; try reflexivity;
  try (apply HEq; reflexivity); apply HEq in H; discriminate.
Qed.

Lemma leb_rank : f64_leb x y = true <-> lex_le (rank x) (rank y).
Proof.
  unfold f64_leb, SFleb, lex_le.
  destruct (SFcompare_rank x y Hx Hy) as [c [-> [HLt [HGt HEq]]]].
  destruct c; split; intros H; try reflexivity.
  - right. apply HEq. reflexivity.
  - left. apply HLt. reflexivity.
  - discriminate.
  - exfalso. destruct H as [H|H].
    + apply (lex_lt_irrefl (rank x)). eapply lex_lt_trans; [exact H|].
      apply HGt. reflexivity.
    + apply HEq in H. discriminate.
Qed.

End Comparisons.

Lemma ltb_false_leb x y :
  f64_is_nan x = false -> f64_is_nan y = false ->
  f64_ltb x y = false -> f64_leb y x = true.
Proof.
  intros Hx Hy H. apply leb_rank; auto.
  destruct (lex_total (rank x) (rank y)) as [Hl|[He|Hg]].
  - apply ltb_rank in Hl; auto. congruence.
  - right. auto.
  - left. auto.
Qed.

Lemma ltb_leb x y :
  f64_is_nan x = false -> f64_is_nan y = false ->
  f64_ltb x y = true -> f64_leb x y = true.
Proof.
  intros Hx Hy H. apply leb_rank; auto. left. apply ltb_rank; auto.
Qed.

Lemma leb_trans x y z :
  f64_is_nan x = false -> f64_is_nan y = false -> f64_is_nan z = false ->
  f64_leb x y = true -> f64_leb y z = true -> f64_leb x z = true.
Proof.
  intros Hx Hy Hz H1 H2. apply leb_rank; auto.
  apply leb_rank in H1, H2; auto. eapply lex_le_trans; eauto.
Qed.

Lemma leb_refl x : f64_is_nan x = false -> f64_leb x x = true.
Proof. intros Hx. apply leb_rank; auto. right. reflexivity. Qed.

(** ** BestAsk *)

Section Book.
Context {L : GoLibrary}.

Lemma PriceAsFloat_parsed q v :
  strconv_ParseFloat (Quote.Price q) = (v, None) ->
  Quote.PriceAsFloat q = (v, None).
Proof. unfold Quote.PriceAsFloat. intros ->. reflexivity. Qed.

Lemma BestAsk_range_parsed quotes vals :
  parsed_prices quotes vals ->
  forall best,
    Tick.BestAsk_range quotes best = (fold_left ask_step vals best, None).
Proof.
  induction 1 as [|q v quotes vals [Hq _] _ IH]; intros best; cbn.
  - reflexivity.
  - rewrite (PriceAsFloat_parsed _ _ Hq). unfold ask_step at 2.
    destruct (f64_eqb f64_zero best); [apply IH|].
    destruct (f64_ltb v best); apply IH.
Qed.

Lemma BestBid_range_parsed quotes vals :
  parsed_prices quotes vals ->
  forall best,
    Tick.BestBid_range quotes best = (fold_left bid_step vals best, None).
Proof.
  induction 1 as [|q v quotes vals [Hq _] _ IH]; intros best; cbn.
  - reflexivity.
  - rewrite (PriceAsFloat_parsed _ _ Hq). unfold bid_step at 2.
    destruct (f64_ltb best v); apply IH.
Qed.

End Book.

Section BookTheorems.
Context {L : GoLibrary}.

Lemma parsed_prices_numbers quotes vals :
  parsed_prices quotes vals -> Forall (fun v => f64_is_nan v = false) vals.
Proof. induction 1 as [|q v qs vs [_ Hv] _ IH]; constructor; auto. Qed.

Lemma parsed_prices_nonempty quotes vals :
  parsed_prices quotes vals -> quotes <> [] -> vals <> [].
Proof. intros Hp Hq. destruct Hp; [contradiction | discriminate]. Qed.

Lemma ask_fold_min vals : forall best,
  f64_is_nan best = false -> nonzero best ->
  Forall (fun v => f64_is_nan v = false) vals -> Forall nonzero vals ->
  f64_is_nan (fold_left ask_step vals best) = false /\
  In (fold_left ask_step vals best) (best :: vals) /\
  f64_leb (fold_left ask_step vals best) best = true /\
  Forall (fun v => f64_leb (fold_left ask_step vals best) v = true) vals.
Proof.
  induction vals as [|v rest IH]; intros best Hb Hz Hn Hnz; cbn [fold_left].
  - repeat split; auto. + left; reflexivity. + apply leb_refl; auto.
  - inversion Hn as [|? ? Hv Hn']; subst. inversion Hnz as [|? ? Hvz Hnz']; subst.
    assert (Hs : ask_step best v = if f64_ltb v best then v else best).
    { unfold ask_step. unfold nonzero in Hz. rewrite Hz. reflexivity. }
    rewrite Hs. clear Hs.
    destruct (f64_ltb v best) eqn:E.
    + destruct (IH v Hv Hvz Hn' Hnz') as [Hr [Hin [Hle Hall]]].
      repeat split; auto.
      * right. exact Hin.
      * eapply leb_trans; [| | | exact Hle |]; auto. apply ltb_leb; auto.
    + destruct (IH best Hb Hz Hn' Hnz') as [Hr [Hin [Hle Hall]]].
      repeat split; auto.
      * destruct Hin as [Hin|Hin]; [left; exact Hin | right; right; exact Hin].
      * constructor; auto.
        eapply leb_trans; [| | | exact Hle |]; auto. apply ltb_false_leb; auto.
Qed.

Lemma ask_fold_nonnegative vals : forall best,
  f64_is_nan best = false -> nonnegative best ->
  Forall (fun v => f64_is_nan v = false) vals -> Forall nonnegative vals ->
  f64_is_nan (fold_left ask_step vals best) = false /\
  nonnegative (fold_left ask_step vals best).
Proof.
  induction vals as [|v rest IH]; intros best Hb Hz Hn Hnz; cbn [fold_left].
  - auto.
  - inversion Hn; subst. inversion Hnz; subst.
    assert (Hs : ask_step best v = v \/ ask_step best v = best).
    { unfold ask_step. destruct (f64_eqb f64_zero best); auto.
      destruct (f64_ltb v best); auto. }
    destruct Hs as [-> | ->]; apply IH; auto.
Qed.

Lemma zero_replaces_nonnegative best z :
  f64_is_nan best = false -> nonnegative best ->
  f64_is_nan z = false -> f64_eqb f64_zero z = true ->
  ask_step best z = z.
Proof.
  intros Hb Hnn Hz Hz0. unfold ask_step.
  destruct (f64_eqb f64_zero best) eqn:E; [reflexivity|].
  assert (Hlt : f64_ltb z best = true); [|rewrite Hlt; reflexivity].
  apply ltb_rank; auto.
  apply eqb_rank in Hz0; auto. rewrite <- Hz0.
  apply leb_rank in Hnn; auto. destruct Hnn as [Hlt|Heq]; [exact Hlt|].
  apply eqb_rank in Heq; auto. unfold f64_eqb in *. congruence.
Qed.

Lemma BestAsk_nonempty (k : Tick.t) vals :
  Tick.Asks k <> [] -> parsed_prices (Tick.Asks k) vals ->
  Tick.BestAsk k = (fold_left ask_step vals f64_zero, None).
Proof.
  intros Hne Hp. unfold Tick.BestAsk.
  destruct (Tick.Asks k) as [|q qs] eqn:E; [contradiction|].
  cbn [List.length Nat.eqb]. apply BestAsk_range_parsed; exact Hp.
Qed.

(** C2: when the asks are not empty and every price parses as a number,
    [BestAsk] returns without error, and it returns the minimum of the
    parsed prices when none of them is zero.  A running best of zero counts
    as unset: the price examined next replaces it whatever it is, so that
    after a zero that has become the running best the result is the minimum
    of the later prices alone. *)
Theorem BestAsk_minimum_up_to_zero (k : Tick.t) (vals : list float64) :
  Tick.Asks k <> [] ->
  parsed_prices (Tick.Asks k) vals ->
  (exists best, Tick.BestAsk k = (best, None)) /\
  (Forall nonzero vals ->
   exists m, Tick.BestAsk k = (m, None) /\ is_minimum m vals) /\
  (forall pre z post,
     vals = (pre ++ z :: post)%list ->
     Forall nonnegative pre ->
     f64_eqb f64_zero z = true ->
     post <> [] ->
     Forall nonzero post ->
     exists m, Tick.BestAsk k = (m, None) /\ is_minimum m post) /\
  (forall q v rest best,
     strconv_ParseFloat (Quote.Price q) = (v, None) ->
     f64_eqb f64_zero best = true ->
     Tick.BestAsk_range (q :: rest) best = Tick.BestAsk_range rest v).
Proof.
  intros Hne Hp. rewrite (BestAsk_nonempty k vals Hne Hp).
  pose proof (parsed_prices_numbers _ _ Hp) as Hnum.
  split; [eexists; reflexivity|]. split; [|split].
  3: { intros q v rest best Hq Hz. cbn [Tick.BestAsk_range].
       rewrite (PriceAsFloat_parsed _ _ Hq), Hz. reflexivity. }
  - intros Hnz. eexists. split; [reflexivity|].
    destruct vals as [|v rest].
    + exfalso. eapply parsed_prices_nonempty; eauto.
    + inversion Hnum; subst. inversion Hnz; subst.
      cbn [fold_left]. change (ask_step f64_zero v) with v.
      destruct (ask_fold_min rest v) as [Hr [Hin [Hle Hall]]]; auto.
      split; [exact Hin|]. constructor; auto.
  - intros pre z post -> Hpre Hz Hpost Hnz.
    eexists. split; [reflexivity|].
    apply Forall_app in Hnum. destruct Hnum as [Hnpre Hnrest].
    inversion Hnrest as [|? ? Hnz0 Hnpost]; subst.
    rewrite fold_left_app. cbn [fold_left].
    destruct (ask_fold_nonnegative pre f64_zero) as [Hb Hbnn]; auto.
    { reflexivity. }
    rewrite (zero_replaces_nonnegative _ z Hb Hbnn Hnz0 Hz).
    destruct post as [|p post']; [contradiction|].
    inversion Hnpost; subst. inversion Hnz; subst.
    cbn [fold_left].
    assert (Hs : ask_step z p = p).
    { unfold ask_step. rewrite Hz. reflexivity. }
    rewrite Hs. clear Hs.
    destruct (ask_fold_min post' p) as [Hr [Hin [Hle Hall]]]; auto.
    split; [exact Hin|]. constructor; auto.
Qed.

End BookTheorems.

Lemma BestAsk_minimum_up_to_zero_witness :
  exists m,
    Tick.BestAsk (L := Reference.library) zero_first_book = (m, None)
    /\ is_minimum m [S754_finite false 8281134552315855 (-46);
                     S754_finite false 8280993814827500 (-46)].
Proof.
  destruct (BestAsk_minimum_up_to_zero (L := Reference.library) zero_first_book
              [S754_zero false; S754_finite false 8281134552315855 (-46);
               S754_finite false 8280993814827500 (-46)])
    as [_ [_ [Hquirk _]]].
  - cbn. discriminate.
  - repeat (constructor; [split; vm_compute; reflexivity|]). constructor.
  - apply (Hquirk [] (S754_zero false)).
    + reflexivity.
    + constructor.
    + reflexivity.
    + discriminate.
    + repeat (constructor; [vm_compute; reflexivity|]). constructor.
Defined.

(** On that book the result, 117.68, is not the least ask, which is 0. *)
Example BestAsk_skips_leading_zero :
  Tick.BestAsk (L := Reference.library) zero_first_book
  = (S754_finite false 8280993814827500 (-46), None)
  /\ Reference.ParseFloat "117.680"
     = (S754_finite false 8280993814827500 (-46), None).
Proof. split; vm_compute; reflexivity. Qed.

(** ** BestBid and the empty book *)

Section BidTheorems.
Context {L : GoLibrary}.

Lemma bid_fold_max vals : forall best,
  f64_is_nan best = false ->
  Forall (fun v => f64_is_nan v = false) vals ->
  f64_is_nan (fold_left bid_step vals best) = false /\
  (fold_left bid_step vals best = best \/ In (fold_left bid_step vals best) vals) /\
  f64_leb best (fold_left bid_step vals best) = true /\
  Forall (fun v => f64_leb v (fold_left bid_step vals best) = true) vals.
Proof.
  induction vals as [|v rest IH]; intros best Hb Hn; cbn [fold_left].
  - split; [|split; [|split]]; auto. apply leb_refl; auto.
  - inversion Hn as [|? ? Hv Hn']; subst.
    assert (Hs : bid_step best v = if f64_ltb best v then v else best)
      by reflexivity.
    rewrite Hs. clear Hs.
    destruct (f64_ltb best v) eqn:E.
    + destruct (IH v Hv Hn') as [Hr [Hin [Hle Hall]]].
      split; [|split; [|split]]; auto.
      * right. destruct Hin as [->|Hin]; [left; reflexivity | right; exact Hin].
      * eapply leb_trans; [| | | | exact Hle]; auto. apply ltb_leb; auto.
    + destruct (IH best Hb Hn') as [Hr [Hin [Hle Hall]]].
      split; [|split; [|split]]; auto.
      * destruct Hin as [Hin|Hin]; [left; exact Hin | right; right; exact Hin].
      * constructor; auto.
        eapply leb_trans; [| | | | exact Hle]; auto. apply ltb_false_leb; auto.
Qed.

Lemma BestBid_nonempty (k : Tick.t) vals :
  Tick.Bids k <> [] -> parsed_prices (Tick.Bids k) vals ->
  Tick.BestBid k = (fold_left bid_step vals f64_zero, None).
Proof.
  intros Hne Hp. unfold Tick.BestBid.
  destruct (Tick.Bids k) as [|q qs] eqn:E; [contradiction|].
  cbn [List.length Nat.eqb]. apply BestBid_range_parsed; exact Hp.
Qed.

(** X22: what [BestBid] does compute is the greatest of zero and the parsed
    prices.  It is the maximum of the prices as soon as one of them is not
    negative. *)
Lemma BestBid_maximum_of_nonnegative (k : Tick.t) (vals : list float64) :
  Tick.Bids k <> [] ->
  parsed_prices (Tick.Bids k) vals ->
  Exists nonnegative vals ->
  exists m, Tick.BestBid k = (m, None) /\ is_maximum m vals.
Proof.
  intros Hne Hp Hex. rewrite (BestBid_nonempty k vals Hne Hp).
  pose proof (parsed_prices_numbers _ _ Hp) as Hnum.
  eexists. split; [reflexivity|].
  destruct (bid_fold_max vals f64_zero) as [Hr [Hin [Hle Hall]]]; auto.
  split; [|exact Hall].
  destruct Hin as [Hin|Hin].
  - rewrite Hin. apply Exists_exists in Hex. destruct Hex as [v [Hv Hnn]].
    apply Exists_exists. exists v. split; [exact Hv|].
    rewrite Forall_forall in Hnum, Hall. specialize (Hnum v Hv).
    specialize (Hall v Hv). rewrite Hin in Hall.
    apply eqb_rank; auto.
    apply leb_rank in Hall; auto. apply leb_rank in Hnn; auto.
    destruct Hall as [H1|H1]; [|auto]. destruct Hnn as [H2|H2]; [|auto].
    exfalso. eapply lex_lt_irrefl. eapply lex_lt_trans; eauto.
  - apply Exists_exists. eexists. split; [exact Hin|].
    apply eqb_rank; auto.
Qed.

(** C8: on an empty side of the book the best price is 0, without error. *)
Theorem empty_book_best_is_zero (k : Tick.t) :
  (Tick.Asks k = [] -> Tick.BestAsk k = (f64_zero, None)) /\
  (Tick.Bids k = [] -> Tick.BestBid k = (f64_zero, None)).
Proof.
  split; intros H.
  - unfold Tick.BestAsk. rewrite H. reflexivity.
  - unfold Tick.BestBid. rewrite H. reflexivity.
Qed.

End BidTheorems.

Lemma empty_book_best_is_zero_witness :
  Tick.BestAsk (L := Reference.library) Tick.zero = (f64_zero, None) /\
  Tick.BestBid (L := Reference.library) Tick.zero = (f64_zero, None).
Proof.
  destruct (empty_book_best_is_zero (L := Reference.library) Tick.zero)
    as [Hask Hbid].
  split; [apply Hask | apply Hbid]; reflexivity.
Defined.

(** C3, at the input where the code departs from it: the only bid is
    -1.5; [BestBid] returns 0, which is not the maximum of the bids, where
    [BestAsk] on the same prices returns -1.5. *)
Theorem BestBid_of_negative_bid_is_zero :
  parsed_prices (L := Reference.library)
    (Tick.Bids negative_book) [S754_finite true 6755399441055744 (-52)] /\
  Tick.BestBid (L := Reference.library) negative_book = (f64_zero, None) /\
  ~ is_maximum f64_zero [S754_finite true 6755399441055744 (-52)] /\
  Tick.BestAsk (L := Reference.library) negative_book
  = (S754_finite true 6755399441055744 (-52), None).
Proof.
  split; [|split; [|split]].
  - repeat (constructor; [split; vm_compute; reflexivity|]). constructor.
  - vm_compute. reflexivity.
  - intros [Hex _]. inversion Hex as [? ? H|? ? H]; subst.
    + vm_compute in H. discriminate.
    + inversion H.
  - vm_compute. reflexivity.
Qed.

(** ** The cached timestamp *)

Section TimeTheorems.
Context {L : GoLibrary}.

Lemma parseTime_cached (L' : GoLibrary) (k : Tick.t) :
  time_IsZero (Tick.parsedTime k) = false ->
  Tick.parseTime (L := L') k = (k, (Tick.parsedTime k, None)).
Proof. intros H. unfold Tick.parseTime. rewrite H. reflexivity. Qed.

Lemma parseTime_attempt (k : Tick.t) :
  time_IsZero (Tick.parsedTime k) = true ->
  Tick.parseTime k =
    match time_Parse_RFC3339Nano (Tick.Time k) with
    | (v, Some e) => (k, (v, Some e))
    | (v, None) => (Tick.set_parsedTime v k, (v, None))
    end.
Proof.
  intros H. unfold Tick.parseTime. rewrite H. cbn [negb].
  destruct (time_Parse_RFC3339Nano (Tick.Time k)) as [v [e|]]; reflexivity.
Qed.

(** C4, amended: once a call of [parseTime] has returned, without error, a
    timestamp other than the zero instant, every later call returns that
    same timestamp without error and leaves the Tick alone, whatever the
    text of [Time] has become and whatever the parser would make of it. *)
Theorem parseTime_memoizes_nonzero (k k1 : Tick.t) (v : time_Time) :
  Tick.parseTime k = (k1, (v, None)) ->
  time_IsZero v = false ->
  forall (L' : GoLibrary) (text : string),
    Tick.parseTime (L := L') (Tick.set_Time text k1)
    = (Tick.set_Time text k1, (v, None)).
Proof.
  intros Hcall Hv L' text.
  assert (Hcached : Tick.parsedTime k1 = v).
  { unfold Tick.parseTime in Hcall.
    destruct (negb (time_IsZero (Tick.parsedTime k))).
    - injection Hcall as <- <-. reflexivity.
    - destruct (time_Parse_RFC3339Nano (Tick.Time k)) as [p [e|]].
      + discriminate.
      + injection Hcall as <- <-. reflexivity. }
  rewrite parseTime_cached; cbn [Tick.set_Time Tick.parsedTime];
  rewrite Hcached; [reflexivity | exact Hv].
Qed.

(** C9: when [parseTime] has nothing cached and the text of [Time] does not
    parse, it returns the parser's error and leaves the Tick, and so its
    cache, as it was; [UnixTimestamp] and [Nanoseconds] return 0 with that
    error; and a later call parses again, the text [Time] then holds. *)
Theorem parseTime_failure_is_not_cached (k : Tick.t) (v : time_Time) (e : error) :
  time_IsZero (Tick.parsedTime k) = true ->
  time_Parse_RFC3339Nano (Tick.Time k) = (v, Some e) ->
  Tick.parseTime k = (k, (v, Some e)) /\
  time_IsZero (Tick.parsedTime (fst (Tick.parseTime k))) = true /\
  Tick.UnixTimestamp k = (k, (0, Some e)) /\
  Tick.Nanoseconds k = (k, (0, Some e)) /\
  (forall text : string,
     Tick.parseTime (Tick.set_Time text (fst (Tick.parseTime k))) =
       match time_Parse_RFC3339Nano text with
       | (v', Some e') => (Tick.set_Time text k, (v', Some e'))
       | (v', None) =>
           (Tick.set_parsedTime v' (Tick.set_Time text k), (v', None))
       end).
Proof.
  intros Hzero Hfail.
  assert (Hcall : Tick.parseTime k = (k, (v, Some e))).
  { rewrite parseTime_attempt by exact Hzero. rewrite Hfail. reflexivity. }
  split; [exact Hcall|]. rewrite Hcall. cbn [fst].
  split; [exact Hzero|].
  split; [unfold Tick.UnixTimestamp; rewrite Hcall; reflexivity|].
  split; [unfold Tick.Nanoseconds; rewrite Hcall; reflexivity|].
  intros text. rewrite parseTime_attempt by exact Hzero. reflexivity.
Qed.

End TimeTheorems.

Lemma parseTime_memoizes_nonzero_witness :
  Tick.parseTime (L := Reference.library)
    (Tick.set_Time "not a timestamp"
       (Tick.set_parsedTime (mkTime 63617810146 64294036 0)
          (Tick.set_Time "2016-12-20T05:55:46.064294036Z" Tick.zero)))
  = (Tick.set_Time "not a timestamp"
       (Tick.set_parsedTime (mkTime 63617810146 64294036 0)
          (Tick.set_Time "2016-12-20T05:55:46.064294036Z" Tick.zero)),
     (mkTime 63617810146 64294036 0, None)).
Proof.
  apply (parseTime_memoizes_nonzero (L := Reference.library)
           (Tick.set_Time "2016-12-20T05:55:46.064294036Z" Tick.zero)).
  - vm_compute. reflexivity.
  - reflexivity.
Defined.

Lemma parseTime_failure_is_not_cached_witness :
  Tick.UnixTimestamp (L := Reference.library)
    (Tick.set_Time "2016-12-20" Tick.zero)
  = (Tick.set_Time "2016-12-20" Tick.zero,
     (0, Some (Reference.time_error "2016-12-20"))).
Proof.
  apply (parseTime_failure_is_not_cached (L := Reference.library)
           (Tick.set_Time "2016-12-20" Tick.zero) time_zero).
  - reflexivity.
  - vm_compute. reflexivity.
Defined.

(** C4 as it is stated fails on a Tick whose time does not parse: the first
    call returns an error and caches nothing, and so does the second. *)
Lemma parseTime_error_is_raised_again :
  ~ parseTime_memoizes (L := Reference.library)
      (Tick.set_Time "2016-12-20" Tick.zero).
Proof.
  intros H. specialize (H "2016-12-20"). vm_compute in H. discriminate H.
Qed.

(** The zero instant is cached like any other timestamp, and [IsZero] then
    takes the cache for empty: the text is parsed again at the next call. *)
Example parseTime_zero_instant_is_parsed_again :
  let k := Tick.set_Time "0001-01-01T00:00:00Z" Tick.zero in
  let '(k1, r1) := Tick.parseTime (L := Reference.library) k in
  r1 = (time_zero, None) /\
  snd (Tick.parseTime (L := Reference.library) (Tick.set_Time "later" k1))
  = (time_zero, Some (Reference.time_error "later")).
Proof. vm_compute. split; reflexivity. Qed.

(** ** The endpoint template *)

Section UrlTheorems.
Context {L : GoLibrary}.

Lemma construct_installs (call : Construction) (g : Globals) :
  baseUrl (fst (construct call g)) = selected_template call.
Proof. destruct call as [a k c [|]|a k [|]]; reflexivity. Qed.

Lemma construct_all_app (calls1 calls2 : list Construction) (g : Globals) :
  construct_all (calls1 ++ calls2) g =
    let '(g1, cs1) := construct_all calls1 g in
    let '(g2, cs2) := construct_all calls2 g1 in
    (g2, (cs1 ++ cs2)%list).
Proof.
  revert g. induction calls1 as [|call rest IH]; intros g; cbn.
  - destruct (construct_all calls2 g); reflexivity.
  - destruct (construct call g) as [g1 c]. rewrite IH.
    destruct (construct_all rest g1) as [g2 cs].
    destruct (construct_all calls2 g2); reflexivity.
Qed.

Lemma construct_all_length (calls : list Construction) (g : Globals) :
  List.length (snd (construct_all calls g)) = List.length calls.
Proof.
  revert g. induction calls as [|call rest IH]; intros g; cbn; [reflexivity|].
  destruct (construct call g) as [g1 c]. specialize (IH g1).
  destruct (construct_all rest g1). cbn in *. congruence.
Qed.

(** C5: after any sequence of constructor calls, [baseUrl] is the template
    the most recent call selected, and [url()] of each client made so far,
    the earlier ones included, formats that template. *)
Theorem url_formats_latest_template
  (calls : list Construction) (latest : Construction) (g0 : Globals) :
  let '(g, clients) := construct_all (calls ++ [latest]) g0 in
  baseUrl g = selected_template latest /\
  List.length clients = S (List.length calls) /\
  Forall (fun c => Client.url g c
                   = fmt_Sprintf (selected_template latest)
                       [Client.account c; Client.currencies c]) clients.
Proof.
  pose proof (construct_all_length (calls ++ [latest]) g0) as Hlen.
  rewrite construct_all_app in *.
  destruct (construct_all calls g0) as [g1 cs1]. cbn in *.
  pose proof (construct_installs latest g1) as Hinst.
  destruct (construct latest g1) as [g c]. cbn in *.
  split; [exact Hinst|]. split.
  - rewrite Hlen, length_app. cbn. lia.
  - apply Forall_forall. intros c' _. unfold Client.url. rewrite Hinst.
    reflexivity.
Qed.

End UrlTheorems.

(** A price client made for the live environment answers with the
    transaction endpoint of the practice environment once a transaction
    client has been made. *)
Example earlier_client_uses_later_template :
  let '(g1, price) := Client.New "101-001" "secret" "EUR_USD" true initial_globals in
  let '(g2, _) := Client.NewTransaction "101-002" "secret" false g1 in
  Client.url (L := Reference.library) g1 price
  = "https://stream-fxtrade.oanda.com/v3/accounts/101-001/pricing/stream?instruments=EUR_USD"
  /\ Client.url (L := Reference.library) g2 price
  = "https://api-fxpractice.oanda.com/v3/accounts/101-001/transactions/stream%!(EXTRA string=EUR_USD)".
Proof. vm_compute. split; reflexivity. Qed.

(** ** The streaming loops *)

Section LoopTheorems.
Context {L : GoLibrary}.

Lemma Run_loop_decoded {A} (f : handler A Tick.t) line rest failure tick tick1 a :
  Unmarshal.tick line tick = (tick1, None) ->
  Run_loop f (line :: rest) failure tick a =
    if Tick.IsTradeable tick1 then
      let '(a', tick2) := f a tick1 in Run_loop f rest failure tick2 a'
    else Run_loop f rest failure tick1 a.
Proof. intros H. cbn [Run_loop]. rewrite H. reflexivity. Qed.

Lemma Run_loop_undecoded {A} (f : handler A Tick.t) line rest failure tick tick1 e a :
  Unmarshal.tick line tick = (tick1, Some e) ->
  Run_loop f (line :: rest) failure tick a
  = (a, Some (errors_New_Sprint "json.Unmarshal:" e)).
Proof. intros H. cbn [Run_loop]. rewrite H. reflexivity. Qed.

Lemma RunTransactions_loop_decoded {A} (f : handler A Transaction.t)
  line rest failure tr tr1 a :
  Unmarshal.transaction line tr = (tr1, None) ->
  RunTransactions_loop f (line :: rest) failure tr a =
    if closing_fill tr1 then
      let '(a', tr2) := f a tr1 in RunTransactions_loop f rest failure tr2 a'
    else RunTransactions_loop f rest failure tr1 a.
Proof. intros H. cbn [RunTransactions_loop]. rewrite H. reflexivity. Qed.

Lemma RunTransactions_loop_undecoded {A} (f : handler A Transaction.t)
  line rest failure tr tr1 e a :
  Unmarshal.transaction line tr = (tr1, Some e) ->
  RunTransactions_loop f (line :: rest) failure tr a
  = (a, Some (errors_New_Sprint "json.Unmarshal:" e)).
Proof. intros H. cbn [RunTransactions_loop]. rewrite H. reflexivity. Qed.

Lemma ends_with_cons {T} (unmarshal : string -> T -> T * option error)
  line lines failure result :
  ends_with unmarshal lines failure result ->
  ends_with unmarshal (line :: lines) failure result.
Proof.
  intros [H|[l [x [x' [c [Hin [Hu Hr]]]]]]]; [left; exact H|].
  right. exists l, x, x', c. split; [right; exact Hin|]. auto.
Qed.

Lemma Run_loop_ends {A} (f : handler A Tick.t) lines failure :
  forall tick a,
    ends_with Unmarshal.tick lines failure (snd (Run_loop f lines failure tick a)).
Proof.
  induction lines as [|line rest IH]; intros tick a.
  - left. reflexivity.
  - destruct (Unmarshal.tick line tick) as [tick1 [e|]] eqn:Hu.
    + rewrite (Run_loop_undecoded f _ _ _ _ _ _ _ Hu).
      right. exists line, tick, tick1, e. split; [left; reflexivity|]. auto.
    + rewrite (Run_loop_decoded f _ _ _ _ _ _ Hu). apply ends_with_cons.
      destruct (Tick.IsTradeable tick1); [|apply IH].
      destruct (f a tick1) as [a' tick2]. apply IH.
Qed.

Lemma RunTransactions_loop_ends {A} (f : handler A Transaction.t) lines failure :
  forall tr a,
    ends_with Unmarshal.transaction lines failure
      (snd (RunTransactions_loop f lines failure tr a)).
Proof.
  induction lines as [|line rest IH]; intros tr a.
  - left. reflexivity.
  - destruct (Unmarshal.transaction line tr) as [tr1 [e|]] eqn:Hu.
    + rewrite (RunTransactions_loop_undecoded f _ _ _ _ _ _ _ Hu).
      right. exists line, tr, tr1, e. split; [left; reflexivity|]. auto.
    + rewrite (RunTransactions_loop_decoded f _ _ _ _ _ _ Hu).
      apply ends_with_cons.
      destruct (closing_fill tr1); [|apply IH].
      destruct (f a tr1) as [a' tr2]. apply IH.
Qed.

Lemma unmarshal_malformed {T} (fields : Unmarshal.field_table T) gotype line x :
  Json.parse line = None ->
  Unmarshal.unmarshal fields gotype line x = (x, Some Unmarshal.syntax_error).
Proof. intros H. unfold Unmarshal.unmarshal. rewrite H. reflexivity. Qed.

End LoopTheorems.

(** ** Fields a line does not name *)

Section StaleFields.
Context {L : GoLibrary}.

(** Within each record type the JSON names stay apart when letter case is
    ignored, so that looking a key up by its folded name finds the field
    that Go finds. *)
Lemma field_names_fold_apart :
  all_distinct (map (fun f => Unmarshal.foldName (fst f)) Unmarshal.quote_fields)
  = true
  /\ all_distinct (map (fun f => Unmarshal.foldName (fst f)) Unmarshal.tick_fields)
     = true
  /\ all_distinct
       (map (fun f => Unmarshal.foldName (fst f)) Unmarshal.transaction_fields)
     = true.
Proof. repeat split; vm_compute; reflexivity. Qed.

Lemma tick_store_keeps_status key store v x :
  Unmarshal.find_field key Unmarshal.tick_fields = Some store ->
  names_status key = false ->
  Tick.Status (outcome_value (store v x)) = Tick.Status x.
Proof.
  unfold names_status, Unmarshal.tick_fields. cbn [Unmarshal.find_field].
  intros Hfind Hkey.
  repeat match type of Hfind with
  | (if String.eqb ?a ?b then _ else _) = _ =>
      let E := fresh "E" in
      destruct (String.eqb a b) eqn:E;
      [injection Hfind as <-|]
  end.
  all: try discriminate Hfind.
  all: try (destruct v; cbn;
            try match goal with
                | |- context [Unmarshal.into_quotes ?i ?o] =>
                    destruct (Unmarshal.into_quotes i o)
                end; reflexivity).
  match goal with
  | E : String.eqb _ (Unmarshal.foldName key) = true |- _ =>
      apply String.eqb_eq in E;
      change (Unmarshal.foldName "status") with "STATUS" in E;
      rewrite <- E in Hkey; cbn in Hkey; discriminate Hkey
  end.
Qed.

Lemma object_members_keeps_status members :
  Forall (fun kv => names_status (fst kv) = false) members ->
  forall x saved,
    Tick.Status
      (outcome_value
         (Unmarshal.object_members Unmarshal.tick_fields members x saved))
    = Tick.Status x.
Proof.
  induction 1 as [|[key v] rest Hkey _ IH]; intros x saved;
    cbn [Unmarshal.object_members]; [reflexivity|].
  destruct (Unmarshal.find_field key Unmarshal.tick_fields) as [store|] eqn:Hf;
    [|apply IH].
  pose proof (tick_store_keeps_status key store v x Hf Hkey) as Hs.
  destruct (store v x) as [x1 e1|x1 e1]; cbn in Hs |- *; [|exact Hs].
  rewrite IH. exact Hs.
Qed.

(** A line that is a JSON object without a member named [status] leaves
    the status of the record as the line before left it. *)
Lemma line_without_status_keeps_status line members tick :
  Json.parse line = Some (Json.Object members) ->
  Forall (fun kv => names_status (fst kv) = false) members ->
  Tick.Status (fst (Unmarshal.tick line tick)) = Tick.Status tick.
Proof.
  intros Hparse Hkeys.
  unfold Unmarshal.tick, Unmarshal.unmarshal. rewrite Hparse.
  cbn [Unmarshal.into_struct].
  pose proof (object_members_keeps_status members Hkeys tick None) as Hs.
  destruct (Unmarshal.object_members _ _ _ _); exact Hs.
Qed.

(** So the handler is called for every such line that decodes, a heartbeat
    for one, once the record holds a tradeable price. *)
Lemma line_without_status_is_forwarded {A} (f : handler A Tick.t)
  line rest cause members tick tick1 a :
  Json.parse line = Some (Json.Object members) ->
  Forall (fun kv => names_status (fst kv) = false) members ->
  Tick.IsTradeable tick = true ->
  Unmarshal.tick line tick = (tick1, None) ->
  Run_loop f (line :: rest) cause tick a =
    let '(a', tick2) := f a tick1 in Run_loop f rest cause tick2 a'.
Proof.
  intros Hparse Hkeys Htr Hu.
  rewrite (Run_loop_decoded f _ _ _ _ _ _ Hu).
  pose proof (line_without_status_keeps_status line members tick Hparse Hkeys)
    as Hs.
  rewrite Hu in Hs. cbn [fst] in Hs.
  unfold Tick.IsTradeable in *. rewrite Hs, Htr. reflexivity.
Qed.

End StaleFields.

(** ** The remaining methods of Tick *)

Example Symbol_removes_first_underscore :
  Tick.Symbol (Tick.set_Instrument "EUR_USD" Tick.zero) = "EURUSD"
  /\ Tick.Symbol (Tick.set_Instrument "A_B_C" Tick.zero) = "AB_C".
Proof. split; reflexivity. Qed.

Example IsJapanese_looks_for_JPY :
  Tick.IsJapanese (Tick.set_Instrument "USD_JPY" Tick.zero) = true
  /\ Tick.IsJapanese (Tick.set_Instrument "EUR_USD" Tick.zero) = false.
Proof. split; reflexivity. Qed.

Section LoopProperties.
Context {L : GoLibrary}.

(** C6: in both loops a failed read, the end of the stream included, and a
    failed decode, malformed JSON included, end the loop at once with an
    error that wraps the cause: the handler is not called for that line and
    no later line is looked at.  The loops have no other exit: once
    connected, [Run] and [RunTransactions] return an error, never nil. *)
Theorem failures_end_the_loops {A B : Type}
  (f : handler A Tick.t) (ft : handler B Transaction.t)
  (g : Globals) (c : Client.t) (http : string -> string -> Transport)
  (body : Body) (line : string) (rest lines : list string) (cause : error)
  (tick : Tick.t) (tr : Transaction.t) (a : A) (b : B) :
  Run_loop f [] cause tick a
  = (a, Some (errors_New_Sprint "reader.ReadBytes:" cause)) /\
  RunTransactions_loop ft [] cause tr b
  = (b, Some (errors_New_Sprint "reader.ReadBytes:" cause)) /\
  (forall tick1 e,
     Unmarshal.tick line tick = (tick1, Some e) ->
     Run_loop f (line :: rest) cause tick a
     = (a, Some (errors_New_Sprint "json.Unmarshal:" e))) /\
  (forall tr1 e,
     Unmarshal.transaction line tr = (tr1, Some e) ->
     RunTransactions_loop ft (line :: rest) cause tr b
     = (b, Some (errors_New_Sprint "json.Unmarshal:" e))) /\
  (Json.parse line = None ->
     Run_loop f (line :: rest) cause tick a
     = (a, Some (errors_New_Sprint "json.Unmarshal:" Unmarshal.syntax_error))
     /\ RunTransactions_loop ft (line :: rest) cause tr b
     = (b, Some (errors_New_Sprint "json.Unmarshal:" Unmarshal.syntax_error))) /\
  ends_with Unmarshal.tick lines cause (snd (Run_loop f lines cause tick a)) /\
  ends_with Unmarshal.transaction lines cause
    (snd (RunTransactions_loop ft lines cause tr b)) /\
  (http (Client.url g c) ("Bearer " ++ Client.token c) = Response body ->
     ends_with Unmarshal.tick (ReadBytes_lines (content body) []) (failure body)
       (snd (Run g c http f a))) /\
  (http (fmt_Sprintf (baseUrl g) [Client.account c])
        ("Bearer " ++ Client.token c) = Response body ->
     ends_with Unmarshal.transaction (ReadBytes_lines (content body) [])
       (failure body) (snd (RunTransactions g c http ft b))).
Proof.
  split; [reflexivity|]. split; [reflexivity|].
  split; [intros tick1 e H; eapply Run_loop_undecoded; exact H|].
  split; [intros tr1 e H; eapply RunTransactions_loop_undecoded; exact H|].
  split.
  { intros Hbad. split.
    - eapply Run_loop_undecoded. apply unmarshal_malformed. exact Hbad.
    - eapply RunTransactions_loop_undecoded. apply unmarshal_malformed.
      exact Hbad. }
  split; [apply Run_loop_ends|]. split; [apply RunTransactions_loop_ends|].
  split.
  - intros Hc. unfold Run. rewrite Hc. apply Run_loop_ends.
  - intros Hc. unfold RunTransactions. rewrite Hc.
    apply RunTransactions_loop_ends.
Qed.

Lemma closing_fill_spec (x : Transaction.t) :
  closing_fill x = true <->
  Transaction.Type_ x = "ORDER_FILL"
  /\ (Transaction.Reason x = "MARKET_ORDER_TRADE_CLOSE"
      \/ Transaction.Reason x = "TAKE_PROFIT_ORDER").
Proof.
  unfold closing_fill, Transaction.IsOrderFill,
    Transaction.IsMarketOrderTradeClose, Transaction.IsTakeProfitOrder.
  rewrite andb_true_iff, orb_true_iff, !String.eqb_eq.
  intuition congruence.
Qed.

Lemma recorded_transactions_prefix lines failure :
  forall (tr : Transaction.t) (log : list Transaction.t),
    fst (RunTransactions_loop record_call lines failure tr log)
    = (log ++ fst (RunTransactions_loop record_call lines failure tr []))%list.
Proof.
  induction lines as [|line rest IH]; intros tr log.
  - cbn. rewrite app_nil_r. reflexivity.
  - cbn [RunTransactions_loop].
    destruct (Unmarshal.transaction line tr) as [tr1 [e|]].
    + cbn. rewrite app_nil_r. reflexivity.
    + destruct (_ && _); [|apply IH].
      unfold record_call at 1 3. rewrite IH.
      rewrite (IH tr1 ([] ++ [tr1])%list). cbn [app].
      rewrite <- app_assoc. reflexivity.
Qed.

(** C7: a decoded Transaction is handed to the handler exactly when its
    type is ORDER_FILL and its reason is MARKET_ORDER_TRADE_CLOSE or
    TAKE_PROFIT_ORDER; otherwise the loop goes on to the next line without
    a call. *)
Theorem transaction_forwarded_iff_closing_fill {A : Type}
  (f : handler A Transaction.t) (line : string) (rest : list string)
  (cause : error) (tr tr1 : Transaction.t) (a : A) :
  Unmarshal.transaction line tr = (tr1, None) ->
  (Transaction.IsOrderFill tr1
   && (Transaction.IsMarketOrderTradeClose tr1
       || Transaction.IsTakeProfitOrder tr1) = true
   <-> Transaction.Type_ tr1 = "ORDER_FILL"
       /\ (Transaction.Reason tr1 = "MARKET_ORDER_TRADE_CLOSE"
           \/ Transaction.Reason tr1 = "TAKE_PROFIT_ORDER")) /\
  RunTransactions_loop f (line :: rest) cause tr a =
    (if Transaction.IsOrderFill tr1
        && (Transaction.IsMarketOrderTradeClose tr1
            || Transaction.IsTakeProfitOrder tr1)
     then let '(a', tr2) := f a tr1 in RunTransactions_loop f rest cause tr2 a'
     else RunTransactions_loop f rest cause tr1 a) /\
  fst (RunTransactions_loop record_call (line :: rest) cause tr []) =
    ((if Transaction.IsOrderFill tr1
         && (Transaction.IsMarketOrderTradeClose tr1
             || Transaction.IsTakeProfitOrder tr1)
      then [tr1] else [])
     ++ fst (RunTransactions_loop record_call rest cause tr1 []))%list.
Proof.
  intros Hu. split; [apply closing_fill_spec|]. split.
  - apply RunTransactions_loop_decoded. exact Hu.
  - rewrite (RunTransactions_loop_decoded record_call _ _ _ _ _ _ Hu).
    unfold closing_fill. destruct (_ && _); [|reflexivity].
    unfold record_call at 1. apply recorded_transactions_prefix.
Qed.





End LoopProperties.

(** ** The loops on concrete streams *)

Lemma failures_end_the_loops_witness :
  Run_loop (L := Reference.library) record_call
    [wire "{'status':"; price_line] "EOF" Tick.zero []
  = ([], Some "json.Unmarshal:json: invalid JSON input")
  /\ RunTransactions_loop (L := Reference.library) record_call
       [wire "{'status':"; price_line] "EOF" Transaction.zero []
     = ([], Some "json.Unmarshal:json: invalid JSON input").
Proof.
  destruct (failures_end_the_loops (L := Reference.library)
              record_call record_call initial_globals
              (Client.mk EmptyString EmptyString EmptyString EmptyString) (serve EmptyString) (mkBody EmptyString "EOF")
              (wire "{'status':") [price_line] [] "EOF"
              Tick.zero Transaction.zero [] [])
    as [_ [_ [_ [_ [Hmalformed _]]]]].
  apply Hmalformed. vm_compute. reflexivity.
Defined.

Lemma transaction_forwarded_iff_closing_fill_witness :
  fst (RunTransactions_loop (L := Reference.library) record_call
         [wire "{'type':'ORDER_FILL','reason':'MARKET_ORDER_TRADE_CLOSE'}"]
         "EOF" Transaction.zero [])
  = [Transaction.set_Reason "MARKET_ORDER_TRADE_CLOSE"
       (Transaction.set_Type "ORDER_FILL" Transaction.zero)].
Proof.
  destruct (transaction_forwarded_iff_closing_fill (L := Reference.library)
              (@record_call Transaction.t)
              (wire "{'type':'ORDER_FILL','reason':'MARKET_ORDER_TRADE_CLOSE'}")
              [] "EOF" Transaction.zero
              (Transaction.set_Reason "MARKET_ORDER_TRADE_CLOSE"
                 (Transaction.set_Type "ORDER_FILL" Transaction.zero)) [])
    as [_ [_ Hlog]].
  - vm_compute. reflexivity.
  - rewrite Hlog. vm_compute. reflexivity.
Defined.



Example null_time_reaches_handler :
  RunTransactions_loop (L := Reference.library) record_call
    [null_time_line] "EOF" Transaction.zero []
  = ([Transaction.set_Reason "TAKE_PROFIT_ORDER"
        (Transaction.set_Type "ORDER_FILL"
           (Transaction.set_Id "6" Transaction.zero))],
     Some "reader.ReadBytes:EOF").
Proof. vm_compute. reflexivity. Qed.

(** C1, at the input where the code departs from it: a heartbeat that
    follows a tradeable price.  The heartbeat line carries no status, the
    record keeps the status of the price, and the handler is called for the
    heartbeat, with the prices of the line before.  A heartbeat that comes
    first is decoded into the zero Tick and is skipped. *)
Theorem heartbeat_after_price_reaches_handler :
  exists price beat,
    Run (L := Reference.library) initial_globals (Client.mk "101-001" "secret" "USD_JPY" "PRICE")
      (serve (price_line ++ heartbeat_line)) record_call []
    = ([price; beat], Some "reader.ReadBytes:EOF")
    /\ Tick.IsHeartbeat price = false
    /\ Tick.IsHeartbeat beat = true
    /\ Tick.Time beat = "2016-12-20T05:55:46.064294036Z"
    /\ Tick.Status beat = "tradeable"
    /\ Tick.Asks beat = Tick.Asks price
    /\ Run (L := Reference.library) initial_globals
         (Client.mk "101-001" "secret" "USD_JPY" "PRICE")
         (serve (heartbeat_line ++ price_line)) record_call []
       = ([price], Some "reader.ReadBytes:EOF").
Proof.
  eexists. eexists. split; [vm_compute; reflexivity|].
  repeat split; vm_compute; reflexivity.
Qed.

(** The stream of the specification's end-to-end test: a heartbeat, a price
    that is not tradeable, a tradeable price.  The handler is called once,
    for the third line. *)
Example three_lines_one_call :
  exists k,
    Run_loop (L := Reference.library) record_call
      [heartbeat_line;
       wire "{'status':'non-tradeable','type':'PRICE','instrument':'EUR_USD'}";
       wire "{'status':'tradeable','type':'PRICE','instrument':'EUR_USD'}"]
      "EOF" Tick.zero []
    = ([k], Some "reader.ReadBytes:EOF")
    /\ Tick.Status k = "tradeable".
Proof. eexists. split; vm_compute; reflexivity. Qed.

(** * Further properties of the client *)

(** ** The book: errors, NaN and the sign of the result *)

Section BookExtras.
Context {L : GoLibrary}.

Lemma BestAsk_range_fails pre : forall vals q post v e best,
  parses_without_error pre vals ->
  strconv_ParseFloat (Quote.Price q) = (v, Some e) ->
  Tick.BestAsk_range (pre ++ q :: post) best = (f64_zero, Some e).
Proof.
  induction pre as [|p pre IH]; intros vals q post v e best Hp Hq.
  - cbn. unfold Quote.PriceAsFloat. rewrite Hq. reflexivity.
  - inversion Hp as [|? w ? ws Hw Hrest]; subst. cbn.
    rewrite (PriceAsFloat_parsed _ _ Hw).
    destruct (f64_eqb f64_zero best); [eapply IH; eauto|].
    destruct (f64_ltb w best); eapply IH; eauto.
Qed.

Lemma BestBid_range_fails pre : forall vals q post v e best,
  parses_without_error pre vals ->
  strconv_ParseFloat (Quote.Price q) = (v, Some e) ->
  Tick.BestBid_range (pre ++ q :: post) best = (f64_zero, Some e).
Proof.
  induction pre as [|p pre IH]; intros vals q post v e best Hp Hq.
  - cbn. unfold Quote.PriceAsFloat. rewrite Hq. reflexivity.
  - inversion Hp as [|? w ? ws Hw Hrest]; subst. cbn.
    rewrite (PriceAsFloat_parsed _ _ Hw).
    destruct (f64_ltb best w); eapply IH; eauto.
Qed.

(** X1: [BestAsk] and [BestBid] fail at the first price that does not
    parse: they return 0 together with the error of that price, whatever
    the prices before it were and whatever follows. *)
Theorem best_price_fails_at_first_bad_quote
  (k : Tick.t) (pre post : list Quote.t) (q : Quote.t)
  (vals : list float64) (v : float64) (e : error) :
  parses_without_error pre vals ->
  strconv_ParseFloat (Quote.Price q) = (v, Some e) ->
  (Tick.Asks k = (pre ++ q :: post)%list ->
   Tick.BestAsk k = (f64_zero, Some e)) /\
  (Tick.Bids k = (pre ++ q :: post)%list ->
   Tick.BestBid k = (f64_zero, Some e)).
Proof.
  intros Hp Hq. split; intros Hk.
  - unfold Tick.BestAsk. rewrite Hk.
    destruct (pre ++ q :: post)%list eqn:E;
      [destruct pre; discriminate E|].
    cbn [List.length Nat.eqb]. rewrite <- E.
    eapply BestAsk_range_fails; eauto.
  - unfold Tick.BestBid. rewrite Hk.
    destruct (pre ++ q :: post)%list eqn:E;
      [destruct pre; discriminate E|].
    cbn [List.length Nat.eqb]. rewrite <- E.
    eapply BestBid_range_fails; eauto.
Qed.

Lemma BestAsk_range_folds quotes vals :
  parses_without_error quotes vals ->
  forall best,
    Tick.BestAsk_range quotes best = (fold_left ask_step vals best, None).
Proof.
  induction 1 as [|q v quotes vals Hq _ IH]; intros best; cbn.
  - reflexivity.
  - rewrite (PriceAsFloat_parsed _ _ Hq).
    change (fold_left ask_step vals (ask_step best v))
      with (fold_left ask_step vals
              (if f64_eqb f64_zero best then v
               else if f64_ltb v best then v else best)).
    destruct (f64_eqb f64_zero best); [apply IH|].
    destruct (f64_ltb v best); apply IH.
Qed.

Lemma BestBid_range_folds quotes vals :
  parses_without_error quotes vals ->
  forall best,
    Tick.BestBid_range quotes best = (fold_left bid_step vals best, None).
Proof.
  induction 1 as [|q v quotes vals Hq _ IH]; intros best; cbn.
  - reflexivity.
  - rewrite (PriceAsFloat_parsed _ _ Hq).
    change (fold_left bid_step vals (bid_step best v))
      with (fold_left bid_step vals (if f64_ltb best v then v else best)).
    destruct (f64_ltb best v); apply IH.
Qed.

Lemma BestBid_folds (k : Tick.t) vals :
  parses_without_error (Tick.Bids k) vals ->
  Tick.BestBid k = (fold_left bid_step vals f64_zero, None).
Proof.
  intros Hp. unfold Tick.BestBid.
  destruct (Tick.Bids k) as [|q qs] eqn:E.
  - inversion Hp; subst. reflexivity.
  - cbn [List.length Nat.eqb]. apply BestBid_range_folds. exact Hp.
Qed.

Lemma ask_fold_member vals : forall best,
  In (fold_left ask_step vals best) (best :: vals).
Proof.
  induction vals as [|v rest IH]; intros best; cbn [fold_left].
  - left. reflexivity.
  - assert (Hs : ask_step best v = v \/ ask_step best v = best).
    { unfold ask_step. destruct (f64_eqb f64_zero best); auto.
      destruct (f64_ltb v best); auto. }
    destruct Hs as [-> | ->].
    + right. apply IH.
    + destruct (IH best) as [H|H]; [left; exact H | right; right; exact H].
Qed.

(** X2: when the asks are not empty and every price parses, [BestAsk]
    returns one of the parsed prices, a zero or a NaN among them
    included: it never returns a value that is not in the book. *)
Theorem BestAsk_returns_an_ask (k : Tick.t) (vals : list float64) :
  Tick.Asks k <> [] ->
  parses_without_error (Tick.Asks k) vals ->
  exists m, Tick.BestAsk k = (m, None) /\ In m vals.
Proof.
  intros Hne Hp. unfold Tick.BestAsk.
  destruct (Tick.Asks k) as [|q qs] eqn:E; [contradiction|].
  cbn [List.length Nat.eqb]. rewrite (BestAsk_range_folds _ _ Hp).
  eexists. split; [reflexivity|].
  inversion Hp as [|? v ? rest Hq Hrest]; subst.
  cbn [fold_left]. change (ask_step f64_zero v) with v.
  apply ask_fold_member.
Qed.

Lemma ltb_numbers x y :
  f64_ltb x y = true -> f64_is_nan x = false /\ f64_is_nan y = false.
Proof.
  destruct x as [sx|sx| |sx mx ex], y as [sy|sy| |sy my ey];
    cbn; intros H; try discriminate H; split; reflexivity.
Qed.

Lemma bid_fold_bounds vals : forall best,
  f64_is_nan best = false -> nonnegative best ->
  f64_is_nan (fold_left bid_step vals best) = false /\
  nonnegative (fold_left bid_step vals best) /\
  f64_leb best (fold_left bid_step vals best) = true /\
  Forall (fun v => f64_ltb (fold_left bid_step vals best) v = false) vals.
Proof.
  induction vals as [|v rest IH]; intros best Hb Hnn; cbn [fold_left].
  - split; [exact Hb|]. split; [exact Hnn|]. split; [|constructor].
    apply leb_refl; exact Hb.
  - assert (Hs : bid_step best v = if f64_ltb best v then v else best)
      by reflexivity.
    rewrite Hs. clear Hs.
    destruct (f64_ltb best v) eqn:E.
    + destruct (ltb_numbers _ _ E) as [_ Hv].
      assert (Hbv : f64_leb best v = true) by (apply ltb_leb; auto).
      assert (Hvnn : nonnegative v).
      { unfold nonnegative. eapply leb_trans; [| | | exact Hnn | exact Hbv];
          auto. }
      destruct (IH v Hv Hvnn) as [Hr [Hrnn [Hle Hall]]].
      split; [exact Hr|]. split; [exact Hrnn|]. split.
      * eapply leb_trans; [| | | exact Hbv | exact Hle]; auto.
      * constructor; [|exact Hall].
        destruct (f64_ltb (fold_left bid_step rest v) v) eqn:Elt; [|reflexivity].
        exfalso. apply ltb_rank in Elt; auto. apply leb_rank in Hle; auto.
        destruct Hle as [Hlt|Heq].
        -- eapply lex_lt_irrefl. eapply lex_lt_trans; eauto.
        -- rewrite Heq in Elt. eapply lex_lt_irrefl; eauto.
    + destruct (IH best Hb Hnn) as [Hr [Hrnn [Hle Hall]]].
      split; [exact Hr|]. split; [exact Hrnn|]. split; [exact Hle|].
      constructor; [|exact Hall].
      destruct (f64_ltb (fold_left bid_step rest best) v) eqn:Elt; [|reflexivity].
      exfalso. destruct (ltb_numbers _ _ Elt) as [_ Hv].
      apply ltb_rank in Elt; auto. apply leb_rank in Hle; auto.
      assert (Hbv : lex_lt (rank best) (rank v)).
      { destruct Hle as [Hlt|Heq]; [eapply lex_lt_trans; eauto|].
        rewrite Heq. exact Elt. }
      apply ltb_rank in Hbv; auto. congruence.
Qed.

(** X3: when every bid parses, [BestBid] returns, without error, a number
    that is not negative and that no bid exceeds.  It never returns a NaN
    or a negative price: a NaN among the bids is passed over, and a book
    of negative bids yields zero. *)
Theorem BestBid_is_never_negative (k : Tick.t) (vals : list float64) :
  parses_without_error (Tick.Bids k) vals ->
  exists m,
    Tick.BestBid k = (m, None) /\
    f64_is_nan m = false /\
    nonnegative m /\
    Forall (fun v => f64_ltb m v = false) vals.
Proof.
  intros Hp. rewrite (BestBid_folds k vals Hp).
  destruct (bid_fold_bounds vals f64_zero) as [Hr [Hnn [_ Hall]]];
    [reflexivity | reflexivity |].
  eexists. split; [reflexivity|]. auto.
Qed.

Lemma bid_fold_stays vals : forall best,
  Forall (fun v => f64_ltb best v = false) vals ->
  fold_left bid_step vals best = best.
Proof.
  induction vals as [|v rest IH]; intros best Hall; cbn [fold_left];
    [reflexivity|].
  inversion Hall as [|? ? Hv Hrest]; subst.
  unfold bid_step at 2. rewrite Hv. apply IH. exact Hrest.
Qed.

(** X4: when every bid parses and none is greater than zero, [BestBid]
    returns exactly 0, whether or not 0 is among the bids. *)
Theorem BestBid_without_positive_bid_is_zero (k : Tick.t) (vals : list float64) :
  parses_without_error (Tick.Bids k) vals ->
  Forall (fun v => f64_ltb f64_zero v = false) vals ->
  Tick.BestBid k = (f64_zero, None).
Proof.
  intros Hp Hall. rewrite (BestBid_folds k vals Hp).
  rewrite (bid_fold_stays vals f64_zero Hall). reflexivity.
Qed.

Lemma ask_fold_nan vals : fold_left ask_step vals S754_nan = S754_nan.
Proof.
  induction vals as [|v rest IH]; cbn [fold_left]; [reflexivity|].
  assert (Hs : ask_step S754_nan v = S754_nan).
  { unfold ask_step. cbn. destruct v; reflexivity. }
  rewrite Hs. exact IH.
Qed.

(** X5: when the first ask parses as a NaN and the others parse, [BestAsk]
    returns the NaN, without error, whatever the other prices are. *)
Theorem BestAsk_of_leading_NaN (k : Tick.t) (q : Quote.t)
  (rest : list Quote.t) (vals : list float64) :
  Tick.Asks k = q :: rest ->
  strconv_ParseFloat (Quote.Price q) = (S754_nan, None) ->
  parses_without_error rest vals ->
  Tick.BestAsk k = (S754_nan, None).
Proof.
  intros Hk Hq Hp. unfold Tick.BestAsk. rewrite Hk.
  cbn [List.length Nat.eqb Tick.BestAsk_range].
  rewrite (PriceAsFloat_parsed _ _ Hq).
  change (f64_eqb f64_zero f64_zero) with true. cbn iota.
  rewrite (BestAsk_range_folds _ _ Hp). rewrite ask_fold_nan. reflexivity.
Qed.

End BookExtras.

Lemma best_price_fails_at_first_bad_quote_witness :
  Tick.BestAsk (L := Reference.library) broken_book
  = (f64_zero, Some (Reference.num_error "ParseFloat" "n/a" "invalid syntax")).
Proof.
  destruct (best_price_fails_at_first_bad_quote (L := Reference.library)
              broken_book [Quote.mk f64_zero "117.680"]
              [Quote.mk f64_zero "117.682"] (Quote.mk f64_zero "n/a")
              [S754_finite false 8280993814827500 (-46)] f64_zero
              (Reference.num_error "ParseFloat" "n/a" "invalid syntax"))
    as [Hask _].
  - repeat (constructor; [vm_compute; reflexivity|]). constructor.
  - vm_compute. reflexivity.
  - apply Hask. reflexivity.
Defined.

Lemma BestAsk_returns_an_ask_witness :
  exists m,
    Tick.BestAsk (L := Reference.library) zero_first_book = (m, None)
    /\ In m [S754_zero false; S754_finite false 8281134552315855 (-46);
             S754_finite false 8280993814827500 (-46)].
Proof.
  apply (BestAsk_returns_an_ask (L := Reference.library) zero_first_book).
  - cbn. discriminate.
  - repeat (constructor; [vm_compute; reflexivity|]). constructor.
Defined.

Lemma BestBid_is_never_negative_witness :
  exists m,
    Tick.BestBid (L := Reference.library) negative_book = (m, None) /\
    f64_is_nan m = false /\
    nonnegative m /\
    Forall (fun v => f64_ltb m v = false)
      [S754_finite true 6755399441055744 (-52)].
Proof.
  apply (BestBid_is_never_negative (L := Reference.library) negative_book).
  repeat (constructor; [vm_compute; reflexivity|]). constructor.
Defined.

Lemma BestBid_without_positive_bid_is_zero_witness :
  Tick.BestBid (L := Reference.library) negative_book = (f64_zero, None).
Proof.
  apply (BestBid_without_positive_bid_is_zero (L := Reference.library)
           negative_book [S754_finite true 6755399441055744 (-52)]).
  - repeat (constructor; [vm_compute; reflexivity|]). constructor.
  - repeat (constructor; [vm_compute; reflexivity|]). constructor.
Defined.

Lemma BestAsk_of_leading_NaN_witness :
  Tick.BestAsk (L := Reference.library) nan_book = (S754_nan, None).
Proof.
  apply (BestAsk_of_leading_NaN (L := Reference.library) nan_book
           (Quote.mk f64_zero "NaN") [Quote.mk f64_zero "117.680"]
           [S754_finite false 8280993814827500 (-46)]).
  - reflexivity.
  - vm_compute. reflexivity.
  - repeat (constructor; [vm_compute; reflexivity|]). constructor.
Defined.

Lemma BestBid_maximum_of_nonnegative_witness :
  exists m,
    Tick.BestBid (L := Reference.library) nan_book = (m, None)
    /\ is_maximum m [S754_finite false 8279797546176479 (-46);
                     S754_finite false 8279938283664835 (-46)].
Proof.
  apply (BestBid_maximum_of_nonnegative (L := Reference.library) nan_book).
  - cbn. discriminate.
  - repeat (constructor; [split; vm_compute; reflexivity|]). constructor.
  - left. vm_compute. reflexivity.
Defined.

(** ** Symbol and IsJapanese *)

Lemma remove_first_underscore_split (a b : string) :
  has_byte 95 a = false ->
  Tick.remove_first_underscore (a ++ String "_"%char b) = a ++ b.
Proof.
  induction a as [|c a IH]; cbn; intros H; [reflexivity|].
  apply orb_false_iff in H. destruct H as [Hc Ha].
  rewrite Hc. rewrite (IH Ha). reflexivity.
Qed.

Lemma remove_first_underscore_none (s : string) :
  has_byte 95 s = false -> Tick.remove_first_underscore s = s.
Proof.
  induction s as [|c s IH]; cbn; intros H; [reflexivity|].
  apply orb_false_iff in H. destruct H as [Hc Hs].
  rewrite Hc. rewrite (IH Hs). reflexivity.
Qed.

(** X6: [Symbol] is the instrument without its first underscore: the text
    before that underscore followed by the text after it, later
    underscores kept; an instrument without underscore is returned as it
    is. *)
Theorem Symbol_drops_first_underscore (k : Tick.t) :
  (forall a b : string,
     Tick.Instrument k = a ++ String "_"%char b ->
     has_byte 95 a = false ->
     Tick.Symbol k = a ++ b) /\
  (has_byte 95 (Tick.Instrument k) = false ->
   Tick.Symbol k = Tick.Instrument k).
Proof.
  unfold Tick.Symbol. split.
  - intros a b -> Ha. apply remove_first_underscore_split. exact Ha.
  - apply remove_first_underscore_none.
Qed.

Lemma Symbol_drops_first_underscore_witness :
  Tick.Symbol (Tick.set_Instrument "XAU_USD_M" Tick.zero) = "XAUUSD_M".
Proof.
  destruct (Symbol_drops_first_underscore
              (Tick.set_Instrument "XAU_USD_M" Tick.zero)) as [Hsplit _].
  apply (Hsplit "XAU" "USD_M"); reflexivity.
Defined.

Lemma prefix_app (p s : string) :
  String.prefix p s = true <-> exists r, s = p ++ r.
Proof.
  revert s. induction p as [|a p IH]; intros s.
  - split; [intros _; exists s; reflexivity|]. intros _. destruct s; reflexivity.
  - destruct s as [|b s]; cbn.
    + split; [discriminate | intros [r Hr]; discriminate Hr].
    + destruct (ascii_dec a b) as [->|Hne].
      * rewrite IH. split; intros [r Hr]; exists r; congruence.
      * split; [discriminate | intros [r Hr]; congruence].
Qed.

(** X7: [IsJapanese] is true exactly when the three bytes JPY occur side
    by side somewhere in the instrument. *)
Theorem IsJapanese_iff_JPY_occurs (k : Tick.t) :
  Tick.IsJapanese k = true <->
  exists a b : string, Tick.Instrument k = a ++ "JPY" ++ b.
Proof.
  unfold Tick.IsJapanese. generalize (Tick.Instrument k) as s.
  induction s as [|c s IH]; cbn [Tick.strings_Contains].
  - rewrite orb_false_r, prefix_app. split.
    + intros [r Hr]. exists EmptyString, r. exact Hr.
    + intros [a [b H]]. destruct a; [exists b; exact H|discriminate H].
  - rewrite orb_true_iff, prefix_app, IH. split.
    + intros [[r Hr]|[a [b H]]].
      * exists EmptyString, r. exact Hr.
      * exists (String c a), b. cbn. rewrite H. reflexivity.
    + intros [a [b H]]. destruct a as [|c' a].
      * left. exists b. exact H.
      * right. exists a, b. cbn in H. injection H as _ H. exact H.
Qed.

(** ** The cached timestamp and the reused record *)

Section CacheExtras.
Context {L : GoLibrary}.

Lemma tick_store_keeps_parsedTime key store v x :
  Unmarshal.find_field key Unmarshal.tick_fields = Some store ->
  Tick.parsedTime (outcome_value (store v x)) = Tick.parsedTime x.
Proof.
  unfold Unmarshal.tick_fields. cbn [Unmarshal.find_field]. intros Hfind.
  repeat match type of Hfind with
  | (if String.eqb ?a ?b then _ else _) = _ =>
      destruct (String.eqb a b); [injection Hfind as <-|]
  end.
  all: try discriminate Hfind.
  all: destruct v; cbn;
       try match goal with
           | |- context [Unmarshal.into_quotes ?i ?o] =>
               destruct (Unmarshal.into_quotes i o)
           end; reflexivity.
Qed.

Lemma object_members_keeps_parsedTime members :
  forall x saved,
    Tick.parsedTime
      (outcome_value
         (Unmarshal.object_members Unmarshal.tick_fields members x saved))
    = Tick.parsedTime x.
Proof.
  induction members as [|[key v] rest IH]; intros x saved;
    cbn [Unmarshal.object_members]; [reflexivity|].
  destruct (Unmarshal.find_field key Unmarshal.tick_fields) as [store|] eqn:Hf;
    [|apply IH].
  pose proof (tick_store_keeps_parsedTime key store v x Hf) as Hs.
  destruct (store v x) as [x1 e1|x1 e1]; cbn in Hs |- *; [|exact Hs].
  rewrite IH. exact Hs.
Qed.

Lemma decode_keeps_parsedTime (line : string) (k : Tick.t) :
  Tick.parsedTime (fst (Unmarshal.tick line k)) = Tick.parsedTime k.
Proof.
  unfold Unmarshal.tick, Unmarshal.unmarshal.
  destruct (Json.parse line) as [v|]; [|reflexivity].
  destruct v; cbn [Unmarshal.into_struct fst]; try reflexivity.
  pose proof (object_members_keeps_parsedTime members k None) as Hs.
  destruct (Unmarshal.object_members _ _ _ _); exact Hs.
Qed.

(** X8: decoding a line into a Tick never touches the cached timestamp.
    So a Tick that has once parsed a timestamp other than the zero instant
    answers [UnixTimestamp] and [Nanoseconds] with that first timestamp
    after any later line has been decoded into it, whatever time the line
    carries. *)
Theorem cached_timestamp_outlives_the_line (k : Tick.t) (line : string) :
  time_IsZero (Tick.parsedTime k) = false ->
  Tick.parsedTime (fst (Unmarshal.tick line k)) = Tick.parsedTime k /\
  Tick.UnixTimestamp (fst (Unmarshal.tick line k))
  = (fst (Unmarshal.tick line k), (time_Unix (Tick.parsedTime k), None)) /\
  Tick.Nanoseconds (fst (Unmarshal.tick line k))
  = (fst (Unmarshal.tick line k), (time_Nanosecond (Tick.parsedTime k), None)).
Proof.
  intros Hz. pose proof (decode_keeps_parsedTime line k) as Hk.
  split; [exact Hk|].
  unfold Tick.UnixTimestamp, Tick.Nanoseconds.
  rewrite (parseTime_cached L) by (rewrite Hk; exact Hz).
  rewrite Hk. split; reflexivity.
Qed.

Lemma record_timestamp_cached (log : list (Z * option error)) (k : Tick.t) :
  time_IsZero (Tick.parsedTime k) = false ->
  record_timestamp log k
  = ((log ++ [(time_Unix (Tick.parsedTime k), None)])%list, k).
Proof.
  intros Hz. unfold record_timestamp, Tick.UnixTimestamp.
  rewrite (parseTime_cached L) by exact Hz. reflexivity.
Qed.

Lemma stale_timestamps_from lines cause :
  forall (tick : Tick.t) (log : list (Z * option error)),
    time_IsZero (Tick.parsedTime tick) = false ->
    exists more,
      fst (Run_loop record_timestamp lines cause tick log) = (log ++ more)%list
      /\ Forall (fun r => r = (time_Unix (Tick.parsedTime tick), None)) more.
Proof.
  induction lines as [|line rest IH]; intros tick log Hz.
  - exists []. cbn. rewrite app_nil_r. split; [reflexivity|constructor].
  - cbn [Run_loop].
    pose proof (decode_keeps_parsedTime line tick) as Hk.
    destruct (Unmarshal.tick line tick) as [tick1 [e|]]; cbn [fst] in Hk.
    + exists []. cbn. rewrite app_nil_r. split; [reflexivity|constructor].
    + assert (Hz1 : time_IsZero (Tick.parsedTime tick1) = false)
        by (rewrite Hk; exact Hz).
      destruct (Tick.IsTradeable tick1).
      * rewrite (record_timestamp_cached log tick1 Hz1).
        destruct (IH tick1 (log ++ [(time_Unix (Tick.parsedTime tick1), None)])%list Hz1)
          as [more [Hlog Hall]].
        exists ((time_Unix (Tick.parsedTime tick1), None) :: more).
        rewrite Hlog, <- app_assoc. split; [reflexivity|].
        rewrite <- Hk. constructor; [reflexivity|exact Hall].
      * destruct (IH tick1 log Hz1) as [more [Hlog Hall]].
        exists more. split; [exact Hlog|]. rewrite <- Hk. exact Hall.
Qed.

(** X9: in [Run], once the record holds a cached timestamp other than the
    zero instant, a handler that calls [UnixTimestamp] on each Tick it is
    given receives that one timestamp, without error, at every call until
    the stream ends: the time of the lines that follow is never parsed. *)
Theorem Run_reports_one_timestamp (lines : list string) (cause : error)
  (tick : Tick.t) :
  time_IsZero (Tick.parsedTime tick) = false ->
  Forall (fun r => r = (time_Unix (Tick.parsedTime tick), None))
    (fst (Run_loop record_timestamp lines cause tick [])).
Proof.
  intros Hz. destruct (stale_timestamps_from lines cause tick [] Hz)
    as [more [Hlog Hall]].
  rewrite Hlog. exact Hall.
Qed.

(** X10: [UnixTimestamp] and [Nanoseconds] read one parse.  When
    [UnixTimestamp] succeeds, its result is the Unix time of the timestamp
    that [parseTime] returned and cached; if that timestamp is not the zero
    instant, [Nanoseconds] on the Tick it leaves returns the nanosecond of
    the same timestamp without parsing, whatever the parser would do. *)
Theorem UnixTimestamp_then_Nanoseconds (k k1 : Tick.t) (u : Z) :
  Tick.UnixTimestamp k = (k1, (u, None)) ->
  exists v,
    Tick.parseTime k = (k1, (v, None)) /\
    u = time_Unix v /\
    Tick.parsedTime k1 = v /\
    (time_IsZero v = false ->
     forall L' : GoLibrary,
       Tick.Nanoseconds (L := L') k1 = (k1, (time_Nanosecond v, None))).
Proof.
  unfold Tick.UnixTimestamp. intros Hu.
  destruct (Tick.parseTime k) as [k' [v [e|]]] eqn:Hp; [discriminate Hu|].
  injection Hu as <- <-. exists v. split; [reflexivity|]. split; [reflexivity|].
  assert (Hc : Tick.parsedTime k' = v).
  { unfold Tick.parseTime in Hp.
    destruct (negb (time_IsZero (Tick.parsedTime k))).
    - injection Hp as <- <-. reflexivity.
    - destruct (time_Parse_RFC3339Nano (Tick.Time k)) as [p [e|]];
        [discriminate Hp|]. injection Hp as <- <-. reflexivity. }
  split; [exact Hc|]. intros Hz L'. unfold Tick.Nanoseconds.
  rewrite (parseTime_cached L') by (rewrite Hc; exact Hz).
  rewrite Hc. reflexivity.
Qed.

End CacheExtras.

Lemma cached_timestamp_outlives_the_line_witness :
  Tick.UnixTimestamp (L := Reference.library)
    (fst (Unmarshal.tick (L := Reference.library) later_price_line
            (Tick.set_parsedTime (mkTime 63617810135 676011610 0) Tick.zero)))
  = (fst (Unmarshal.tick (L := Reference.library) later_price_line
            (Tick.set_parsedTime (mkTime 63617810135 676011610 0) Tick.zero)),
     (1482213335, None)).
Proof.
  destruct (cached_timestamp_outlives_the_line (L := Reference.library)
              (Tick.set_parsedTime (mkTime 63617810135 676011610 0) Tick.zero)
              later_price_line) as [_ [Hunix _]].
  - reflexivity.
  - exact Hunix.
Defined.

Lemma Run_reports_one_timestamp_witness :
  Forall (fun r => r = (1482213335, None))
    (fst (Run_loop (L := Reference.library) (record_timestamp (L := Reference.library))
            [later_price_line; heartbeat_line] "EOF"
            (Tick.set_parsedTime (mkTime 63617810135 676011610 0) Tick.zero)
            [])).
Proof.
  apply (Run_reports_one_timestamp (L := Reference.library)
           [later_price_line; heartbeat_line] "EOF"
           (Tick.set_parsedTime (mkTime 63617810135 676011610 0) Tick.zero)).
  reflexivity.
Defined.

Lemma UnixTimestamp_then_Nanoseconds_witness :
  exists v,
    Tick.parseTime (L := Reference.library)
      (Tick.set_Time "2016-12-20T05:55:35.676011610Z" Tick.zero)
    = (Tick.set_parsedTime (mkTime 63617810135 676011610 0)
         (Tick.set_Time "2016-12-20T05:55:35.676011610Z" Tick.zero),
       (v, None)) /\
    1482213335 = time_Unix v /\
    Tick.parsedTime
      (Tick.set_parsedTime (mkTime 63617810135 676011610 0)
         (Tick.set_Time "2016-12-20T05:55:35.676011610Z" Tick.zero)) = v /\
    (time_IsZero v = false ->
     forall L' : GoLibrary,
       Tick.Nanoseconds (L := L')
         (Tick.set_parsedTime (mkTime 63617810135 676011610 0)
            (Tick.set_Time "2016-12-20T05:55:35.676011610Z" Tick.zero))
       = (Tick.set_parsedTime (mkTime 63617810135 676011610 0)
            (Tick.set_Time "2016-12-20T05:55:35.676011610Z" Tick.zero),
          (time_Nanosecond v, None))).
Proof.
  apply (UnixTimestamp_then_Nanoseconds (L := Reference.library)
           (Tick.set_Time "2016-12-20T05:55:35.676011610Z" Tick.zero)).
  vm_compute. reflexivity.
Defined.

(** The two price lines carry different times; the handler is told the
    time of the first at both calls. *)
Example second_price_reports_first_time :
  fst (Run_loop (L := Reference.library) (record_timestamp (L := Reference.library))
         [price_line; later_price_line] "EOF" Tick.zero [])
  = [(1482213335, None); (1482213335, None)].
Proof. vm_compute. reflexivity. Qed.

(** ** Values of the wrong kind *)

Section KindExtras.
Context {L : GoLibrary}.

Lemma tick_store_mismatch key k v :
  kind_of_key tick_kinds key = Some k ->
  mismatched k v = true ->
  exists store e,
    Unmarshal.find_field key Unmarshal.tick_fields = Some store
    /\ forall x, store v x = Unmarshal.Continue x (Some e).
Proof.
  unfold tick_kinds, Unmarshal.tick_fields.
  cbn [kind_of_key Unmarshal.find_field].
  repeat match goal with
  | |- context [String.eqb ?a ?b] =>
      destruct (String.eqb a b);
      [intros Hk Hm; injection Hk as <-;
       destruct v; try discriminate Hm;
       eexists; eexists; (split; [reflexivity | intros x; reflexivity])|]
  end.
  intros Hk. discriminate Hk.
Qed.

Lemma transaction_store_mismatch key k v :
  kind_of_key transaction_kinds key = Some k ->
  mismatched k v = true ->
  exists store e,
    Unmarshal.find_field key Unmarshal.transaction_fields = Some store
    /\ forall x, store v x = Unmarshal.Continue x (Some e).
Proof.
  unfold transaction_kinds, Unmarshal.transaction_fields.
  cbn [kind_of_key Unmarshal.find_field].
  repeat match goal with
  | |- context [String.eqb ?a ?b] =>
      destruct (String.eqb a b);
      [intros Hk Hm; injection Hk as <-;
       destruct v; try discriminate Hm;
       try (cbn in Hm;
            match type of Hm with
            | context [Unmarshal.parse_int64 ?l] =>
                destruct (Unmarshal.parse_int64 l) eqn:Hp; [discriminate Hm|]
            end);
       eexists; eexists;
       (split; [reflexivity | intros x; cbn; try rewrite Hp; reflexivity])|]
  end.
  intros Hk. discriminate Hk.
Qed.

Lemma object_members_keeps_error {T} (fields : Unmarshal.field_table T) members :
  forall x e0,
    outcome_error (Unmarshal.object_members fields members x (Some e0)) <> None.
Proof.
  induction members as [|[key v] rest IH]; intros x e0;
    cbn [Unmarshal.object_members]; [discriminate|].
  destruct (Unmarshal.find_field key fields) as [store|]; [|apply IH].
  destruct (store v x) as [x1 e1|x1 e1]; [apply IH | discriminate].
Qed.

Lemma object_members_mismatch {T} (fields : Unmarshal.field_table T)
  members key v :
  In (key, v) members ->
  (exists store e,
     Unmarshal.find_field key fields = Some store
     /\ forall x, store v x = Unmarshal.Continue x (Some e)) ->
  forall x saved,
    outcome_error (Unmarshal.object_members fields members x saved) <> None.
Proof.
  intros Hin [store [e [Hf Hs]]].
  induction members as [|[k w] rest IH]; intros x saved; [destruct Hin|].
  cbn [Unmarshal.object_members]. destruct Hin as [Heq|Hin].
  - injection Heq as -> ->. rewrite Hf, Hs.
    destruct saved as [e0|]; apply object_members_keeps_error.
  - destruct (Unmarshal.find_field k fields) as [st|]; [|apply IH; exact Hin].
    destruct (st w x) as [x1 e1|x1 e1]; [apply IH; exact Hin | discriminate].
Qed.

Lemma unmarshal_mismatch {T} (fields : Unmarshal.field_table T) gotype
  line members key v x :
  Json.parse line = Some (Json.Object members) ->
  In (key, v) members ->
  (exists store e,
     Unmarshal.find_field key fields = Some store
     /\ forall y, store v y = Unmarshal.Continue y (Some e)) ->
  exists x' e, Unmarshal.unmarshal fields gotype line x = (x', Some e).
Proof.
  intros Hparse Hin Hstore. unfold Unmarshal.unmarshal. rewrite Hparse.
  cbn [Unmarshal.into_struct].
  pose proof (object_members_mismatch fields members key v Hin Hstore x None)
    as Herr.
  destruct (Unmarshal.object_members fields members x None) as [x' [e|]|x' e];
    cbn in Herr; [eauto | contradiction | eauto].
Qed.

(** X11: a line that gives a field a value of the wrong JSON kind (a
    number for the status of a Tick, an object for its asks, a fraction
    for the user of a Transaction) does not decode, wherever in the line
    the member stands and whatever the other members are: [Run] and
    [RunTransactions] end with the decode error and the handler is not
    called for the line. *)
Theorem wrong_kind_ends_the_loops {A B : Type}
  (f : handler A Tick.t) (ft : handler B Transaction.t)
  (line : string) (rest : list string) (cause : error)
  (members : list (string * Json.value)) (key : string) (v : Json.value)
  (k : field_kind) (tick : Tick.t) (tr : Transaction.t) (a : A) (b : B) :
  Json.parse line = Some (Json.Object members) ->
  In (key, v) members ->
  mismatched k v = true ->
  (kind_of_key tick_kinds key = Some k ->
   exists e,
     snd (Unmarshal.tick line tick) = Some e /\
     Run_loop f (line :: rest) cause tick a
     = (a, Some (errors_New_Sprint "json.Unmarshal:" e))) /\
  (kind_of_key transaction_kinds key = Some k ->
   exists e,
     snd (Unmarshal.transaction line tr) = Some e /\
     RunTransactions_loop ft (line :: rest) cause tr b
     = (b, Some (errors_New_Sprint "json.Unmarshal:" e))).
Proof.
  intros Hparse Hin Hm. split; intros Hk.
  - destruct (unmarshal_mismatch Unmarshal.tick_fields "Tick" line members
                key v tick Hparse Hin (tick_store_mismatch key k v Hk Hm))
      as [x' [e Hu]].
    exists e. split; [unfold Unmarshal.tick; rewrite Hu; reflexivity|].
    eapply Run_loop_undecoded. exact Hu.
  - destruct (unmarshal_mismatch Unmarshal.transaction_fields "Transaction"
                line members key v tr Hparse Hin
                (transaction_store_mismatch key k v Hk Hm))
      as [x' [e Hu]].
    exists e. split; [unfold Unmarshal.transaction; rewrite Hu; reflexivity|].
    eapply RunTransactions_loop_undecoded. exact Hu.
Qed.

End KindExtras.

Lemma wrong_kind_ends_the_loops_witness :
  (exists e,
     snd (Unmarshal.tick (L := Reference.library) numeric_status_line Tick.zero)
     = Some e /\
     Run_loop (L := Reference.library) record_call
       [numeric_status_line; price_line] "EOF" Tick.zero []
     = ([], Some (errors_New_Sprint "json.Unmarshal:" e)))
  /\ (exists e,
        snd (Unmarshal.transaction (L := Reference.library)
               fractional_user_line Transaction.zero) = Some e /\
        RunTransactions_loop (L := Reference.library) record_call
          [fractional_user_line] "EOF" Transaction.zero []
        = ([], Some (errors_New_Sprint "json.Unmarshal:" e))).
Proof.
  split.
  - destruct (wrong_kind_ends_the_loops (L := Reference.library)
                (@record_call Tick.t) (@record_call Transaction.t)
                numeric_status_line [price_line] "EOF"
                [("status", Json.Number "1"); ("type", Json.Str "PRICE" "PRICE")]
                "status" (Json.Number "1") KString
                Tick.zero Transaction.zero [] []) as [Htick _].
    + vm_compute. reflexivity.
    + left. reflexivity.
    + reflexivity.
    + apply Htick. reflexivity.
  - destruct (wrong_kind_ends_the_loops (L := Reference.library)
                (@record_call Tick.t) (@record_call Transaction.t)
                fractional_user_line [] "EOF"
                [("type", Json.Str "ORDER_FILL" "ORDER_FILL");
                 ("reason", Json.Str "TAKE_PROFIT_ORDER" "TAKE_PROFIT_ORDER");
                 ("userID", Json.Number "1.5")]
                "userID" (Json.Number "1.5") KInt
                Tick.zero Transaction.zero [] []) as [_ Htr].
    + vm_compute. reflexivity.
    + right. right. left. reflexivity.
    + reflexivity.
    + apply Htr. reflexivity.
Defined.

(** ** What the loops hand to the handler *)

Section ForwardExtras.
Context {L : GoLibrary}.

Lemma recorded_ticks_prefix (change : Tick.t -> Tick.t) lines cause :
  forall (tick : Tick.t) (log : list Tick.t),
    fst (Run_loop (record_and change) lines cause tick log)
    = (log ++ fst (Run_loop (record_and change) lines cause tick []))%list.
Proof.
  induction lines as [|line rest IH]; intros tick log.
  - cbn. rewrite app_nil_r. reflexivity.
  - cbn [Run_loop].
    destruct (Unmarshal.tick line tick) as [tick1 [e|]].
    + cbn. rewrite app_nil_r. reflexivity.
    + destruct (Tick.IsTradeable tick1); [|apply IH].
      unfold record_and at 1 3. rewrite IH.
      rewrite (IH (change tick1) ([] ++ [tick1])%list). cbn [app].
      rewrite <- app_assoc. reflexivity.
Qed.

Lemma recorded_fills_prefix (change : Transaction.t -> Transaction.t)
  lines cause :
  forall (tr : Transaction.t) (log : list Transaction.t),
    fst (RunTransactions_loop (record_and change) lines cause tr log)
    = (log ++ fst (RunTransactions_loop (record_and change) lines cause tr []))%list.
Proof.
  induction lines as [|line rest IH]; intros tr log.
  - cbn. rewrite app_nil_r. reflexivity.
  - cbn [RunTransactions_loop].
    destruct (Unmarshal.transaction line tr) as [tr1 [e|]].
    + cbn. rewrite app_nil_r. reflexivity.
    + destruct (_ && _); [|apply IH].
      unfold record_and at 1 3. rewrite IH.
      rewrite (IH (change tr1) ([] ++ [tr1])%list). cbn [app].
      rewrite <- app_assoc. reflexivity.
Qed.

Lemma recorded_ticks (change : Tick.t -> Tick.t) lines cause :
  forall tick : Tick.t,
    Forall (fun k => Tick.IsTradeable k = true)
      (fst (Run_loop (record_and change) lines cause tick []))
    /\ (List.length (fst (Run_loop (record_and change) lines cause tick []))
        <= List.length lines)%nat.
Proof.
  induction lines as [|line rest IH]; intros tick.
  - cbn. split; [constructor | lia].
  - cbn [Run_loop].
    destruct (Unmarshal.tick line tick) as [tick1 [e|]].
    + cbn. split; [constructor | lia].
    + destruct (Tick.IsTradeable tick1) eqn:Htr.
      * unfold record_and at 1 3. rewrite recorded_ticks_prefix.
        destruct (IH (change tick1)) as [Hall Hlen].
        cbn [app List.length]. split.
        -- constructor; [exact Htr | exact Hall].
        -- lia.
      * destruct (IH tick1) as [Hall Hlen]. split; [exact Hall|].
        cbn [List.length]. lia.
Qed.

Lemma recorded_fills (change : Transaction.t -> Transaction.t) lines cause :
  forall tr : Transaction.t,
    Forall (fun x => closing_fill x = true)
      (fst (RunTransactions_loop (record_and change) lines cause tr []))
    /\ (List.length
          (fst (RunTransactions_loop (record_and change) lines cause tr []))
        <= List.length lines)%nat.
Proof.
  induction lines as [|line rest IH]; intros tr.
  - cbn. split; [constructor | lia].
  - destruct (Unmarshal.transaction line tr) as [tr1 [e|]] eqn:Hu.
    + rewrite (RunTransactions_loop_undecoded _ _ _ _ _ _ _ _ Hu).
      cbn. split; [constructor | lia].
    + rewrite (RunTransactions_loop_decoded _ _ _ _ _ _ _ Hu).
      destruct (closing_fill tr1) eqn:Hcf.
      * unfold record_and at 1 3. rewrite recorded_fills_prefix.
        destruct (IH (change tr1)) as [Hall Hlen].
        cbn [app List.length]. split.
        -- constructor; [exact Hcf | exact Hall].
        -- lia.
      * destruct (IH tr1) as [Hall Hlen]. split; [exact Hall|].
        cbn [List.length]. lia.
Qed.

(** X12: over a whole stream, and whatever the handler does to the record
    it is given, every Tick that [Run] hands to the handler has the status
    tradeable and every Transaction that [RunTransactions] hands over is
    an order fill closed by a market order or a take-profit order; the
    handler is called at most once for each line read. *)
Theorem handler_receives_only_accepted_records
  (change : Tick.t -> Tick.t) (change' : Transaction.t -> Transaction.t)
  (lines : list string) (cause : error) (tick : Tick.t) (tr : Transaction.t) :
  Forall (fun k => Tick.Status k = "tradeable")
    (fst (Run_loop (record_and change) lines cause tick [])) /\
  (List.length (fst (Run_loop (record_and change) lines cause tick []))
   <= List.length lines)%nat /\
  Forall (fun x => Transaction.Type_ x = "ORDER_FILL"
                   /\ (Transaction.Reason x = "MARKET_ORDER_TRADE_CLOSE"
                       \/ Transaction.Reason x = "TAKE_PROFIT_ORDER"))
    (fst (RunTransactions_loop (record_and change') lines cause tr [])) /\
  (List.length (fst (RunTransactions_loop (record_and change') lines cause tr []))
   <= List.length lines)%nat.
Proof.
  destruct (recorded_ticks change lines cause tick) as [Ht Hlt].
  destruct (recorded_fills change' lines cause tr) as [Hx Hlx].
  split; [|split; [exact Hlt|split; [|exact Hlx]]].
  - eapply Forall_impl; [|exact Ht]. intros k Hk.
    unfold Tick.IsTradeable in Hk. apply String.eqb_eq in Hk. auto.
  - eapply Forall_impl; [|exact Hx]. intros x Hc.
    apply closing_fill_spec. exact Hc.
Qed.

Lemma silent_line_keeps_status (line : string) (tick : Tick.t) :
  silent_on_status line = true ->
  Tick.Status (fst (Unmarshal.tick line tick)) = Tick.Status tick.
Proof.
  unfold silent_on_status. intros Hs.
  destruct (Json.parse line) as [v|] eqn:Hparse.
  - destruct v as [|b|lit|raw s|items|members].
    6: { apply (line_without_status_keeps_status line members tick Hparse).
         apply Forall_forall. intros kv Hin.
         rewrite forallb_forall in Hs. specialize (Hs kv Hin).
         apply negb_true_iff in Hs. exact Hs. }
    all: unfold Unmarshal.tick, Unmarshal.unmarshal; rewrite Hparse;
      reflexivity.
  - unfold Unmarshal.tick, Unmarshal.unmarshal. rewrite Hparse. reflexivity.
Qed.

(** X13: as long as the record is not tradeable, lines without a member
    named status cannot make it so.  From a record that is not tradeable,
    the zero Tick that [Run] starts with for one, a run of heartbeats (or
    of any lines that do not name the status) never reaches the handler,
    however many they are. *)
Theorem nothing_forwarded_before_a_status {A : Type} (f : handler A Tick.t)
  (lines : list string) (cause : error) (tick : Tick.t) (a : A) :
  Forall (fun line => silent_on_status line = true) lines ->
  Tick.IsTradeable tick = false ->
  fst (Run_loop f lines cause tick a) = a.
Proof.
  intros Hall. revert tick.
  induction Hall as [|line rest Hline _ IH]; intros tick Htr; [reflexivity|].
  cbn [Run_loop].
  pose proof (silent_line_keeps_status line tick Hline) as Hs.
  destruct (Unmarshal.tick line tick) as [tick1 [e|]]; [reflexivity|].
  cbn [fst] in Hs.
  assert (Htr1 : Tick.IsTradeable tick1 = false).
  { unfold Tick.IsTradeable in *. rewrite Hs. exact Htr. }
  rewrite Htr1. apply IH. exact Htr1.
Qed.

Lemma transaction_store_keeps_filter key store v x :
  Unmarshal.find_field key Unmarshal.transaction_fields = Some store ->
  names_type_or_reason key = false ->
  Transaction.Type_ (outcome_value (store v x)) = Transaction.Type_ x
  /\ Transaction.Reason (outcome_value (store v x)) = Transaction.Reason x.
Proof.
  unfold names_type_or_reason, Unmarshal.transaction_fields.
  cbn [Unmarshal.find_field]. intros Hfind Hkey.
  apply orb_false_iff in Hkey. destruct Hkey as [Hty Hre].
  repeat match type of Hfind with
  | (if String.eqb ?a ?b then _ else _) = _ =>
      let E := fresh "E" in
      destruct (String.eqb a b) eqn:E; [injection Hfind as <-|]
  end.
  all: try discriminate Hfind.
  all: try (destruct v; cbn;
            try match goal with
                | |- context [time_parse_json_string ?r] =>
                    destruct (time_parse_json_string r) as [? [?|]]
                | |- context [Unmarshal.parse_int64 ?l] =>
                    destruct (Unmarshal.parse_int64 l)
                end; split; reflexivity).
  all: match goal with
       | E : String.eqb _ (Unmarshal.foldName _) = true |- _ =>
           apply String.eqb_eq in E; cbn in E;
           rewrite <- E in Hty, Hre; cbn in Hty, Hre;
           first [discriminate Hty | discriminate Hre]
       end.
Qed.

Lemma object_members_keeps_filter members :
  Forall (fun kv => names_type_or_reason (fst kv) = false) members ->
  forall x saved,
    Transaction.Type_
      (outcome_value
         (Unmarshal.object_members Unmarshal.transaction_fields members x saved))
    = Transaction.Type_ x
    /\ Transaction.Reason
         (outcome_value
            (Unmarshal.object_members Unmarshal.transaction_fields members x saved))
       = Transaction.Reason x.
Proof.
  induction 1 as [|[key v] rest Hkey _ IH]; intros x saved;
    cbn [Unmarshal.object_members]; [split; reflexivity|].
  destruct (Unmarshal.find_field key Unmarshal.transaction_fields)
    as [store|] eqn:Hf; [|apply IH].
  pose proof (transaction_store_keeps_filter key store v x Hf Hkey) as [Ht Hr].
  destruct (store v x) as [x1 e1|x1 e1]; cbn in Ht, Hr |- *; [|auto].
  destruct (IH x1 (Unmarshal.saveError saved e1)) as [Ht' Hr'].
  rewrite Ht', Hr'. auto.
Qed.

(** X14: the Transaction record is reused like the Tick.  A line that is
    a JSON object naming neither the type nor the reason leaves both as
    the line before left them, so once it has decoded it is handed to the
    handler exactly when the record before the line was a closing fill. *)
Theorem line_without_type_inherits_the_filter {A : Type}
  (f : handler A Transaction.t) (line : string) (rest : list string)
  (cause : error) (members : list (string * Json.value))
  (tr tr1 : Transaction.t) (a : A) :
  Json.parse line = Some (Json.Object members) ->
  Forall (fun kv => names_type_or_reason (fst kv) = false) members ->
  Unmarshal.transaction line tr = (tr1, None) ->
  Transaction.Type_ tr1 = Transaction.Type_ tr /\
  Transaction.Reason tr1 = Transaction.Reason tr /\
  RunTransactions_loop f (line :: rest) cause tr a =
    (if closing_fill tr
     then let '(a', tr2) := f a tr1 in RunTransactions_loop f rest cause tr2 a'
     else RunTransactions_loop f rest cause tr1 a).
Proof.
  intros Hparse Hkeys Hu.
  assert (Hkeep : Transaction.Type_ tr1 = Transaction.Type_ tr
                  /\ Transaction.Reason tr1 = Transaction.Reason tr).
  { pose proof (object_members_keeps_filter members Hkeys tr None) as Hk.
    unfold Unmarshal.transaction, Unmarshal.unmarshal in Hu.
    rewrite Hparse in Hu. cbn [Unmarshal.into_struct] in Hu.
    destruct (Unmarshal.object_members _ _ _ _) as [x s|x e];
      injection Hu as <- _; exact Hk. }
  destruct Hkeep as [Ht Hr]. split; [exact Ht|]. split; [exact Hr|].
  rewrite (RunTransactions_loop_decoded f _ _ _ _ _ _ Hu).
  unfold closing_fill, Transaction.IsOrderFill,
    Transaction.IsMarketOrderTradeClose, Transaction.IsTakeProfitOrder.
  rewrite Ht, Hr. reflexivity.
Qed.

Lemma Run_loop_after_malformed {A} (f : handler A Tick.t) bad pre :
  Json.parse bad = None ->
  forall rest rest' cause cause' tick a,
    Run_loop f (pre ++ bad :: rest) cause tick a
    = Run_loop f (pre ++ bad :: rest') cause' tick a.
Proof.
  intros Hbad. induction pre as [|line pre IH];
    intros rest rest' cause cause' tick a; cbn [app Run_loop].
  - unfold Unmarshal.tick. rewrite (unmarshal_malformed _ _ _ _ Hbad).
    reflexivity.
  - destruct (Unmarshal.tick line tick) as [tick1 [e|]]; [reflexivity|].
    destruct (Tick.IsTradeable tick1); [|apply IH].
    destruct (f a tick1) as [a' tick2]. apply IH.
Qed.

Lemma RunTransactions_loop_after_malformed {A} (f : handler A Transaction.t)
  bad pre :
  Json.parse bad = None ->
  forall rest rest' cause cause' tr a,
    RunTransactions_loop f (pre ++ bad :: rest) cause tr a
    = RunTransactions_loop f (pre ++ bad :: rest') cause' tr a.
Proof.
  intros Hbad. induction pre as [|line pre IH];
    intros rest rest' cause cause' tr a; cbn [app RunTransactions_loop].
  - unfold Unmarshal.transaction. rewrite (unmarshal_malformed _ _ _ _ Hbad).
    reflexivity.
  - destruct (Unmarshal.transaction line tr) as [tr1 [e|]]; [reflexivity|].
    destruct (_ && _); [|apply IH].
    destruct (f a tr1) as [a' tr2]. apply IH.
Qed.

(** X15: a line that is not JSON makes everything after it irrelevant.
    Wherever it stands in the stream, what the loops return and what the
    handler has done depend on neither the lines that follow it nor the
    error the reader would have met after them. *)
Theorem nothing_after_a_malformed_line {A B : Type}
  (f : handler A Tick.t) (ft : handler B Transaction.t)
  (bad : string) (pre rest rest' : list string) (cause cause' : error)
  (tick : Tick.t) (tr : Transaction.t) (a : A) (b : B) :
  Json.parse bad = None ->
  Run_loop f (pre ++ bad :: rest) cause tick a
  = Run_loop f (pre ++ bad :: rest') cause' tick a /\
  RunTransactions_loop ft (pre ++ bad :: rest) cause tr b
  = RunTransactions_loop ft (pre ++ bad :: rest') cause' tr b.
Proof.
  intros Hbad. split.
  - apply Run_loop_after_malformed. exact Hbad.
  - apply RunTransactions_loop_after_malformed. exact Hbad.
Qed.

End ForwardExtras.

Lemma nothing_forwarded_before_a_status_witness :
  fst (Run_loop (L := Reference.library) record_call
         [heartbeat_line; heartbeat_line; heartbeat_line] "EOF" Tick.zero [])
  = [].
Proof.
  apply (nothing_forwarded_before_a_status (L := Reference.library)).
  - repeat (constructor; [vm_compute; reflexivity|]). constructor.
  - reflexivity.
Defined.

Lemma line_without_type_inherits_the_filter_witness :
  RunTransactions_loop (L := Reference.library) record_call
    [id_only_line] "EOF" take_profit_fill []
  = ([Transaction.set_Id "8" take_profit_fill], Some "reader.ReadBytes:EOF").
Proof.
  destruct (line_without_type_inherits_the_filter (L := Reference.library)
              (@record_call Transaction.t) id_only_line [] "EOF"
              [("id", Json.Str "8" "8")] take_profit_fill
              (Transaction.set_Id "8" take_profit_fill) [])
    as [_ [_ Hloop]].
  - vm_compute. reflexivity.
  - repeat (constructor; [vm_compute; reflexivity|]). constructor.
  - vm_compute. reflexivity.
  - rewrite Hloop. vm_compute. reflexivity.
Defined.

Lemma nothing_after_a_malformed_line_witness :
  Run_loop (L := Reference.library) record_call
    [price_line; wire "{'status':"; heartbeat_line] "EOF" Tick.zero []
  = Run_loop (L := Reference.library) record_call
      [price_line; wire "{'status':"] "connection reset" Tick.zero [].
Proof.
  destruct (nothing_after_a_malformed_line (L := Reference.library)
              (@record_call Tick.t) (@record_call Transaction.t)
              (wire "{'status':") [price_line] [heartbeat_line] []
              "EOF" "connection reset" Tick.zero Transaction.zero [] [])
    as [Hrun _].
  - vm_compute. reflexivity.
  - exact Hrun.
Defined.

(** ** What the reader hands to the decoder *)

Lemma string_append_assoc (a b c : string) : (a ++ b) ++ c = a ++ (b ++ c).
Proof. induction a as [|x a IH]; cbn; [reflexivity | rewrite IH; reflexivity]. Qed.

Lemma string_append_nil (a : string) : a ++ EmptyString = a.
Proof. induction a as [|x a IH]; cbn; [reflexivity | rewrite IH; reflexivity]. Qed.

Lemma string_of_list_ascii_app (l1 l2 : list ascii) :
  string_of_list_ascii (l1 ++ l2)
  = string_of_list_ascii l1 ++ string_of_list_ascii l2.
Proof. induction l1 as [|x l IH]; cbn; [reflexivity | rewrite IH; reflexivity]. Qed.

Lemma unrev_cons (c : ascii) (acc : list ascii) :
  Json.unrev (c :: acc) = Json.unrev acc ++ String c EmptyString.
Proof. unfold Json.unrev. cbn [rev]. apply string_of_list_ascii_app. Qed.

Lemma has_byte_app (b : Z) (s1 s2 : string) :
  has_byte b (s1 ++ s2) = has_byte b s1 || has_byte b s2.
Proof.
  induction s1 as [|x s IH]; cbn; [reflexivity|].
  rewrite IH. apply orb_assoc.
Qed.

Lemma code_newline (c : ascii) : code c = 10 -> c = newline.
Proof.
  unfold code. intros H.
  rewrite <- (ascii_N_embedding c).
  replace (N_of_ascii c) with 10%N by lia. reflexivity.
Qed.

(** A line under way: [acc] holds, last byte first, what has been read of
    it. *)
Lemma ReadBytes_lines_step (c : ascii) (r : string) (acc : list ascii) :
  ReadBytes_lines (String c r) acc =
    if code c =? 10 then Json.unrev (c :: acc) :: ReadBytes_lines r []
    else ReadBytes_lines r (c :: acc).
Proof. reflexivity. Qed.

(** X16: the lines the loops decode are the body cut after each newline,
    in order and without loss: joined again and followed by the bytes
    after the last newline they give back the body; every line ends with
    its newline and holds no other. *)
Theorem decoded_lines_partition_the_body (bytes : string) :
  exists tail,
    bytes = join (ReadBytes_lines bytes []) ++ tail
    /\ has_byte 10 tail = false
    /\ Forall (fun l => exists body,
                 l = body ++ String newline EmptyString
                 /\ has_byte 10 body = false)
         (ReadBytes_lines bytes []).
Proof.
  enough (Hgen : forall s acc,
            has_byte 10 (Json.unrev acc) = false ->
            exists tail,
              Json.unrev acc ++ s = join (ReadBytes_lines s acc) ++ tail
              /\ has_byte 10 tail = false
              /\ Forall (fun l => exists body,
                           l = body ++ String newline EmptyString
                           /\ has_byte 10 body = false)
                   (ReadBytes_lines s acc))
    by exact (Hgen bytes [] eq_refl).
  induction s as [|c r IH]; intros acc Hacc.
  - exists (Json.unrev acc). cbn [ReadBytes_lines join].
    rewrite string_append_nil.
    split; [reflexivity|]. split; [exact Hacc | constructor].
  - rewrite ReadBytes_lines_step. destruct (code c =? 10) eqn:Hc.
    + destruct (IH [] eq_refl) as [tail [Heq [Htail Hall]]].
      exists tail. cbn [join]. split; [|split; [exact Htail|]].
      * rewrite string_append_assoc, <- Heq, unrev_cons, string_append_assoc.
        reflexivity.
      * constructor; [|exact Hall]. exists (Json.unrev acc).
        split; [|exact Hacc]. rewrite unrev_cons.
        apply Z.eqb_eq in Hc. rewrite (code_newline c Hc). reflexivity.
    + destruct (IH (c :: acc)) as [tail [Heq [Htail Hall]]].
      { rewrite unrev_cons, has_byte_app, Hacc. cbn. rewrite Hc. reflexivity. }
      exists tail. split; [|split; [exact Htail | exact Hall]].
      rewrite <- Heq, unrev_cons, string_append_assoc. reflexivity.
Qed.

Lemma ReadBytes_lines_no_newline (tail : string) : forall acc,
  has_byte 10 tail = false -> ReadBytes_lines tail acc = [].
Proof.
  induction tail as [|c r IH]; intros acc H; cbn in *; [reflexivity|].
  apply orb_false_iff in H. destruct H as [Hc Hr].
  rewrite Hc. apply IH. exact Hr.
Qed.

Lemma ReadBytes_lines_tail (s tail : string) : forall acc,
  has_byte 10 tail = false ->
  ReadBytes_lines (s ++ tail) acc = ReadBytes_lines s acc.
Proof.
  induction s as [|c r IH]; intros acc H; cbn [append ReadBytes_lines].
  - apply ReadBytes_lines_no_newline. exact H.
  - destruct (code c =? 10); [rewrite IH by exact H; reflexivity|].
    apply IH. exact H.
Qed.

Section ReaderExtras.
Context {L : GoLibrary}.

(** X17: bytes after the last newline of the body are never decoded.  A
    last line that the far end did not terminate changes nothing in what
    [Run] and [RunTransactions] do and return; a body without any newline
    ends both at once with the reader's error and no call of the
    handler. *)
Theorem unterminated_tail_is_dropped {A B : Type}
  (f : handler A Tick.t) (ft : handler B Transaction.t)
  (g : Globals) (c : Client.t) (bytes tail : string) (cause : error)
  (a : A) (b : B) :
  has_byte 10 tail = false ->
  Run g c (respond (mkBody (bytes ++ tail) cause)) f a
  = Run g c (respond (mkBody bytes cause)) f a /\
  RunTransactions g c (respond (mkBody (bytes ++ tail) cause)) ft b
  = RunTransactions g c (respond (mkBody bytes cause)) ft b /\
  Run g c (respond (mkBody tail cause)) f a
  = (a, Some (errors_New_Sprint "reader.ReadBytes:" cause)) /\
  RunTransactions g c (respond (mkBody tail cause)) ft b
  = (b, Some (errors_New_Sprint "reader.ReadBytes:" cause)).
Proof.
  intros Htail. unfold Run, RunTransactions, respond. cbn [content failure].
  rewrite (ReadBytes_lines_tail bytes tail [] Htail).
  rewrite (ReadBytes_lines_no_newline tail [] Htail).
  repeat split; reflexivity.
Qed.

End ReaderExtras.

Lemma unterminated_tail_is_dropped_witness :
  Run (L := Reference.library) initial_globals
    (Client.mk "101-001" "secret" "USD_JPY" "PRICE")
    (respond (mkBody "{}" "EOF")) record_call []
  = ([], Some "reader.ReadBytes:EOF").
Proof.
  destruct (unterminated_tail_is_dropped (L := Reference.library)
              (@record_call Tick.t) (@record_call Transaction.t)
              initial_globals (Client.mk "101-001" "secret" "USD_JPY" "PRICE")
              price_line "{}" "EOF" [] []) as [_ [_ [Hrun _]]].
  - reflexivity.
  - exact Hrun.
Defined.

(** ** Members that name no field, and members that name one twice *)

Section MemberExtras.
Context {L : GoLibrary}.

Lemma tick_unknown_key key :
  kind_of_key tick_kinds key = None ->
  Unmarshal.find_field key Unmarshal.tick_fields = None.
Proof.
  unfold tick_kinds, Unmarshal.tick_fields.
  cbn [kind_of_key Unmarshal.find_field].
  repeat match goal with
  | |- context [String.eqb ?a ?b] =>
      destruct (String.eqb a b); [intros Hk; discriminate Hk|]
  end.
  reflexivity.
Qed.

Lemma transaction_unknown_key key :
  kind_of_key transaction_kinds key = None ->
  Unmarshal.find_field key Unmarshal.transaction_fields = None.
Proof.
  unfold transaction_kinds, Unmarshal.transaction_fields.
  cbn [kind_of_key Unmarshal.find_field].
  repeat match goal with
  | |- context [String.eqb ?a ?b] =>
      destruct (String.eqb a b); [intros Hk; discriminate Hk|]
  end.
  reflexivity.
Qed.

Lemma object_members_unknown {T} (fields : Unmarshal.field_table T) members :
  Forall (fun kv => Unmarshal.find_field (fst kv) fields = None) members ->
  forall x saved,
    Unmarshal.object_members fields members x saved
    = Unmarshal.Continue x saved.
Proof.
  induction 1 as [|[key v] rest Hkey _ IH]; intros x saved;
    cbn [Unmarshal.object_members]; [reflexivity|].
  cbn [fst] in Hkey. rewrite Hkey. apply IH.
Qed.

(** X18: members whose key names no field are ignored, whatever their
    values.  A line that is a JSON object of such members only decodes
    without error and leaves the record exactly as it was, so the loops
    treat it as they would treat the previous line again: [Run] calls the
    handler once more if the record is tradeable, [RunTransactions] if it
    is a closing fill. *)
Theorem foreign_members_are_ignored {A B : Type}
  (f : handler A Tick.t) (ft : handler B Transaction.t)
  (line : string) (rest : list string) (cause : error)
  (members : list (string * Json.value))
  (tick : Tick.t) (tr : Transaction.t) (a : A) (b : B) :
  Json.parse line = Some (Json.Object members) ->
  (Forall (fun kv => kind_of_key tick_kinds (fst kv) = None) members ->
   Unmarshal.tick line tick = (tick, None) /\
   Run_loop f (line :: rest) cause tick a =
     (if Tick.IsTradeable tick
      then let '(a', tick2) := f a tick in Run_loop f rest cause tick2 a'
      else Run_loop f rest cause tick a)) /\
  (Forall (fun kv => kind_of_key transaction_kinds (fst kv) = None) members ->
   Unmarshal.transaction line tr = (tr, None) /\
   RunTransactions_loop ft (line :: rest) cause tr b =
     (if closing_fill tr
      then let '(b', tr2) := ft b tr in RunTransactions_loop ft rest cause tr2 b'
      else RunTransactions_loop ft rest cause tr b)).
Proof.
  intros Hparse. split; intros Hall.
  - assert (Hu : Unmarshal.tick line tick = (tick, None)).
    { unfold Unmarshal.tick, Unmarshal.unmarshal. rewrite Hparse.
      cbn [Unmarshal.into_struct]. rewrite object_members_unknown; [reflexivity|].
      eapply Forall_impl; [|exact Hall]. intros kv. apply tick_unknown_key. }
    split; [exact Hu|]. apply Run_loop_decoded. exact Hu.
  - assert (Hu : Unmarshal.transaction line tr = (tr, None)).
    { unfold Unmarshal.transaction, Unmarshal.unmarshal. rewrite Hparse.
      cbn [Unmarshal.into_struct]. rewrite object_members_unknown; [reflexivity|].
      eapply Forall_impl; [|exact Hall]. intros kv.
      apply transaction_unknown_key. }
    split; [exact Hu|]. apply RunTransactions_loop_decoded. exact Hu.
Qed.

Lemma object_members_app {T} (fields : Unmarshal.field_table T) m1 m2 :
  forall x saved,
    Unmarshal.object_members fields (m1 ++ m2) x saved =
      match Unmarshal.object_members fields m1 x saved with
      | Unmarshal.Continue x' saved' => Unmarshal.object_members fields m2 x' saved'
      | Unmarshal.Abort x' e => Unmarshal.Abort x' e
      end.
Proof.
  induction m1 as [|[key v] rest IH]; intros x saved;
    cbn [app Unmarshal.object_members]; [reflexivity|].
  destruct (Unmarshal.find_field key fields) as [store|]; [|apply IH].
  destruct (store v x) as [x1 e1|x1 e1]; [apply IH | reflexivity].
Qed.

Lemma tick_store_continues key store v x :
  Unmarshal.find_field key Unmarshal.tick_fields = Some store ->
  exists x' e, store v x = Unmarshal.Continue x' e.
Proof.
  unfold Unmarshal.tick_fields. cbn [Unmarshal.find_field]. intros Hfind.
  repeat match type of Hfind with
  | (if String.eqb ?a ?b then _ else _) = _ =>
      destruct (String.eqb a b); [injection Hfind as <-|]
  end.
  all: try discriminate Hfind.
  all: destruct v; cbn;
       try match goal with
           | |- context [Unmarshal.into_quotes ?i ?o] =>
               destruct (Unmarshal.into_quotes i o)
           end; eauto.
Qed.

Lemma tick_members_continue members :
  forall x saved, exists x' saved',
    Unmarshal.object_members Unmarshal.tick_fields members x saved
    = Unmarshal.Continue x' saved'.
Proof.
  induction members as [|[key v] rest IH]; intros x saved;
    cbn [Unmarshal.object_members]; [eauto|].
  destruct (Unmarshal.find_field key Unmarshal.tick_fields) as [store|] eqn:Hf;
    [|apply IH].
  destruct (tick_store_continues key store v x Hf) as [x1 [e1 ->]]. apply IH.
Qed.

Lemma find_status_field (key : string) :
  names_status key = true ->
  Unmarshal.find_field key Unmarshal.tick_fields
  = Some (Unmarshal.into_string Tick.set_Status "Tick.status").
Proof.
  unfold names_status. intros H. apply String.eqb_eq in H.
  unfold Unmarshal.tick_fields. cbn [Unmarshal.find_field].
  rewrite H. reflexivity.
Qed.

(** X19: the key of a member is matched without regard to letter case,
    and of several members that name the status the last one counts: when
    the last of them carries a string, the record has that string as its
    status after the decode, whatever stood there before. *)
Theorem last_status_member_counts (line : string) (tick : Tick.t)
  (pre post : list (string * Json.value)) (key raw s : string) :
  Json.parse line = Some (Json.Object (pre ++ (key, Json.Str raw s) :: post)) ->
  names_status key = true ->
  Forall (fun kv => names_status (fst kv) = false) post ->
  Tick.Status (fst (Unmarshal.tick line tick)) = s.
Proof.
  intros Hparse Hkey Hpost.
  unfold Unmarshal.tick, Unmarshal.unmarshal. rewrite Hparse.
  cbn [Unmarshal.into_struct]. rewrite object_members_app.
  destruct (tick_members_continue pre tick None) as [x1 [s1 ->]].
  cbn [Unmarshal.object_members]. rewrite (find_status_field key Hkey).
  cbn [Unmarshal.into_string].
  pose proof (object_members_keeps_status post Hpost (Tick.set_Status s x1)
                (Unmarshal.saveError s1 None)) as Hs.
  destruct (Unmarshal.object_members _ post _ _); exact Hs.
Qed.

End MemberExtras.

Lemma foreign_members_are_ignored_witness :
  Unmarshal.tick (L := Reference.library) foreign_members_line
    (fst (Unmarshal.tick (L := Reference.library) price_line Tick.zero))
  = (fst (Unmarshal.tick (L := Reference.library) price_line Tick.zero), None).
Proof.
  destruct (foreign_members_are_ignored (L := Reference.library)
              (@record_call Tick.t) (@record_call Transaction.t)
              foreign_members_line [] "EOF"
              [("tradeable", Json.Boolean true);
               ("quoteHomeConversionFactors",
                Json.Object [("positiveUnits", Json.Str "1.0" "1.0")])]
              (fst (Unmarshal.tick (L := Reference.library) price_line Tick.zero))
              Transaction.zero [] []) as [Htick _].
  - vm_compute. reflexivity.
  - apply Htick.
    repeat (constructor; [vm_compute; reflexivity|]). constructor.
Defined.

Lemma last_status_member_counts_witness :
  Tick.Status
    (fst (Unmarshal.tick (L := Reference.library) two_status_line Tick.zero))
  = "halted".
Proof.
  apply (last_status_member_counts (L := Reference.library) two_status_line
           Tick.zero [("status", Json.Str "tradeable" "tradeable")]
           [("type", Json.Str "PRICE" "PRICE")] "STATUS" "halted" "halted").
  - vm_compute. reflexivity.
  - reflexivity.
  - repeat (constructor; [vm_compute; reflexivity|]). constructor.
Defined.

(** ** The order of the bids, and the zero instant *)

Lemma lex_le_antisym p q : lex_le p q -> lex_le q p -> p = q.
Proof.
  intros [H1|H1] [H2|H2]; auto.
  exfalso. eapply lex_lt_irrefl. eapply lex_lt_trans; eauto.
Qed.

Section OrderExtras.
Context {L : GoLibrary}.

Lemma parsed_prices_parse quotes vals :
  parsed_prices quotes vals -> parses_without_error quotes vals.
Proof. induction 1 as [|q v qs vs [Hq _] _ IH]; constructor; auto. Qed.

(** X20: [BestBid] does not depend on the order of the bids: two books
    whose bids parse as the same numbers, in any order and any number of
    times each, have equal best bids. *)
Theorem BestBid_ignores_the_order (k k' : Tick.t) (vals vals' : list float64) :
  parsed_prices (Tick.Bids k) vals ->
  parsed_prices (Tick.Bids k') vals' ->
  (forall v, In v vals <-> In v vals') ->
  exists m m',
    Tick.BestBid k = (m, None) /\ Tick.BestBid k' = (m', None)
    /\ f64_eqb m m' = true.
Proof.
  intros Hp Hp' Hsame.
  rewrite (BestBid_folds k vals (parsed_prices_parse _ _ Hp)).
  rewrite (BestBid_folds k' vals' (parsed_prices_parse _ _ Hp')).
  eexists. eexists. split; [reflexivity|]. split; [reflexivity|].
  pose proof (parsed_prices_numbers _ _ Hp) as Hn.
  pose proof (parsed_prices_numbers _ _ Hp') as Hn'.
  destruct (bid_fold_max vals f64_zero eq_refl Hn) as [Hr [Hin [Hle Hall]]].
  destruct (bid_fold_max vals' f64_zero eq_refl Hn') as [Hr' [Hin' [Hle' Hall']]].
  rewrite Forall_forall in Hall, Hall'.
  apply eqb_rank; auto. apply lex_le_antisym; apply leb_rank; auto.
  - destruct Hin as [->|Hin]; [exact Hle'|]. apply Hall', Hsame, Hin.
  - destruct Hin' as [->|Hin']; [exact Hle|]. apply Hall, Hsame, Hin'.
Qed.

(** X21: a timestamp at the zero instant is stored but not remembered.
    When the text of [Time] parses to the zero instant, [parseTime]
    returns it without error and writes it to the cache; the next call
    finds the cache empty all the same and parses the text the Tick then
    holds, with the error of that text if it has one. *)
Theorem zero_instant_is_parsed_again (k : Tick.t) (v : time_Time) :
  time_IsZero (Tick.parsedTime k) = true ->
  time_Parse_RFC3339Nano (Tick.Time k) = (v, None) ->
  time_IsZero v = true ->
  Tick.parseTime k = (Tick.set_parsedTime v k, (v, None)) /\
  (forall text : string,
     Tick.parseTime (Tick.set_Time text (Tick.set_parsedTime v k)) =
       match time_Parse_RFC3339Nano text with
       | (v', Some e') =>
           (Tick.set_Time text (Tick.set_parsedTime v k), (v', Some e'))
       | (v', None) =>
           (Tick.set_parsedTime v'
              (Tick.set_Time text (Tick.set_parsedTime v k)), (v', None))
       end).
Proof.
  intros Hz Hparse Hv. split.
  - rewrite parseTime_attempt by exact Hz. rewrite Hparse. reflexivity.
  - intros text. rewrite parseTime_attempt by exact Hv. reflexivity.
Qed.

End OrderExtras.

Lemma BestBid_ignores_the_order_witness :
  exists m m',
    Tick.BestBid (L := Reference.library) nan_book = (m, None)
    /\ Tick.BestBid (L := Reference.library) swapped_bids_book = (m', None)
    /\ f64_eqb m m' = true.
Proof.
  apply (BestBid_ignores_the_order (L := Reference.library)
           nan_book swapped_bids_book
           [S754_finite false 8279797546176479 (-46);
            S754_finite false 8279938283664835 (-46)]
           [S754_finite false 8279938283664835 (-46);
            S754_finite false 8279797546176479 (-46)]).
  - repeat (constructor; [split; vm_compute; reflexivity|]). constructor.
  - repeat (constructor; [split; vm_compute; reflexivity|]). constructor.
  - intros v. cbn. tauto.
Defined.

Lemma zero_instant_is_parsed_again_witness :
  Tick.parseTime (L := Reference.library)
    (Tick.set_Time "0001-01-01T00:00:00Z" Tick.zero)
  = (Tick.set_parsedTime time_zero
       (Tick.set_Time "0001-01-01T00:00:00Z" Tick.zero), (time_zero, None)).
Proof.
  apply (zero_instant_is_parsed_again (L := Reference.library)
           (Tick.set_Time "0001-01-01T00:00:00Z" Tick.zero) time_zero).
  - reflexivity.
  - vm_compute. reflexivity.
  - reflexivity.
Defined.

(** [BestAsk] does depend on the order: a zero counts when it comes last
    and not when it comes first. *)
Example BestAsk_depends_on_the_order :
  Tick.BestAsk (L := Reference.library)
    (Tick.set_Asks [Quote.mk f64_zero "0"; Quote.mk f64_zero "5"] Tick.zero)
  = (S754_finite false 5629499534213120 (-50), None)
  /\ Tick.BestAsk (L := Reference.library)
       (Tick.set_Asks [Quote.mk f64_zero "5"; Quote.mk f64_zero "0"] Tick.zero)
     = (f64_zero, None).
Proof. split; vm_compute; reflexivity. Qed.
